(** * cs_virtualmachine: the virtual machine reconciler of ansible-cloudstack

    A shallow embedding of [cs_virtualmachine.py]: the class
    [AnsibleCloudStack] (the resolvers the module uses and [_poll_job]),
    the class [AnsibleCloudStackVirtualMachine] (the transitions) and
    [main] (the dispatch on the desired state and the projection of the
    result).

    The module talks to a remote provider through the [cs] client and
    keeps a handful of fields on [self]; both are threaded explicitly as a
    state, together with the list of the calls made so far.  Python values
    are dynamically typed, so responses, parameters and snapshots live in
    one type [value], and every subscript or membership test can raise.

    The file is half way from module-level functions to the class, and a
    few of its lines do not parse.  Each such line is read the way the
    lines around it are written, and the definition that embeds it says
    so: [get_vm] (its first line), [get_template_or_iso_id] (the test of
    the ISO loop), [create_vm] (a stray bracket) and [main] (which still
    calls the transitions as functions).  The connection to the provider
    ([_connect], the check for the [cs] library) is taken as made, and
    [get_ip_address_id], [get_vm_id] and [get_os_type_id], which this
    module never calls, are left out. *)

From Stdlib Require Import List String Ascii ZArith Bool Lia RelationClasses.
Import ListNotations.
Open Scope string_scope.
Open Scope list_scope.
Set Warnings "-register-all".

(** ** Python values *)

Inductive value : Type :=
| VNone
| VBool (b : bool)
| VInt (z : Z)
| VStr (s : string)
| VList (l : list value)
| VDict (d : list (string * value)).

Definition dict := list (string * value).

(** The message of [module.fail_json(msg=...)]: a literal, or a format
    with one [%s] and the value it is applied to ([fmt % arg]), kept
    apart. *)
Inductive message : Type :=
| Text (s : string)
| Format (fmt : string) (arg : value).

(** The exceptions the module can end with; [FailJson] is the exit
    through [module.fail_json]. *)
Inductive exn : Type :=
| FailJson (msg : message)
| CloudStackException (msg : string)
| KeyError (k : string)
| IndexError
| TypeError
| AttributeError
| NameError (n : string).

(** The outcome of a run: a value, an exception, or a polling loop that
    was cut off after the number of rounds it was allowed. *)
Inductive res (A : Type) : Type :=
| Ret (a : A)
| Exc (e : exn)
| Cut.
Arguments Ret {A} a.
Arguments Exc {A} e.
Arguments Cut {A}.

(** *** Truthiness, equality, membership *)

Definition truthy (v : value) : bool :=
  match v with
  | VNone => false
  | VBool b => b
  | VInt z => negb (Z.eqb z 0)
  | VStr s => negb (String.eqb s "")
  | VList l => match l with [] => false | _ => true end
  | VDict d => match d with [] => false | _ => true end
  end.

Fixpoint dict_get (k : string) (d : dict) : option value :=
  match d with
  | [] => None
  | (k', v) :: d' => if String.eqb k k' then Some v else dict_get k d'
  end.

Definition dict_has (k : string) (d : dict) : bool :=
  match dict_get k d with Some _ => true | None => false end.

(** [d[k] = v]: an existing key keeps its place, a new one goes last. *)
Fixpoint dict_set (k : string) (v : value) (d : dict) : dict :=
  match d with
  | [] => [(k, v)]
  | (k', v') :: d' =>
      if String.eqb k k' then (k, v) :: d' else (k', v') :: dict_set k v d'
  end.

(** [a == b].  [True] and [False] compare as [1] and [0]; two dicts are
    equal when they have as many entries and every entry of the first is
    found, equal, in the second. *)
Fixpoint py_eq (a b : value) {struct a} : bool :=
  match a, b with
  | VNone, VNone => true
  | VBool x, VBool y => Bool.eqb x y
  | VBool x, VInt y => Z.eqb (if x then 1 else 0) y
  | VInt x, VBool y => Z.eqb x (if y then 1 else 0)
  | VInt x, VInt y => Z.eqb x y
  | VStr x, VStr y => String.eqb x y
  | VList x, VList y =>
      (fix go (x : list value) (y : list value) {struct x} : bool :=
         match x, y with
         | [], [] => true
         | a' :: x', b' :: y' => py_eq a' b' && go x' y'
         | _, _ => false
         end) x y
  | VDict x, VDict y =>
      Nat.eqb (List.length x) (List.length y) &&
      (fix go (x : list (string * value)) {struct x} : bool :=
         match x with
         | [] => true
         | (k, a') :: x' =>
             match dict_get k y with
             | Some b' => py_eq a' b'
             | None => false
             end && go x'
         end) x
  | _, _ => false
  end.

Definition py_ne (a b : value) : bool := negb (py_eq a b).

(** [x in [a, b, c]] *)
Definition in_list (x : value) (l : list value) : bool :=
  existsb (py_eq x) l.

Fixpoint is_substring (s t : string) {struct t} : bool :=
  String.prefix s t ||
  match t with
  | EmptyString => false
  | String _ t' => is_substring s t'
  end.

(** [x in v]: a key of a dict, an element of a list, a substring of a
    string.  Dict keys are strings here, so another hashable [x] is in no
    dict, and a list or a dict cannot be hashed. *)
Definition contains_val (x : value) (v : value) : res bool :=
  match v with
  | VDict d =>
      match x with
      | VStr k => Ret (dict_has k d)
      | VList _ | VDict _ => Exc TypeError
      | _ => Ret false
      end
  | VList l => Ret (in_list x l)
  | VStr s =>
      match x with
      | VStr k => Ret (is_substring k s)
      | _ => Exc TypeError
      end
  | _ => Exc TypeError
  end.

(** ['k' in v] with a literal key. *)
Definition contains (k : string) (v : value) : res bool :=
  contains_val (VStr k) v.

(** [v['k']] *)
Definition subscript (v : value) (k : string) : res value :=
  match v with
  | VDict d =>
      match dict_get k d with
      | Some x => Ret x
      | None => Exc (KeyError k)
      end
  | _ => Exc TypeError
  end.

(** [v[x]] for a key that is itself a value. *)
Definition subscript_val (v : value) (x : value) : res value :=
  match x with
  | VStr k => subscript v k
  | _ => Exc TypeError
  end.

(** [v[0]] *)
Definition first (v : value) : res value :=
  match v with
  | VList (x :: _) => Ret x
  | VList [] => Exc IndexError
  | VStr (String c _) => Ret (VStr (String c EmptyString))
  | VStr EmptyString => Exc IndexError
  | VDict _ => Exc (KeyError "0")
  | _ => Exc TypeError
  end.

Fixpoint chars (s : string) : list value :=
  match s with
  | EmptyString => []
  | String c s' => VStr (String c EmptyString) :: chars s'
  end.

(** [for x in v]: the elements of a list, the keys of a dict, the
    characters of a string. *)
Definition iter (v : value) : res (list value) :=
  match v with
  | VList l => Ret l
  | VDict d => Ret (map (fun kv => VStr (fst kv)) d)
  | VStr s => Ret (chars s)
  | _ => Exc TypeError
  end.

(** *** Strings *)

(** [str.lower] on the letters [A] to [Z]; the states a provider reports
    and the names compared here are ASCII. *)
Definition lower_ascii (c : ascii) : ascii :=
  let n := nat_of_ascii c in
  if (Nat.leb 65 n && Nat.leb n 90)%bool then ascii_of_nat (n + 32) else c.

Fixpoint lower_string (s : string) : string :=
  match s with
  | EmptyString => EmptyString
  | String c s' => String (lower_ascii c) (lower_string s')
  end.

(** [v.lower()] *)
Definition lower (v : value) : res string :=
  match v with
  | VStr s => Ret (lower_string s)
  | _ => Exc AttributeError
  end.

Fixpoint join_strings (sep : string) (l : list string) : string :=
  match l with
  | [] => ""
  | [s] => s
  | s :: l' => (s ++ sep ++ join_strings sep l')%string
  end.

Fixpoint strings_of (l : list value) : option (list string) :=
  match l with
  | [] => Some []
  | VStr s :: l' =>
      match strings_of l' with
      | Some r => Some (s :: r)
      | None => None
      end
  | _ :: _ => None
  end.

(** [','.join(v)] *)
Definition join (sep : string) (v : value) : res value :=
  match iter v with
  | Ret l =>
      match strings_of l with
      | Some ss => Ret (VStr (join_strings sep ss))
      | None => Exc TypeError
      end
  | Exc e => Exc e
  | Cut => Cut
  end.

(** [base64.b64encode(s)] *)
Definition b64_alphabet : string :=
  "ABCDEFGHIJKLMNOPQRSTUVWXYZabcdefghijklmnopqrstuvwxyz0123456789+/".

Definition b64_char (n : nat) : ascii :=
  match String.get n b64_alphabet with
  | Some c => c
  | None => "="%char
  end.

Fixpoint b64_groups (l : list nat) {struct l} : string :=
  match l with
  | [] => ""
  | [a] =>
      String (b64_char (a / 4))
        (String (b64_char (a mod 4 * 16)) "==")
  | [a; b] =>
      String (b64_char (a / 4))
        (String (b64_char (a mod 4 * 16 + b / 16))
           (String (b64_char (b mod 16 * 4)) "="))
  | a :: b :: c :: l' =>
      String (b64_char (a / 4))
        (String (b64_char (a mod 4 * 16 + b / 16))
           (String (b64_char (b mod 16 * 4 + c / 64))
              (String (b64_char (c mod 64)) (b64_groups l'))))
  end.

Definition b64encode (s : string) : string :=
  b64_groups (map nat_of_ascii (list_ascii_of_string s)).

(** ** The provider and the state of a run *)

(** The calls the module makes on the [cs] client.  Keyword arguments are
    the constructor's arguments; [deployVirtualMachine] takes the whole
    [args] dict. *)
Inductive call : Type :=
| listProjects
| listZones
| listHypervisors
| listServiceOfferings
| listTemplates (templatefilter : string)
| listIsos
| listDiskOfferings
| listNetworks (zoneid projectid : value)
| listVirtualMachines (projectid : value)
| queryAsyncJobResult (jobid : value)
| deployVirtualMachine (args : dict)
| startVirtualMachine (id : value)
| stopVirtualMachine (id : value)
| rebootVirtualMachine (id : value)
| destroyVirtualMachine (id : value) (expunge : bool)
| expungeVirtualMachine (id : value)
| scaleVirtualMachine (id serviceofferingid : value).

(** The calls that ask the provider to change the machine. *)
Definition mutating (c : call) : bool :=
  match c with
  | deployVirtualMachine _ | startVirtualMachine _ | stopVirtualMachine _
  | rebootVirtualMachine _ | destroyVirtualMachine _ _
  | expungeVirtualMachine _ | scaleVirtualMachine _ _ => true
  | _ => false
  end.

Definition polling (c : call) : bool :=
  match c with
  | queryAsyncJobResult _ => true
  | _ => false
  end.

(** The client answers with a structure, or raises [CloudStackException]. *)
Inductive reply : Type :=
| Reply (v : value)
| Refuse (msg : string).

(** The remote provider, as the client shows it: a state of its own and
    an answer to every call. *)
Class Provider (P : Type) : Type :=
  request : call -> P -> reply * P.

(** [module.params] and [module.check_mode]. *)
Record module : Type := {
  params : dict;
  check_mode : bool
}.

(** [module.params.get(k)] *)
Definition param (m : module) (k : string) : value :=
  match dict_get k (params m) with
  | Some v => v
  | None => VNone
  end.

(** The provider, the calls made (oldest first), the seconds slept, and
    the fields of [self]: [self.result['changed']], [self.vm] and the
    cached identifiers. *)
Record world (P : Type) : Type := {
  cloud : P;
  calls : list call;
  slept : nat;
  result_changed : bool;
  self_vm : value;
  self_project_id : value;
  self_zone_id : value;
  self_hypervisor : value
}.
Arguments cloud {P} w.
Arguments calls {P} w.
Arguments slept {P} w.
Arguments result_changed {P} w.
Arguments self_vm {P} w.
Arguments self_project_id {P} w.
Arguments self_zone_id {P} w.
Arguments self_hypervisor {P} w.

(** [__init__]: nothing called, nothing cached, [changed] false. *)
Definition init {P : Type} (p : P) : world P :=
  {| cloud := p; calls := []; slept := 0; result_changed := false;
     self_vm := VNone; self_project_id := VNone; self_zone_id := VNone;
     self_hypervisor := VNone |}.

Definition M (P A : Type) : Type := world P -> res A * world P.

Definition ret {P A : Type} (a : A) : M P A := fun w => (Ret a, w).

Definition raise {P A : Type} (e : exn) : M P A := fun w => (Exc e, w).

Definition bind {P A B : Type} (c : M P A) (k : A -> M P B) : M P B :=
  fun w =>
    match c w with
    | (Ret a, w') => k a w'
    | (Exc e, w') => (Exc e, w')
    | (Cut, w') => (Cut, w')
    end.

Definition lift {P A : Type} (r : res A) : M P A := fun w => (r, w).

Definition rbind {A B : Type} (r : res A) (k : A -> res B) : res B :=
  match r with
  | Ret a => k a
  | Exc e => Exc e
  | Cut => Cut
  end.

Declare Scope run_scope.
Delimit Scope run_scope with run.
Notation "x <- c ;; k" := (bind c (fun x => k))
  (at level 61, c at next level, right associativity) : run_scope.
Notation "c ;; k" := (bind c (fun _ => k))
  (at level 61, right associativity) : run_scope.
Notation "x <~ c ;; k" := (rbind c (fun x => k))
  (at level 61, c at next level, right associativity).
Open Scope run_scope.

(** [module.fail_json(msg=...)] *)
Definition fail_json {P A : Type} (msg : message) : M P A :=
  raise (FailJson msg).

(** The world after call [c] left the provider in state [p']. *)
Definition record_call {P : Type} (c : call) (p' : P) (w : world P)
  : world P :=
  {| cloud := p'; calls := calls w ++ [c]; slept := slept w;
     result_changed := result_changed w; self_vm := self_vm w;
     self_project_id := self_project_id w; self_zone_id := self_zone_id w;
     self_hypervisor := self_hypervisor w |}.

Definition add_sleep {P : Type} (n : nat) (w : world P) : world P :=
  {| cloud := cloud w; calls := calls w; slept := slept w + n;
     result_changed := result_changed w; self_vm := self_vm w;
     self_project_id := self_project_id w; self_zone_id := self_zone_id w;
     self_hypervisor := self_hypervisor w |}.

Definition mark_changed {P : Type} (w : world P) : world P :=
  {| cloud := cloud w; calls := calls w; slept := slept w;
     result_changed := true; self_vm := self_vm w;
     self_project_id := self_project_id w; self_zone_id := self_zone_id w;
     self_hypervisor := self_hypervisor w |}.

Definition store_vm {P : Type} (v : value) (w : world P) : world P :=
  {| cloud := cloud w; calls := calls w; slept := slept w;
     result_changed := result_changed w; self_vm := v;
     self_project_id := self_project_id w; self_zone_id := self_zone_id w;
     self_hypervisor := self_hypervisor w |}.

Definition store_project_id {P : Type} (v : value) (w : world P)
  : world P :=
  {| cloud := cloud w; calls := calls w; slept := slept w;
     result_changed := result_changed w; self_vm := self_vm w;
     self_project_id := v; self_zone_id := self_zone_id w;
     self_hypervisor := self_hypervisor w |}.

Definition store_zone_id {P : Type} (v : value) (w : world P) : world P :=
  {| cloud := cloud w; calls := calls w; slept := slept w;
     result_changed := result_changed w; self_vm := self_vm w;
     self_project_id := self_project_id w; self_zone_id := v;
     self_hypervisor := self_hypervisor w |}.

Definition store_hypervisor {P : Type} (v : value) (w : world P)
  : world P :=
  {| cloud := cloud w; calls := calls w; slept := slept w;
     result_changed := result_changed w; self_vm := self_vm w;
     self_project_id := self_project_id w; self_zone_id := self_zone_id w;
     self_hypervisor := v |}.

(** [self.cs.<call>(...)]: the call is recorded and the provider moves. *)
Definition api {P : Type} `{Provider P} (c : call) : M P value :=
  fun w =>
    match request c (cloud w) with
    | (Reply v, p') => (Ret v, record_call c p' w)
    | (Refuse msg, p') => (Exc (CloudStackException msg), record_call c p' w)
    end.

(** [time.sleep(n)] *)
Definition sleep {P : Type} (n : nat) : M P unit :=
  fun w => (Ret tt, add_sleep n w).

(** [self.result['changed'] = True] *)
Definition set_changed {P : Type} : M P unit :=
  fun w => (Ret tt, mark_changed w).

(** [self.vm = v] *)
Definition set_vm {P : Type} (v : value) : M P unit :=
  fun w => (Ret tt, store_vm v w).

(** [self.project_id = v] *)
Definition set_project_id {P : Type} (v : value) : M P unit :=
  fun w => (Ret tt, store_project_id v w).

(** [self.zone_id = v] *)
Definition set_zone_id {P : Type} (v : value) : M P unit :=
  fun w => (Ret tt, store_zone_id v w).

(** [self.hypervisor = v] *)
Definition set_hypervisor {P : Type} (v : value) : M P unit :=
  fun w => (Ret tt, store_hypervisor v w).

Definition read {P A : Type} (f : world P -> A) : M P A :=
  fun w => (Ret (f w), w).

(** ** Loops over listings *)

(** [[x[f1], x[f2], ...]]: the subscripts are taken in order, and the
    first missing one raises. *)
Fixpoint fields_of (x : value) (fs : list string) : res (list value) :=
  match fs with
  | [] => Ret []
  | f :: fs' =>
      a <~ subscript x f ;;
      r <~ fields_of x fs' ;;
      Ret (a :: r)
  end.

(** [for x in l: if sel in [x[f1], ...]: <leave with x>] *)
Fixpoint find_by (sel : value) (fs : list string) (l : list value)
  : res (option value) :=
  match l with
  | [] => Ret None
  | x :: l' =>
      vs <~ fields_of x fs ;;
      if in_list sel vs then Ret (Some x) else find_by sel fs l'
  end.

(** [for h in l: if hypervisor.lower() == h['name'].lower(): <leave>] *)
Fixpoint find_hypervisor (hypervisor : value) (l : list value)
  : res (option value) :=
  match l with
  | [] => Ret None
  | h :: l' =>
      a <~ lower hypervisor ;;
      n <~ subscript h "name" ;;
      b <~ lower n ;;
      if String.eqb a b then Ret (Some h) else find_hypervisor hypervisor l'
  end.

(** [for n in l: if n['name'] in names or n['id'] in names:
    network_ids.append(n['id'])] *)
Fixpoint collect_networks (names : value) (l : list value)
  : res (list value) :=
  match l with
  | [] => Ret []
  | n :: l' =>
      nm <~ subscript n "name" ;;
      a <~ contains_val nm names ;;
      hit <~ (if a then Ret true
              else (i <~ subscript n "id" ;; contains_val i names)) ;;
      r0 <~ (if hit then (i <~ subscript n "id" ;; Ret [i]) else Ret []) ;;
      r <~ collect_networks names l' ;;
      Ret (r0 ++ r)
  end.

(** [for tag in l: tags[tag['key']] = tag['value']].  Dicts are keyed by
    strings here; a tag whose key is not a string is reported as
    [TypeError]. *)
Fixpoint collect_tags (l : list value) (tags : dict) : res dict :=
  match l with
  | [] => Ret tags
  | tag :: l' =>
      k <~ subscript tag "key" ;;
      v <~ subscript tag "value" ;;
      match k with
      | VStr key => collect_tags l' (dict_set key v tags)
      | _ => Exc TypeError
      end
  end.

(** [for nic in l: if nic['isdefault']: result['default_ip'] =
    nic['ipaddress']] *)
Fixpoint default_ip (l : list value) (result : dict) : res dict :=
  match l with
  | [] => Ret result
  | nic :: l' =>
      d <~ subscript nic "isdefault" ;;
      if truthy d then
        ip <~ subscript nic "ipaddress" ;;
        default_ip l' (dict_set "default_ip" ip result)
      else default_ip l' result
  end.

(** [if k in vm: result[k'] = vm[k]] *)
Definition copy_key (vm : value) (k k' : string) (result : dict)
  : res dict :=
  h <~ contains k vm ;;
  if h then (v <~ subscript vm k ;; Ret (dict_set k' v result))
  else Ret result.

(** ** class AnsibleCloudStack *)

Section Methods.

Context {P : Type} `{Provider P}.

(** The module the object was built with, and the number of rounds a
    polling loop may take before the run is cut. *)
Variable m : module.
Variable fuel : nat.

(** [get_project_id] *)
Definition get_project_id : M P value :=
  cached <- read self_project_id ;;
  if truthy cached then ret cached
  else
    let project := param m "project" in
    if negb (truthy project) then ret VNone
    else
      projects <- api listProjects ;;
      found <- (if truthy projects then
                  ps <- lift (subscript projects "project") ;;
                  l <- lift (iter ps) ;;
                  lift (find_by project ["name"; "displaytext"; "id"] l)
                else ret None) ;;
      match found with
      | Some p =>
          i <- lift (subscript p "id") ;;
          set_project_id i ;;
          read self_project_id
      | None => fail_json (Format "project '%s' not found" project)
      end.

(** [get_zone_id] *)
Definition get_zone_id : M P value :=
  cached <- read self_zone_id ;;
  if truthy cached then ret cached
  else
    let zone := param m "zone" in
    zones <- api listZones ;;
    if negb (truthy zone) then
      zs <- lift (subscript zones "zone") ;;
      z <- lift (first zs) ;;
      i <- lift (subscript z "id") ;;
      set_zone_id i ;;
      read self_zone_id
    else
      found <- (if truthy zones then
                  zs <- lift (subscript zones "zone") ;;
                  l <- lift (iter zs) ;;
                  lift (find_by zone ["name"; "id"] l)
                else ret None) ;;
      match found with
      | Some z =>
          i <- lift (subscript z "id") ;;
          set_zone_id i ;;
          read self_zone_id
      | None => fail_json (Format "zone '%s' not found" zone)
      end.

(** [get_hypervisor] *)
Definition get_hypervisor : M P value :=
  cached <- read self_hypervisor ;;
  if truthy cached then ret cached
  else
    let hypervisor := param m "hypervisor" in
    hypervisors <- api listHypervisors ;;
    if negb (truthy hypervisor) then
      hs <- lift (subscript hypervisors "hypervisor") ;;
      h <- lift (first hs) ;;
      n <- lift (subscript h "name") ;;
      set_hypervisor n ;;
      read self_hypervisor
    else
      hs <- lift (subscript hypervisors "hypervisor") ;;
      l <- lift (iter hs) ;;
      found <- lift (find_hypervisor hypervisor l) ;;
      match found with
      | Some h =>
          n <- lift (subscript h "name") ;;
          set_hypervisor n ;;
          read self_hypervisor
      | None => fail_json (Format "Hypervisor '%s' not found" hypervisor)
      end.

(** The [while True] of [_poll_job]: one round queries the job; the loop
    is left when [jobstatus] is not [0] and a [jobresult] is there, and
    sleeps two seconds otherwise. *)
Fixpoint poll_loop (n : nat) (job key : value) {struct n} : M P value :=
  match n with
  | O => fun w => (Cut, w)
  | S n' =>
      jobid <- lift (subscript job "jobid") ;;
      r <- api (queryAsyncJobResult jobid) ;;
      status <- lift (subscript r "jobstatus") ;;
      finished <- (if py_ne status (VInt 0)
                   then lift (contains "jobresult" r)
                   else ret false) ;;
      if (finished : bool) then
        jr <- lift (subscript r "jobresult") ;;
        err <- lift (contains "errortext" jr) ;;
        if (err : bool) then
          e <- lift (subscript jr "errortext") ;;
          fail_json (Format "Failed: '%s'" e)
        else
          found <- (if truthy key then lift (contains_val key jr)
                    else ret false) ;;
          if (found : bool) then lift (subscript_val jr key)
          else ret job
      else
        sleep 2 ;;
        poll_loop n' job key
  end.

(** [_poll_job] *)
Definition _poll_job (job key : value) : M P value :=
  has <- lift (contains "jobid" job) ;;
  if (has : bool) then poll_loop fuel job key else ret job.

(** ** class AnsibleCloudStackVirtualMachine *)

(** [get_service_offering_id] *)
Definition get_service_offering_id : M P value :=
  let service_offering := param m "service_offering" in
  service_offerings <- api listServiceOfferings ;;
  if truthy service_offerings then
    if negb (truthy service_offering) then
      l <- lift (subscript service_offerings "serviceoffering") ;;
      s <- lift (first l) ;;
      lift (subscript s "id")
    else
      so <- lift (subscript service_offerings "serviceoffering") ;;
      l <- lift (iter so) ;;
      found <- lift (find_by service_offering ["name"; "id"] l) ;;
      match found with
      | Some s => lift (subscript s "id")
      | None =>
          fail_json (Format "Service offering '%s' not found"
                            service_offering)
      end
  else
    fail_json (Format "Service offering '%s' not found" service_offering).

(** [get_template_or_iso_id].  The ISO loop's test is written
    [if iso i [ i['displaytext'], i['name'], i['id']:] in the file; it is
    read as the membership test of the template loop above it. *)
Definition get_template_or_iso_id : M P value :=
  let template := param m "template" in
  let iso := param m "iso" in
  if negb (truthy template) && negb (truthy iso) then
    fail_json (Text "Template or ISO is required.")
  else if truthy template && truthy iso then
    fail_json (Text "Template are ISO are mutually exclusive.")
  else if truthy template then
    templates <- api (listTemplates "executable") ;;
    found <- (if truthy templates then
                ts <- lift (subscript templates "template") ;;
                l <- lift (iter ts) ;;
                lift (find_by template ["displaytext"; "name"; "id"] l)
              else ret None) ;;
    match found with
    | Some t => lift (subscript t "id")
    | None => fail_json (Format "Template '%s' not found" template)
    end
  else if truthy iso then
    isos <- api listIsos ;;
    found <- (if truthy isos then
                il <- lift (subscript isos "iso") ;;
                l <- lift (iter il) ;;
                lift (find_by iso ["displaytext"; "name"; "id"] l)
              else ret None) ;;
    match found with
    | Some i => lift (subscript i "id")
    | None => fail_json (Format "ISO '%s' not found" iso)
    end
  else ret VNone.

(** [get_disk_offering_id] *)
Definition get_disk_offering_id : M P value :=
  let disk_offering := param m "disk_offering" in
  if negb (truthy disk_offering) then ret VNone
  else
    disk_offerings <- api listDiskOfferings ;;
    found <- (if truthy disk_offerings then
                ds <- lift (subscript disk_offerings "diskoffering") ;;
                l <- lift (iter ds) ;;
                lift (find_by disk_offering ["name"; "id"] l)
              else ret None) ;;
    match found with
    | Some d => lift (subscript d "id")
    | None =>
        fail_json (Format "Disk offering '%s' not found" disk_offering)
    end.

(** [get_vm].  Its first line is written [vm = self.get_vm():] in the
    file; it is read as [vm = self.vm], the field that [__init__] sets to
    [None], that the loop assigns and that the method returns. *)
Definition get_vm : M P value :=
  vm <- read self_vm ;;
  (if negb (truthy vm) then
     let vm_name := param m "name" in
     projectid <- get_project_id ;;
     vms <- api (listVirtualMachines projectid) ;;
     if truthy vms then
       vs <- lift (subscript vms "virtualmachine") ;;
       l <- lift (iter vs) ;;
       found <- lift (find_by vm_name ["name"; "displayname"; "id"] l) ;;
       match found with
       | Some v => set_vm v
       | None => ret tt
       end
     else ret tt
   else ret tt) ;;
  read self_vm.

(** [get_network_ids] *)
Definition get_network_ids : M P value :=
  let network_names := param m "networks" in
  if negb (truthy network_names) then ret VNone
  else
    zoneid <- get_zone_id ;;
    projectid <- get_project_id ;;
    networks <- api (listNetworks zoneid projectid) ;;
    if truthy networks then
      ns <- lift (subscript networks "network") ;;
      l <- lift (iter ns) ;;
      ids <- lift (collect_networks network_names l) ;;
      ret (VList ids)
    else ret (VList []).

(** [if 'errortext' in r: self.module.fail_json(msg="Failed: '%s'" %
    r['errortext'])] *)
Definition fail_on_errortext (r : value) : M P unit :=
  err <- lift (contains "errortext" r) ;;
  if (err : bool) then
    e <- lift (subscript r "errortext") ;;
    fail_json (Format "Failed: '%s'" e)
  else ret tt.

(** [poll_async = self.module.params.get('poll_async')] and
    [if poll_async: vm = self._poll_job(r, 'virtualmachine')]; [otherwise]
    is what [vm] holds when the job is not polled. *)
Definition poll_when_async (r otherwise : value) : M P value :=
  let poll_async := param m "poll_async" in
  if truthy poll_async then _poll_job r (VStr "virtualmachine")
  else ret otherwise.

(** [vm['state'].lower()] *)
Definition state_of (vm : value) : res string :=
  s <~ subscript vm "state" ;;
  lower s.

(** The [args] of [create_vm], from [args = {}] to
    [args['affinitygroupnames'] = ...].  The line that sets
    [args['templateid']] has one closing bracket too many in the file; it
    is read without it. *)
Definition create_args : M P dict :=
  templateid <- get_template_or_iso_id ;;
  zoneid <- get_zone_id ;;
  serviceofferingid <- get_service_offering_id ;;
  projectid <- get_project_id ;;
  network_ids <- get_network_ids ;;
  networkids <- lift (join "," network_ids) ;;
  diskofferingid <- get_disk_offering_id ;;
  hypervisor <- get_hypervisor ;;
  let args :=
    [("templateid", templateid); ("zoneid", zoneid);
     ("serviceofferingid", serviceofferingid); ("projectid", projectid);
     ("networkids", networkids); ("diskofferingid", diskofferingid);
     ("hypervisor", hypervisor); ("name", param m "name");
     ("group", param m "group"); ("keypair", param m "ssh_key");
     ("size", param m "disk_size")] in
  let user_data := param m "user_data" in
  args <- (if truthy user_data then
             match user_data with
             | VStr u => ret (dict_set "userdata" (VStr (b64encode u)) args)
             | _ => raise TypeError
             end
           else ret args) ;;
  let display_name := param m "display_name" in
  let display_name :=
    if negb (truthy display_name) then param m "name" else display_name in
  let args := dict_set "displayname" display_name args in
  let security_group_name_list := param m "security_groups" in
  security_group_names <-
    (if truthy security_group_name_list
     then lift (join "," security_group_name_list)
     else ret (VStr "")) ;;
  let args := dict_set "securitygroupnames" security_group_names args in
  let affinity_group_name_list := param m "affinity_groups" in
  affinity_group_names <-
    (if truthy affinity_group_name_list
     then lift (join "," affinity_group_name_list)
     else ret (VStr "")) ;;
  ret (dict_set "affinitygroupnames" affinity_group_names args).

(** [create_vm] *)
Definition create_vm : M P value :=
  vm <- get_vm ;;
  if negb (truthy vm) then
    set_changed ;;
    args <- create_args ;;
    if negb (check_mode m) then
      vm <- api (deployVirtualMachine args) ;;
      fail_on_errortext vm ;;
      poll_when_async vm vm
    else ret vm
  else ret vm.

(** [stop_vm] *)
Definition stop_vm : M P value :=
  vm <- get_vm ;;
  (if negb (truthy vm) then
     fail_json (Format "Virtual machine named '%s' not found"
                       (param m "name"))
   else ret tt) ;;
  s <- lift (state_of vm) ;;
  if String.eqb s "starting" && negb (String.eqb s "running") then
    set_changed ;;
    if negb (check_mode m) then
      i <- lift (subscript vm "id") ;;
      vm <- api (stopVirtualMachine i) ;;
      fail_on_errortext vm ;;
      poll_when_async vm vm
    else ret vm
  else ret vm.

(** [start_vm].  When no machine is found the method names [module],
    which is bound in [main] and not here. *)
Definition start_vm : M P value :=
  vm <- get_vm ;;
  (if negb (truthy vm) then raise (NameError "module") else ret tt) ;;
  s <- lift (state_of vm) ;;
  if String.eqb s "stopped" || String.eqb s "stopping" then
    set_changed ;;
    if negb (check_mode m) then
      i <- lift (subscript vm "id") ;;
      vm <- api (startVirtualMachine i) ;;
      fail_on_errortext vm ;;
      poll_when_async vm vm
    else ret vm
  else ret vm.

(** [scale_vm] *)
Definition scale_vm : M P value :=
  vm <- get_vm ;;
  if truthy vm then
    service_offering_id <- get_service_offering_id ;;
    current <- lift (subscript vm "serviceofferingid") ;;
    if py_ne current service_offering_id then
      set_changed ;;
      if negb (check_mode m) then
        vm_state <- lift (state_of vm) ;;
        vm <- stop_vm ;;
        vm <- _poll_job vm (VStr "virtualmachine") ;;
        i <- lift (subscript vm "id") ;;
        api (scaleVirtualMachine i service_offering_id) ;;
        if String.eqb vm_state "running" then
          vm <- start_vm ;;
          _poll_job vm (VStr "virtualmachine")
        else ret vm
      else ret vm
    else ret vm
  else ret vm.

(** [remove_vm]; [destroyVirtualMachine i false] is the call without the
    [expunge] keyword. *)
Definition remove_vm : M P value :=
  vm <- get_vm ;;
  if truthy vm then
    s <- lift (state_of vm) ;;
    if negb (existsb (String.eqb s) ["expunging"; "destroying"; "destroyed"])
    then
      set_changed ;;
      if negb (check_mode m) then
        i <- lift (subscript vm "id") ;;
        r <- api (destroyVirtualMachine i false) ;;
        fail_on_errortext r ;;
        poll_when_async r vm
      else ret vm
    else ret vm
  else ret vm.

(** [expunge_vm] *)
Definition expunge_vm : M P value :=
  vm <- get_vm ;;
  if truthy vm then
    s <- lift (state_of vm) ;;
    r <- (if existsb (String.eqb s) ["destroying"; "destroyed"] then
            set_changed ;;
            if negb (check_mode m) then
              i <- lift (subscript vm "id") ;;
              api (expungeVirtualMachine i)
            else ret (VDict [])
          else if negb (existsb (String.eqb s) ["expunging"]) then
            set_changed ;;
            if negb (check_mode m) then
              i <- lift (subscript vm "id") ;;
              api (destroyVirtualMachine i true)
            else ret (VDict [])
          else ret (VDict [])) ;;
    (if truthy r then fail_on_errortext r else ret tt) ;;
    poll_when_async r vm
  else ret vm.

(** [restart_vm].  As in [start_vm], the branch for a machine that is not
    found names [module]. *)
Definition restart_vm : M P value :=
  vm <- get_vm ;;
  (if negb (truthy vm) then raise (NameError "module") else ret tt) ;;
  s <- lift (state_of vm) ;;
  if existsb (String.eqb s) ["running"; "starting"] then
    set_changed ;;
    if negb (check_mode m) then
      i <- lift (subscript vm "id") ;;
      vm <- api (rebootVirtualMachine i) ;;
      poll_when_async vm vm
    else ret vm
  else if existsb (String.eqb s) ["stopping"; "stopped"] then
    fail_json (Format "Virtual machine named '%s' not running, not restarted"
                      (param m "name"))
  else ret vm.

(** ** main *)

(** The part of [main] after the dispatch: [if vm: ...], which fails for
    a machine in state [Error] and copies the fields of the snapshot into
    [result]. *)
Definition project_result (vm : value) (result : dict) : res dict :=
  if truthy vm then
    has_state <~ contains "state" vm ;;
    in_error <~ (if (has_state : bool)
                 then (s <~ subscript vm "state" ;; Ret (py_eq s (VStr "Error")))
                 else Ret false) ;;
    if (in_error : bool) then
      Exc (FailJson (Format "Virtual machine named '%s' in error state."
                            (param m "name")))
    else
      result <~ copy_key vm "id" "id" result ;;
      result <~ copy_key vm "name" "name" result ;;
      result <~ copy_key vm "displayname" "display_name" result ;;
      result <~ copy_key vm "group" "group" result ;;
      result <~ copy_key vm "password" "password" result ;;
      result <~ copy_key vm "serviceofferingname" "service_offering" result ;;
      result <~ copy_key vm "zonename" "zone" result ;;
      result <~ copy_key vm "templatename" "template" result ;;
      result <~ copy_key vm "isoname" "iso" result ;;
      result <~ copy_key vm "created" "created" result ;;
      result <~ copy_key vm "state" "vm_state" result ;;
      has_tags <~ contains "tags" vm ;;
      result <~ (if (has_tags : bool) then
                   ts <~ subscript vm "tags" ;;
                   l <~ iter ts ;;
                   tags <~ collect_tags l [] ;;
                   Ret (dict_set "tags" (VDict tags) result)
                 else Ret result) ;;
      has_nic <~ contains "nic" vm ;;
      if (has_nic : bool) then
        ns <~ subscript vm "nic" ;;
        l <~ iter ns ;;
        result <~ default_ip l result ;;
        Ret (dict_set "nic" ns result)
      else Ret result
  else Ret result.

(** The dispatch of [main] on [state].  [main] still calls the transitions
    as [f(module, cs, result, vm)] and takes [(result, vm)] back; these
    are read as the methods of the same names of the one object, whose
    [self.result] is that [result] and whose return value is that [vm]. *)
Definition dispatch (vm : value) : M P value :=
  let state := param m "state" in
  if in_list state [VStr "absent"; VStr "destroyed"] then remove_vm
  else if in_list state [VStr "expunged"] then expunge_vm
  else if in_list state [VStr "present"; VStr "created"] then
    if negb (truthy vm) then create_vm else scale_vm
  else if in_list state [VStr "stopped"; VStr "halted"] then stop_vm
  else if in_list state [VStr "started"; VStr "running"; VStr "booted"] then
    start_vm
  else if in_list state [VStr "restarted"; VStr "rebooted"] then restart_vm
  else ret vm.

(** [except CloudStackException, e: module.fail_json(msg=
    'CloudStackException: %s' % str(e))] *)
Definition caught {A : Type} (r : res A) : res A :=
  match r with
  | Exc (CloudStackException msg) =>
      Exc (FailJson (Format "CloudStackException: %s" (VStr msg)))
  | _ => r
  end.

Definition catch_cloudstack {A : Type} (c : M P A) : M P A :=
  fun w => let '(r, w') := c w in (caught r, w').

(** [main], from the lookup of the project on; what it returns is the
    [result] given to [module.exit_json].  [result] starts as
    [{'changed': False}], as [self.result] does, and is the transition's
    [result] afterwards, so its [changed] is read from the object when
    the transition is over. *)
Definition main : M P dict :=
  catch_cloudstack
    (get_project_id ;;
     vm <- get_vm ;;
     vm <- dispatch vm ;;
     changed <- read result_changed ;;
     lift (project_result vm [("changed", VBool changed)])).

End Methods.

(** One invocation of the module against a provider in state [p]: a fresh
    object, then [main]. *)
Definition reconcile {P : Type} `{Provider P} (m : module) (fuel : nat)
  (p : P) : res dict * world P :=
  main m fuel (init p).

(** ** A scripted provider

    A provider given by the answers it will make, in order: each call
    takes the next answer, whatever the call is, and a provider that has
    run out refuses.  It stands for the remote side in the concrete runs
    below. *)
Definition script := list reply.

#[export] Instance scripted : Provider script :=
  fun _ s =>
    match s with
    | r :: s' => (r, s')
    | [] => (Refuse "no answer scripted", [])
    end.

(** ** Vocabulary of the statements *)

(** A call that neither changes the machine nor polls a job: the
    listings the resolvers make. *)
Definition listing (c : call) : bool :=
  negb (mutating c) && negb (polling c).

(** The payload of a job answer that ends the polling: [jobstatus] is not
    [0] and the answer has a [jobresult]. *)
Definition job_result (r : value) : option value :=
  match r with
  | VDict d =>
      match dict_get "jobstatus" d with
      | Some st => if py_ne st (VInt 0) then dict_get "jobresult" d else None
      | None => None
      end
  | _ => None
  end.

(** A job answer that keeps the poller waiting: it has a [jobstatus],
    and that is [0] or no [jobresult] has come with it. *)
Definition pending (r : value) : bool :=
  match r with
  | VDict d =>
      match dict_get "jobstatus" d, job_result r with
      | Some _, None => true
      | _, _ => false
      end
  | _ => false
  end.

(** [polls j n p r p']: asked about job [j] from state [p], the provider
    answers that it is pending [n] times and then answers [r], which it
    does in state [p']. *)
Inductive polls {P : Type} `{Provider P} (j : value)
  : nat -> P -> value -> P -> Prop :=
| polls_last p r p' :
    request (queryAsyncJobResult j) p = (Reply r, p') ->
    pending r = false ->
    polls j 0 p r p'
| polls_wait n p r0 p0 r p' :
    request (queryAsyncJobResult j) p = (Reply r0, p0) ->
    pending r0 = true ->
    polls j n p0 r p' ->
    polls j (S n) p r p'.

(** The same module run in check mode. *)
Definition with_check (m : module) : module :=
  {| params := params m; check_mode := true |}.

(** The lookup that opens [main]. *)
Definition lookup {P : Type} `{Provider P} (m : module) : M P value :=
  get_project_id m ;; get_vm m.

(** [desired m l]: the module's [state] is one of the names [l]. *)
Definition desired (m : module) (l : list string) : bool :=
  in_list (param m "state") (map VStr l).

(** What [main] gives back once the transition has ended with [r] and
    left [changed] in [self.result]. *)
Definition report (m : module) (r : res value) (changed : bool) : res dict :=
  caught (match r with
          | Ret vm => project_result m vm [("changed", VBool changed)]
          | Exc e => Exc e
          | Cut => Cut
          end).

(** [grows Q w w']: from [w] to [w'] calls were only added, and all of
    them satisfy [Q]. *)
Definition grows {P : Type} (Q : call -> bool) (w w' : world P) : Prop :=
  exists l, calls w' = calls w ++ l /\ forallb Q l = true.

(** Only listings were made, and [changed] was left alone. *)
Definition looked_up {P : Type} (w w' : world P) : Prop :=
  grows listing w w' /\ result_changed w' = result_changed w.

(** Only job queries were made; [changed] and [self.vm] were left
    alone. *)
Definition waited {P : Type} (w w' : world P) : Prop :=
  grows polling w w' /\ result_changed w' = result_changed w /\
  self_vm w' = self_vm w.

(** Only listings were made, and [changed] was not taken back. *)
Definition dry {P : Type} (w w' : world P) : Prop :=
  grows listing w w' /\
  (result_changed w = true -> result_changed w' = true).

(** Every run of [c] stays within [R]. *)
Definition within {P A : Type} (R : world P -> world P -> Prop)
  (c : M P A) : Prop :=
  forall w, R w (snd (c w)).

(** Only listings were made; [changed] and [self.vm] were left alone. *)
Definition resolved {P : Type} (w w' : world P) : Prop :=
  looked_up w w' /\ self_vm w' = self_vm w.

(** What a transition does at the provider once it has decided to act
    and the module is not in check mode. *)
Section Remote.

Context {P : Type} `{Provider P}.
Variable m : module.
Variable fuel : nat.

Definition stop_action (vm : value) : M P value :=
  i <- lift (subscript vm "id") ;;
  r <- api (stopVirtualMachine i) ;;
  fail_on_errortext r ;;
  poll_when_async m fuel r r.

Definition start_action (vm : value) : M P value :=
  i <- lift (subscript vm "id") ;;
  r <- api (startVirtualMachine i) ;;
  fail_on_errortext r ;;
  poll_when_async m fuel r r.

Definition reboot_action (vm : value) : M P value :=
  i <- lift (subscript vm "id") ;;
  r <- api (rebootVirtualMachine i) ;;
  poll_when_async m fuel r r.

Definition destroy_action (vm : value) : M P value :=
  i <- lift (subscript vm "id") ;;
  r <- api (destroyVirtualMachine i false) ;;
  fail_on_errortext r ;;
  poll_when_async m fuel r vm.

Definition expunge_action (c : value -> call) (vm : value) : M P value :=
  i <- lift (subscript vm "id") ;;
  r <- api (c i) ;;
  (if truthy r then fail_on_errortext r else ret tt) ;;
  poll_when_async m fuel r vm.

Definition deploy_action (args : dict) : M P value :=
  vm <- api (deployVirtualMachine args) ;;
  fail_on_errortext vm ;;
  poll_when_async m fuel vm vm.

Definition scale_action (vm service_offering_id : value) : M P value :=
  vm_state <- lift (state_of vm) ;;
  vm <- stop_vm m fuel ;;
  vm <- _poll_job fuel vm (VStr "virtualmachine") ;;
  i <- lift (subscript vm "id") ;;
  api (scaleVirtualMachine i service_offering_id) ;;
  if String.eqb vm_state "running" then
    vm <- start_vm m fuel ;;
    _poll_job fuel vm (VStr "virtualmachine")
  else ret vm.

End Remote.

(** How a transition ends in check mode when it has decided to act:
    [changed] is set, and what it returns is the machine that was looked
    up, or the empty answer that [expunge_vm] hands to the poller. *)
Definition announced {P : Type} (o : res value * world P) : Prop :=
  result_changed (snd o) = true /\
  (fst o = Ret (self_vm (snd o)) \/ fst o = Ret (VDict [])).

(** [at_rest m s]: a machine in state [s] (lower case) is where the
    desired state of [m] leaves it: destroyed or going for
    [absent]/[destroyed], expunging for [expunged], not starting for
    [stopped]/[halted], neither stopped nor stopping for
    [started]/[running]/[booted].  For [present]/[created] the state does
    not matter (the offering does), and no state is at rest for
    [restarted]/[rebooted]. *)
Definition at_rest (m : module) (s : string) : bool :=
  if desired m ["absent"; "destroyed"] then
    existsb (String.eqb s) ["expunging"; "destroying"; "destroyed"]
  else if desired m ["expunged"] then existsb (String.eqb s) ["expunging"]
  else if desired m ["present"; "created"] then true
  else if desired m ["stopped"; "halted"] then negb (String.eqb s "starting")
  else if desired m ["started"; "running"; "booted"] then
    negb (String.eqb s "stopped" || String.eqb s "stopping")
  else if desired m ["restarted"; "rebooted"] then false
  else true.

(** [changed], once set, stays set. *)
Definition kept {P : Type} (w w' : world P) : Prop :=
  result_changed w = true -> result_changed w' = true.

(** The two listings of the lookup. *)
Definition lookup_call (c : call) : bool :=
  match c with
  | listProjects | listVirtualMachines _ => true
  | _ => false
  end.

(** Only the lookup's listings were made. *)
Definition sought {P : Type} (w w' : world P) : Prop :=
  grows lookup_call w w'.

(** The identifier of the first service offering of a listing. *)
Definition first_offering_id (r : value) : res value :=
  l <~ subscript r "serviceoffering" ;;
  s <~ first l ;;
  subscript s "id".

(** The mutating calls and the job queries made so far. *)
Definition mutations {P : Type} (w : world P) : list call :=
  filter mutating (calls w).

Definition queries {P : Type} (w : world P) : list call :=
  filter polling (calls w).

(** ** Sample machines, answers and modules

    The concrete inputs of the runs that close the development: machine
    [web] with identifier [vm-1], the answers a provider gives about it,
    and the module parameters of a task on it. *)

Definition web_vm (state offering : string) : value :=
  VDict [("id", VStr "vm-1"); ("name", VStr "web");
         ("displayname", VStr "web"); ("state", VStr state);
         ("serviceofferingid", VStr offering)].

(** The answer of [listVirtualMachines] that lists [vm] alone. *)
Definition vm_listing (vm : value) : reply :=
  Reply (VDict [("count", VInt 1); ("virtualmachine", VList [vm])]).

(** The answer of [listVirtualMachines] when there is no machine. *)
Definition no_vm_listing : reply := Reply (VDict []).

(** The answer of [listServiceOfferings]: [Tiny] ([so-1]) then [Big]
    ([so-2]). *)
Definition offering_listing : reply :=
  Reply (VDict [("count", VInt 2);
                ("serviceoffering",
                 VList [VDict [("id", VStr "so-1"); ("name", VStr "Tiny")];
                        VDict [("id", VStr "so-2"); ("name", VStr "Big")]])]).

(** The answer to a submitted operation: the handle of job [j-7]. *)
Definition job_handle : value := VDict [("jobid", VStr "j-7")].

Definition job_pending : reply :=
  Reply (VDict [("jobid", VStr "j-7"); ("jobstatus", VInt 0)]).

Definition job_done (vm : value) : reply :=
  Reply (VDict [("jobid", VStr "j-7"); ("jobstatus", VInt 1);
                ("jobresult", VDict [("virtualmachine", vm)])]).

Definition job_failed (msg : string) : reply :=
  Reply (VDict [("jobid", VStr "j-7"); ("jobstatus", VInt 2);
                ("jobresult", VDict [("errorcode", VInt 431);
                                     ("errortext", VStr msg)])]).

(** A task on machine [web]: desired [state], default [poll_async]. *)
Definition task (state : string) (check : bool) : module :=
  {| params := [("name", VStr "web"); ("state", VStr state);
                ("poll_async", VBool true)];
     check_mode := check |}.

(** A task that asks for machine [web] with offering [Big]. *)
Definition resize_task (check : bool) : module :=
  {| params := [("name", VStr "web"); ("state", VStr "present");
                ("service_offering", VStr "Big");
                ("poll_async", VBool true)];
     check_mode := check |}.

(** A synchronous answer that reports an error in band. *)
Definition refusal (msg : string) : reply :=
  Reply (VDict [("errorcode", VInt 431); ("errortext", VStr msg)]).

(** A task that asks for machine [web] from both a template and an
    ISO. *)
Definition both_selectors_task : module :=
  {| params := [("name", VStr "web"); ("state", VStr "present");
                ("template", VStr "Linux Debian 7 64-bit");
                ("iso", VStr "Linux Debian 7 64-bit ISO");
                ("poll_async", VBool true)];
     check_mode := false |}.

(** ** Vocabulary of the further properties *)

(** Only calls that are no job query were made. *)
Definition unpolled {P : Type} (w w' : world P) : Prop :=
  grows (fun c => negb (polling c)) w w'.

(** [changed] stays set, and if a mutating call was added then [changed]
    is set. *)
Definition guarded {P : Type} (w w' : world P) : Prop :=
  kept w w' /\
  (mutations w' = mutations w \/ result_changed w' = true).

(** A provider whose every answer is that the job is pending. *)
#[export] Instance stuck : Provider unit :=
  fun _ _ => (job_pending, tt).

(** A task on machine [web] that does not wait for its jobs. *)
Definition unawaited_task (state : string) : module :=
  {| params := [("name", VStr "web"); ("state", VStr state);
                ("poll_async", VBool false)];
     check_mode := false |}.

(** A task that asks for machine [web] from a template, with no
    network. *)
Definition create_task : module :=
  {| params := [("name", VStr "web"); ("state", VStr "present");
                ("template", VStr "Linux Debian 7 64-bit");
                ("poll_async", VBool true)];
     check_mode := false |}.

(** The answers of [listTemplates] and [listZones]. *)
Definition template_listing : reply :=
  Reply (VDict [("count", VInt 1);
                ("template",
                 VList [VDict [("id", VStr "tpl-1");
                               ("name", VStr "debian-7");
                               ("displaytext",
                                VStr "Linux Debian 7 64-bit")]])]).

Definition zone_listing : reply :=
  Reply (VDict [("count", VInt 1);
                ("zone",
                 VList [VDict [("id", VStr "zone-1");
                               ("name", VStr "ch-gva-2")]])]).

(** [hit sel fs x]: the entry [x] of a listing has the fields [fs], and
    one of them equals the selector.  [miss sel fs x]: it has them, and
    none does. *)
Definition hit (sel : value) (fs : list string) (x : value) : Prop :=
  exists vs, fields_of x fs = Ret vs /\ in_list sel vs = true.

Definition miss (sel : value) (fs : list string) (x : value) : Prop :=
  exists vs, fields_of x fs = Ret vs /\ in_list sel vs = false.

(** [named n h]: the entry [h] of the hypervisor listing is called [n]. *)
Definition named (n : string) (h : value) : Prop :=
  subscript h "name" = Ret (VStr n).

(** [is_network x (n, i)]: the entry [x] of the network listing has name
    [n] and identifier [i]. *)
Definition is_network (x : value) (ni : value * value) : Prop :=
  subscript x "name" = Ret (fst ni) /\ subscript x "id" = Ret (snd ni).

(** The networks that the names [ns] select: those whose name or whose
    identifier is one of [ns]. *)
Definition selected (ns : list value) (ni : value * value) : bool :=
  in_list (fst ni) ns || in_list (snd ni) ns.


(** The fields that [main] copies from the machine into [result], in the
    order of the file: the key that is read, and the key that is
    written. *)
Definition result_names : list (string * string) :=
  [("id", "id"); ("name", "name"); ("displayname", "display_name");
   ("group", "group"); ("password", "password");
   ("serviceofferingname", "service_offering"); ("zonename", "zone");
   ("templatename", "template"); ("isoname", "iso");
   ("created", "created"); ("state", "vm_state")].

(** [result] after these copies, for a machine that is the dict [d]. *)
Definition copied (d : dict) (result : dict) : dict :=
  fold_left (fun r kk =>
               match dict_get (fst kk) d with
               | Some v => dict_set (snd kk) v r
               | None => r
               end) result_names result.

(** [keyless k t]: the entry [t] of a tag list does not carry the key
    [k]. *)
Definition keyless (k : string) (t : value) : Prop :=
  subscript t "key" <> Ret (VStr k).

(** [unflagged n]: the interface [n] is not the default one. *)
Definition unflagged (n : value) : Prop :=
  forall g, subscript n "isdefault" = Ret g -> truthy g = false.

(** Machine [web] as a provider reports it in full, with two tags of the
    same key and two interfaces, the second of which is the default. *)
Definition full_vm_fields : dict :=
  [("id", VStr "vm-1"); ("name", VStr "web");
   ("displayname", VStr "web"); ("state", VStr "Running");
   ("serviceofferingname", VStr "Tiny");
   ("zonename", VStr "ch-gva-2");
   ("tags", VList [VDict [("key", VStr "env"); ("value", VStr "dev")];
                   VDict [("key", VStr "env"); ("value", VStr "prod")]]);
   ("nic", VList [VDict [("isdefault", VBool false);
                         ("ipaddress", VStr "10.0.0.5")];
                  VDict [("isdefault", VBool true);
                         ("ipaddress", VStr "185.19.28.7")]])].

Definition full_vm : value := VDict full_vm_fields.

(** A task that asks for machine [web] with every selector given. *)
Definition full_task : module :=
  {| params := [("name", VStr "web"); ("state", VStr "present");
                ("project", VStr "infra"); ("zone", VStr "ch-gva-2");
                ("template", VStr "Linux Debian 7 64-bit");
                ("service_offering", VStr "Big");
                ("disk_offering", VStr "SSD 50");
                ("hypervisor", VStr "kvm");
                ("networks", VList [VStr "web-net"; VStr "net-3"]);
                ("user_data", VStr "#!");
                ("security_groups", VList [VStr "default"; VStr "web"]);
                ("poll_async", VBool true)];
     check_mode := false |}.

(** The answers of the other listings: two projects, two disk
    offerings, two hypervisors, three networks, and two machines. *)
Definition project_listing : reply :=
  Reply (VDict [("count", VInt 2);
                ("project",
                 VList [VDict [("id", VStr "p-1"); ("name", VStr "ops");
                               ("displaytext", VStr "Operations")];
                        VDict [("id", VStr "p-2"); ("name", VStr "infra");
                               ("displaytext", VStr "Infrastructure")]])]).

Definition disk_listing : reply :=
  Reply (VDict [("count", VInt 2);
                ("diskoffering",
                 VList [VDict [("id", VStr "do-1"); ("name", VStr "SSD 10")];
                        VDict [("id", VStr "do-2");
                               ("name", VStr "SSD 50")]])]).

Definition hypervisor_listing : reply :=
  Reply (VDict [("count", VInt 2);
                ("hypervisor",
                 VList [VDict [("name", VStr "VMware")];
                        VDict [("name", VStr "KVM")]])]).

Definition network_listing : reply :=
  Reply (VDict [("count", VInt 3);
                ("network",
                 VList [VDict [("id", VStr "net-1"); ("name", VStr "web-net")];
                        VDict [("id", VStr "net-2"); ("name", VStr "db-net")];
                        VDict [("id", VStr "net-3");
                               ("name", VStr "mgmt-net")]])]).

Definition db_vm : value :=
  VDict [("id", VStr "vm-0"); ("name", VStr "db");
         ("displayname", VStr "db"); ("state", VStr "Running");
         ("serviceofferingid", VStr "so-2")].

Definition two_vm_listing : reply :=
  Reply (VDict [("count", VInt 2);
                ("virtualmachine",
                 VList [db_vm; web_vm "Running" "so-1"])]).

(** The answers, in order, to the listings that the construction of the
    deploy arguments makes for [full_task]. *)
Definition deploy_answers : script :=
  [template_listing; zone_listing; offering_listing; project_listing;
   network_listing; disk_listing; hypervisor_listing].
(** ** Running the monad *)

Section Runs.

Context {P : Type} `{Provider P}.

Lemma bind_ret_run {A B : Type} (c : M P A) (k : A -> M P B) w a w' :
  c w = (Ret a, w') -> bind c k w = k a w'.
Proof. intros E. unfold bind. now rewrite E. Qed.

Lemma bind_exc_run {A B : Type} (c : M P A) (k : A -> M P B) w e w' :
  c w = (Exc e, w') -> bind c k w = (Exc e, w').
Proof. intros E. unfold bind. now rewrite E. Qed.

Lemma bind_cut_run {A B : Type} (c : M P A) (k : A -> M P B) w w' :
  c w = (Cut, w') -> bind c k w = (Cut, w').
Proof. intros E. unfold bind. now rewrite E. Qed.

Lemma bind_assoc {A B C : Type} (c : M P A) (k : A -> M P B)
  (h : B -> M P C) w :
  bind (bind c k) h w = bind c (fun a => bind (k a) h) w.
Proof. unfold bind. destruct (c w) as [[a|e|] w']; reflexivity. Qed.

Lemma job_result_fields r jr :
  job_result r = Some jr ->
  exists st, subscript r "jobstatus" = Ret st /\ py_ne st (VInt 0) = true /\
             contains "jobresult" r = Ret true /\
             subscript r "jobresult" = Ret jr.
Proof.
  destruct r as [| | | |l|d]; try discriminate. unfold job_result.
  destruct (dict_get "jobstatus" d) as [st|] eqn:Est; [|discriminate].
  destruct (py_ne st (VInt 0)) eqn:Ene; [|discriminate].
  intros Ejr. exists st. cbn [subscript]. rewrite Est.
  unfold contains, contains_val, dict_has. rewrite Ejr. auto.
Qed.

Lemma pending_fields r :
  pending r = true ->
  exists st, subscript r "jobstatus" = Ret st /\
             (py_ne st (VInt 0) = false \/ contains "jobresult" r = Ret false).
Proof.
  destruct r as [| | | |l|d]; try discriminate. unfold pending, job_result.
  destruct (dict_get "jobstatus" d) as [st|] eqn:Est; [|discriminate].
  exists st. cbn [subscript]. rewrite Est. split; [reflexivity|].
  destruct (py_ne st (VInt 0)); [right|left; reflexivity].
  unfold contains, contains_val, dict_has.
  destruct (dict_get "jobresult" d); [discriminate|reflexivity].
Qed.

Variable fuel : nat.

(** One pending answer costs one round and two seconds. *)
Lemma poll_loop_wait n job key j w r0 p0 :
  subscript job "jobid" = Ret j ->
  request (queryAsyncJobResult j) (cloud w) = (Reply r0, p0) ->
  pending r0 = true ->
  poll_loop (S n) job key w =
  poll_loop n job key (add_sleep 2 (record_call (queryAsyncJobResult j) p0 w)).
Proof.
  intros Ej Er Ep. destruct (pending_fields _ Ep) as (st & Est & Hst).
  cbn [poll_loop]. unfold bind at 1, lift at 1. rewrite Ej.
  unfold bind at 1, api at 1. rewrite Er.
  unfold bind at 1, lift at 1. rewrite Est.
  destruct Hst as [E0|Ec].
  - rewrite E0. unfold bind at 1, ret at 1. reflexivity.
  - destruct (py_ne st (VInt 0)).
    + unfold bind at 1, lift at 1. rewrite Ec. reflexivity.
    + unfold bind at 1, ret at 1. reflexivity.
Qed.

Lemma subscript_contains v k x :
  subscript v k = Ret x -> contains k v = Ret true.
Proof.
  destruct v as [| | | |l|d]; try discriminate. cbn [subscript].
  unfold contains, contains_val, dict_has.
  destruct (dict_get k d); [reflexivity|discriminate].
Qed.

(** What the poller hands back for a finished job with payload [d]. *)
Lemma poll_loop_last n job k j w r p' d :
  subscript job "jobid" = Ret j ->
  request (queryAsyncJobResult j) (cloud w) = (Reply r, p') ->
  job_result r = Some (VDict d) ->
  poll_loop (S n) job (VStr k) w =
  (match dict_get "errortext" d with
   | Some e => Exc (FailJson (Format "Failed: '%s'" e))
   | None =>
       match (if String.eqb k "" then None else dict_get k d) with
       | Some snap => Ret snap
       | None => Ret job
       end
   end, record_call (queryAsyncJobResult j) p' w).
Proof.
  intros Ej Er Ed.
  destruct (job_result_fields _ _ Ed) as (st & Est & Ene & Ec & Ejr).
  cbn [poll_loop]. unfold bind at 1, lift at 1. rewrite Ej.
  unfold bind at 1, api at 1. rewrite Er.
  unfold bind at 1, lift at 1. rewrite Est. rewrite Ene.
  unfold bind at 1, lift at 1. rewrite Ec.
  unfold bind at 1, lift at 1. rewrite Ejr.
  unfold bind at 1, lift at 1. unfold contains, contains_val, dict_has.
  cbn [subscript]. destruct (dict_get "errortext" d) as [e|] eqn:Ee.
  - unfold bind, lift, fail_json, raise. reflexivity.
  - cbn [truthy]. destruct (String.eqb k "") eqn:Ek; cbn [negb].
    + reflexivity.
    + unfold bind, lift, ret, subscript_val. cbn [subscript].
      destruct (dict_get k d); reflexivity.
Qed.

Lemma poll_loop_polls j n p r p' :
  polls j n p r p' ->
  forall job k d w f,
    cloud w = p ->
    subscript job "jobid" = Ret j ->
    job_result r = Some (VDict d) ->
    n < f ->
    let out := poll_loop f job (VStr k) w in
    fst out =
      match dict_get "errortext" d with
      | Some e => Exc (FailJson (Format "Failed: '%s'" e))
      | None =>
          match (if String.eqb k "" then None else dict_get k d) with
          | Some snap => Ret snap
          | None => Ret job
          end
      end /\
    calls (snd out) = calls w ++ repeat (queryAsyncJobResult j) (S n) /\
    slept (snd out) = slept w + 2 * n /\
    cloud (snd out) = p' /\
    result_changed (snd out) = result_changed w /\
    self_vm (snd out) = self_vm w.
Proof.
  induction 1 as [p r p' Er Ep | n p r0 p0 r p' Er0 Ep0 Hn IH];
    intros job k d w f Ew Ej Ed Hf; destruct f as [|f]; try lia.
  - subst p. cbv zeta. rewrite (poll_loop_last f job k j w r p' d Ej Er Ed).
    cbn [fst snd record_call calls slept cloud result_changed self_vm repeat].
    repeat split; auto; lia.
  - subst p. cbv zeta.
    rewrite (poll_loop_wait f job (VStr k) j w r0 p0 Ej Er0 Ep0).
    specialize (IH job k d
                  (add_sleep 2 (record_call (queryAsyncJobResult j) p0 w)) f
                  eq_refl Ej Ed ltac:(lia)).
    cbv zeta in IH. destruct IH as (Ho & Hc & Hs & Hp & Hch & Hvm).
    rewrite Ho, Hc, Hs, Hp, Hch, Hvm.
    cbn [add_sleep record_call calls slept cloud result_changed self_vm].
    repeat split; auto; try lia.
    rewrite <- app_assoc. reflexivity.
Qed.

(** C3.  The poller's contract.  A response without a job identifier is
    handed back as it is, with no query made.  For a response with job
    identifier [j], when the provider reports the job pending [n] times
    and then finished with payload [d], and the loop is allowed more than
    [n] rounds: the poller has asked exactly [n + 1] times and slept two
    seconds after each pending answer; it fails with the provider's
    [errortext] inside ["Failed: '%s'"] when the payload has one; else it
    hands back the payload's field [k] when that field is there, and the
    submitted response when it is not. *)
Theorem poll_job_contract (job : value) (k : string) (w : world P) :
  (contains "jobid" job = Ret false ->
   _poll_job fuel job (VStr k) w = (Ret job, w)) /\
  (forall j n r p' d,
     subscript job "jobid" = Ret j ->
     polls j n (cloud w) r p' ->
     job_result r = Some (VDict d) ->
     n < fuel ->
     let out := _poll_job fuel job (VStr k) w in
     fst out =
       match dict_get "errortext" d with
       | Some e => Exc (FailJson (Format "Failed: '%s'" e))
       | None =>
           match (if String.eqb k "" then None else dict_get k d) with
           | Some snap => Ret snap
           | None => Ret job
           end
       end /\
     calls (snd out) = calls w ++ repeat (queryAsyncJobResult j) (S n) /\
     slept (snd out) = slept w + 2 * n /\
     cloud (snd out) = p').
Proof.
  split.
  - intros E. unfold _poll_job, bind, lift. rewrite E. reflexivity.
  - intros j n r p' d Ej Hp Ed Hf. cbv zeta.
    unfold _poll_job. unfold bind at 1 2 3 4, lift at 1 2 3 4.
    rewrite (subscript_contains _ _ _ Ej).
    destruct (poll_loop_polls j n (cloud w) r p' Hp job k d w fuel
                eq_refl Ej Ed Hf) as (Ho & Hc & Hs & Hcl & _).
    cbv zeta in Ho, Hc, Hs, Hcl. auto.
Qed.

End Runs.

(** ** What a run may touch *)

Section Frames.

Context {P : Type} `{Provider P}.

Lemma grows_refl (Q : call -> bool) (w : world P) : grows Q w w.
Proof. exists []. split; [now rewrite app_nil_r|reflexivity]. Qed.

Lemma grows_same (Q : call -> bool) (w w' : world P) :
  calls w' = calls w -> grows Q w w'.
Proof. intros E. exists []. split; [now rewrite app_nil_r|reflexivity]. Qed.

Lemma grows_trans (Q : call -> bool) (a b c : world P) :
  grows Q a b -> grows Q b c -> grows Q a c.
Proof.
  intros (l1 & E1 & Q1) (l2 & E2 & Q2). exists (l1 ++ l2). split.
  - now rewrite E2, E1, app_assoc.
  - rewrite forallb_app, Q1, Q2. reflexivity.
Qed.

(** Calls that [Q] excludes are as many after as before. *)
Lemma grows_filter (Q F : call -> bool) (w w' : world P) :
  (forall c, Q c = true -> F c = false) ->
  grows Q w w' -> filter F (calls w') = filter F (calls w).
Proof.
  intros HQ (l & E & Ql). rewrite E, filter_app. clear E.
  replace (filter F l) with (@nil call); [now rewrite app_nil_r|].
  symmetry. induction l as [|c l IH]; [reflexivity|].
  cbn [forallb] in Ql. apply andb_prop in Ql as [Qc Ql].
  cbn [filter]. rewrite (HQ c Qc). auto.
Qed.

#[export] Instance looked_up_refl : Reflexive (@looked_up P).
Proof. intros w. split; [apply grows_refl|reflexivity]. Qed.

#[export] Instance looked_up_trans : Transitive (@looked_up P).
Proof.
  intros a b c [G1 C1] [G2 C2]. split; [eapply grows_trans; eauto|congruence].
Qed.

#[export] Instance waited_refl : Reflexive (@waited P).
Proof. intros w. repeat split; [apply grows_refl]. Qed.

#[export] Instance waited_trans : Transitive (@waited P).
Proof.
  intros a b c (G1 & C1 & V1) (G2 & C2 & V2).
  repeat split; [eapply grows_trans; eauto|congruence|congruence].
Qed.

#[export] Instance dry_refl : Reflexive (@dry P).
Proof. intros w. split; [apply grows_refl|auto]. Qed.

#[export] Instance dry_trans : Transitive (@dry P).
Proof.
  intros a b c [G1 C1] [G2 C2]. split; [eapply grows_trans; eauto|auto].
Qed.

Section Generic.

Variable R : world P -> world P -> Prop.
Context {R_refl : Reflexive R} {R_trans : Transitive R}.

Lemma within_ret {A : Type} (a : A) : within R (ret a).
Proof. intros w. apply R_refl. Qed.

Lemma within_raise {A : Type} (e : exn) : within R (@raise P A e).
Proof. intros w. apply R_refl. Qed.

Lemma within_fail_json {A : Type} (msg : message) :
  within R (@fail_json P A msg).
Proof. intros w. apply R_refl. Qed.

Lemma within_lift {A : Type} (r : res A) : within R (lift r).
Proof. intros w. apply R_refl. Qed.

Lemma within_read {A : Type} (f : world P -> A) : within R (read f).
Proof. intros w. apply R_refl. Qed.

Lemma within_bind {A B : Type} (c : M P A) (k : A -> M P B) :
  within R c -> (forall a, within R (k a)) -> within R (bind c k).
Proof.
  intros Hc Hk w. unfold bind. specialize (Hc w).
  destruct (c w) as [[a|e|] w1]; cbn [snd] in *; auto.
  eapply R_trans; [exact Hc|apply Hk].
Qed.

End Generic.

End Frames.

Create HintDb footprint discriminated.

Ltac frame_step :=
  match goal with
  | |- within _ (bind _ _) =>
      apply within_bind; [typeclasses eauto | | intros ? ]
  | |- within _ (ret _) => apply within_ret; typeclasses eauto
  | |- within _ (raise _) => apply within_raise; typeclasses eauto
  | |- within _ (fail_json _) => apply within_fail_json; typeclasses eauto
  | |- within _ (lift _) => apply within_lift; typeclasses eauto
  | |- within _ (read _) => apply within_read; typeclasses eauto
  | |- within _ (if ?b then _ else _) => destruct b
  | |- within _ (match ?x with _ => _ end) => destruct x
  | |- within _ _ => solve [auto with footprint]
  end.

Ltac frame := cbv zeta; repeat (frame_step; cbv zeta).

Ltac frame_prim :=
  intros w; cbv [snd sleep set_changed set_vm set_project_id set_zone_id
                 set_hypervisor looked_up waited dry];
  repeat split; try (apply grows_same; reflexivity); auto.

Section Footprints.

Context {P : Type} `{Provider P}.
Variable m : module.
Variable fuel : nat.

Lemma grows_api (Q : call -> bool) (c : call) (w : world P) :
  Q c = true -> grows Q w (snd (api c w)).
Proof.
  intros Qc. unfold api. exists [c].
  destruct (request c (cloud w)) as [[v|msg] p']; cbn [snd record_call calls];
    (split; [reflexivity|cbn [forallb]; now rewrite Qc]).
Qed.

Lemma api_fields (c : call) (w : world P) :
  result_changed (snd (api c w)) = result_changed w /\
  self_vm (snd (api c w)) = self_vm w.
Proof.
  unfold api. destruct (request c (cloud w)) as [[v|msg] p']; split; reflexivity.
Qed.

Lemma looked_up_api c : listing c = true -> within looked_up (api c).
Proof.
  intros Qc w. split; [now apply grows_api|apply api_fields].
Qed.

Lemma waited_api c : polling c = true -> within waited (api c).
Proof.
  intros Qc w. split; [now apply grows_api|apply api_fields].
Qed.

Lemma dry_of_looked_up {A : Type} (c : M P A) :
  within looked_up c -> within dry c.
Proof.
  intros Hc w. destruct (Hc w) as [G C]. split; [exact G|congruence].
Qed.

Lemma looked_up_set_vm v : within (@looked_up P) (set_vm v).
Proof. frame_prim. Qed.

Lemma looked_up_set_project_id v : within (@looked_up P) (set_project_id v).
Proof. frame_prim. Qed.

Lemma looked_up_set_zone_id v : within (@looked_up P) (set_zone_id v).
Proof. frame_prim. Qed.

Lemma looked_up_set_hypervisor v : within (@looked_up P) (set_hypervisor v).
Proof. frame_prim. Qed.

Lemma waited_sleep n : within (@waited P) (sleep n).
Proof. frame_prim. Qed.

Lemma dry_set_changed : within (@dry P) set_changed.
Proof. frame_prim. Qed.

Hint Resolve looked_up_set_vm looked_up_set_project_id looked_up_set_zone_id
  looked_up_set_hypervisor waited_sleep dry_set_changed : footprint.
Hint Extern 1 (within looked_up (api _)) =>
  apply looked_up_api; reflexivity : footprint.
Hint Extern 1 (within waited (api _)) =>
  apply waited_api; reflexivity : footprint.

Lemma looked_up_get_project_id : within looked_up (get_project_id m).
Proof. unfold get_project_id. frame. Qed.
Hint Resolve looked_up_get_project_id : footprint.

Lemma looked_up_get_zone_id : within looked_up (get_zone_id m).
Proof. unfold get_zone_id. frame. Qed.
Hint Resolve looked_up_get_zone_id : footprint.

Lemma looked_up_get_hypervisor : within looked_up (get_hypervisor m).
Proof. unfold get_hypervisor. frame. Qed.
Hint Resolve looked_up_get_hypervisor : footprint.

Lemma looked_up_get_service_offering_id :
  within looked_up (get_service_offering_id m).
Proof. unfold get_service_offering_id. frame. Qed.
Hint Resolve looked_up_get_service_offering_id : footprint.

Lemma looked_up_get_template_or_iso_id :
  within looked_up (get_template_or_iso_id m).
Proof. unfold get_template_or_iso_id. frame. Qed.
Hint Resolve looked_up_get_template_or_iso_id : footprint.

Lemma looked_up_get_disk_offering_id :
  within looked_up (get_disk_offering_id m).
Proof. unfold get_disk_offering_id. frame. Qed.
Hint Resolve looked_up_get_disk_offering_id : footprint.

Lemma looked_up_get_vm : within looked_up (get_vm m).
Proof. unfold get_vm. frame. Qed.
Hint Resolve looked_up_get_vm : footprint.

Lemma looked_up_get_network_ids : within looked_up (get_network_ids m).
Proof. unfold get_network_ids. frame. Qed.
Hint Resolve looked_up_get_network_ids : footprint.

Lemma looked_up_lookup : within looked_up (lookup m).
Proof. unfold lookup. frame. Qed.

Lemma waited_poll_loop n job key : within waited (poll_loop n job key).
Proof.
  induction n as [|n IH]; [intros w; reflexivity|].
  cbn [poll_loop]. frame.
Qed.
Hint Resolve waited_poll_loop : footprint.

Lemma waited_poll_job job key : within waited (_poll_job fuel job key).
Proof. unfold _poll_job. frame. Qed.
Hint Resolve waited_poll_job : footprint.

Lemma waited_fail_on_errortext r : within waited (@fail_on_errortext P r).
Proof. unfold fail_on_errortext. frame. Qed.
Hint Resolve waited_fail_on_errortext : footprint.

Lemma waited_poll_when_async r v :
  within waited (poll_when_async m fuel r v).
Proof. unfold poll_when_async. frame. Qed.
Hint Resolve waited_poll_when_async : footprint.

End Footprints.

#[export] Hint Resolve looked_up_set_vm looked_up_set_project_id
  looked_up_set_zone_id looked_up_set_hypervisor waited_sleep dry_set_changed
  looked_up_get_project_id looked_up_get_zone_id looked_up_get_hypervisor
  looked_up_get_service_offering_id looked_up_get_template_or_iso_id
  looked_up_get_disk_offering_id looked_up_get_vm looked_up_get_network_ids
  waited_poll_loop waited_poll_job waited_fail_on_errortext
  waited_poll_when_async : footprint.
#[export] Hint Extern 1 (within looked_up (api _)) =>
  apply looked_up_api; reflexivity : footprint.
#[export] Hint Extern 1 (within waited (api _)) =>
  apply waited_api; reflexivity : footprint.

(** ** The transitions on a machine that was found *)

Section Transitions.

Context {P : Type} `{Provider P}.
Variable m : module.
Variable fuel : nat.

Lemma py_eq_str v s : py_eq v (VStr s) = true -> v = VStr s.
Proof.
  destruct v; cbn [py_eq]; try discriminate.
  intros E. apply String.eqb_eq in E. now subst.
Qed.

Lemma desired_cases l :
  desired m l = true -> exists s, param m "state" = VStr s /\ In s l.
Proof.
  unfold desired, in_list. intros E. apply existsb_exists in E.
  destruct E as (x & Hx & Ex). apply in_map_iff in Hx.
  destruct Hx as (s & <- & Hs). exists s. split; [|exact Hs].
  now apply py_eq_str.
Qed.

Ltac by_state Hd :=
  let s := fresh "s" in
  let Es := fresh "Es" in
  let Hs := fresh "Hs" in
  destruct (desired_cases _ Hd) as (s & Es & Hs);
  unfold dispatch; rewrite Es; cbn [In] in Hs;
  repeat (destruct Hs as [<-|Hs]; [reflexivity|]); contradiction.

Lemma dispatch_absent vm :
  desired m ["absent"; "destroyed"] = true ->
  dispatch m fuel vm = remove_vm m fuel.
Proof. intros Hd. by_state Hd. Qed.

Lemma dispatch_expunged vm :
  desired m ["expunged"] = true ->
  dispatch m fuel vm = expunge_vm m fuel.
Proof. intros Hd. by_state Hd. Qed.

Lemma dispatch_present vm :
  desired m ["present"; "created"] = true ->
  dispatch m fuel vm =
  if negb (truthy vm) then create_vm m fuel else scale_vm m fuel.
Proof. intros Hd. by_state Hd. Qed.

Lemma dispatch_stopped vm :
  desired m ["stopped"; "halted"] = true ->
  dispatch m fuel vm = stop_vm m fuel.
Proof. intros Hd. by_state Hd. Qed.

Lemma dispatch_started vm :
  desired m ["started"; "running"; "booted"] = true ->
  dispatch m fuel vm = start_vm m fuel.
Proof. intros Hd. by_state Hd. Qed.

Lemma dispatch_restarted vm :
  desired m ["restarted"; "rebooted"] = true ->
  dispatch m fuel vm = restart_vm m fuel.
Proof. intros Hd. by_state Hd. Qed.

Lemma get_vm_cached w :
  truthy (self_vm w) = true -> get_vm m w = (Ret (self_vm w), w).
Proof.
  intros E. unfold get_vm, bind, read. rewrite E. reflexivity.
Qed.

Lemma get_vm_field w v w' : get_vm m w = (Ret v, w') -> self_vm w' = v.
Proof.
  unfold get_vm. unfold bind at 1, read at 1.
  match goal with |- bind ?c _ _ = _ -> _ => destruct (c w) as [[a|e|] w1] eqn:E;
    [rewrite (bind_ret_run _ _ _ _ _ E)
    |rewrite (bind_exc_run _ _ _ _ _ E)
    |rewrite (bind_cut_run _ _ _ _ E)] end;
    unfold read; intros E'; inversion E'; reflexivity.
Qed.

Lemma lookup_field w v w' : lookup m w = (Ret v, w') -> self_vm w' = v.
Proof.
  unfold lookup, bind.
  destruct (get_project_id m w) as [[a|e|] w1]; try discriminate.
  apply get_vm_field.
Qed.

(** After the lookup from a fresh object nothing was changed yet. *)
Lemma lookup_fresh (p : P) v w1 :
  lookup m (init p) = (Ret v, w1) ->
  mutations w1 = [] /\ queries w1 = [] /\ result_changed w1 = false /\
  self_vm w1 = v.
Proof.
  intros E. destruct (looked_up_lookup m (init p)) as [G C].
  rewrite E in G, C. cbn [snd] in G, C. repeat split.
  - unfold mutations. rewrite (grows_filter listing mutating (init p) w1);
      [reflexivity| |exact G].
    intros c. unfold listing. destruct (mutating c); [discriminate|reflexivity].
  - unfold queries. rewrite (grows_filter listing polling (init p) w1);
      [reflexivity| |exact G].
    intros c. unfold listing.
    destruct (polling c); [now rewrite andb_false_r|reflexivity].
  - exact C.
  - eapply lookup_field; eauto.
Qed.

(** [main], once the lookup has found [vm]: the transition runs, and its
    outcome is reported. *)
Lemma main_run w0 vm w1 :
  lookup m w0 = (Ret vm, w1) ->
  main m fuel w0 =
  (report m (fst (dispatch m fuel vm w1))
          (result_changed (snd (dispatch m fuel vm w1))),
   snd (dispatch m fuel vm w1)).
Proof.
  intros E. unfold main, catch_cloudstack.
  match goal with
  | |- (let '(_, _) := bind _ (fun _ => bind _ ?K) _ in _) = _ =>
      rewrite <- (bind_assoc (get_project_id m) (fun _ => get_vm m) K w0)
  end.
  change (bind (get_project_id m) (fun _ => get_vm m)) with (lookup m).
  rewrite (bind_ret_run _ _ _ _ _ E). unfold bind at 1.
  destruct (dispatch m fuel vm w1) as [[v|e|] w2]; cbn [fst snd];
    unfold report; reflexivity.
Qed.

Lemma mutations_record_call c (p' : P) w :
  mutations (record_call c p' w) =
  mutations w ++ (if mutating c then [c] else []).
Proof.
  unfold mutations. cbn [record_call calls]. rewrite filter_app.
  cbn [filter]. reflexivity.
Qed.

Lemma waited_mutations (w w' : world P) :
  waited w w' -> mutations w' = mutations w.
Proof.
  intros (G & _). unfold mutations. apply (grows_filter polling); [|exact G].
  intros c. destruct c; cbn; congruence.
Qed.

Lemma looked_up_mutations (w w' : world P) :
  looked_up w w' -> mutations w' = mutations w.
Proof.
  intros (G & _). unfold mutations. apply (grows_filter listing); [|exact G].
  intros c. unfold listing. destruct (mutating c); [discriminate|reflexivity].
Qed.

(** A submitted operation and whatever waiting follows it: one more
    mutating call, [changed] and [self.vm] as they were. *)
Lemma submit_then_wait {A : Type} c (K : value -> M P A) w :
  (forall r, within waited (K r)) ->
  mutating c = true ->
  let w' := snd (bind (api c) K w) in
  mutations w' = mutations w ++ [c] /\
  result_changed w' = result_changed w /\
  self_vm w' = self_vm w.
Proof.
  intros HK Hc. cbv zeta. unfold bind, api.
  destruct (request c (cloud w)) as [[v|msg] p'].
  - destruct (HK v (record_call c p' w)) as (G & C & V).
    rewrite (waited_mutations _ _ (conj G (conj C V))), C, V.
    rewrite mutations_record_call, Hc. auto.
  - cbn [snd]. rewrite mutations_record_call, Hc. auto.
Qed.

Lemma starting_not_running s :
  String.eqb s "starting" = true -> String.eqb s "running" = false.
Proof. intros E. apply String.eqb_eq in E. now subst. Qed.

(** [stop_vm] on the machine that was found. *)
Lemma stop_vm_run w vm s :
  self_vm w = vm -> truthy vm = true -> state_of vm = Ret s ->
  stop_vm m fuel w =
  if String.eqb s "starting" then
    if check_mode m then (Ret vm, mark_changed w)
    else
      (i <- lift (subscript vm "id") ;;
       r <- api (stopVirtualMachine i) ;;
       fail_on_errortext r ;;
       poll_when_async m fuel r r) (mark_changed w)
  else (Ret vm, w).
Proof.
  intros Ev Et Es. unfold stop_vm.
  rewrite (bind_ret_run _ _ w vm w) by (subst vm; now apply get_vm_cached).
  rewrite Et. cbn [negb]. unfold bind at 1, ret at 1.
  unfold bind at 1, lift at 1. rewrite Es.
  destruct (String.eqb s "starting") eqn:E.
  - rewrite (starting_not_running _ E). cbn [negb andb].
    unfold bind at 1, set_changed at 1.
    destruct (check_mode m); reflexivity.
  - reflexivity.
Qed.

(** C2.  With [state] [stopped] or [halted] and a machine that was found:
    the only mutating call an invocation can make is [stopVirtualMachine]
    on that machine, and it makes it exactly when the machine's state is
    [starting] (and the module is not in check mode); [changed] is set
    exactly for that state.  For every other state, [running] included,
    the invocation makes no call beyond the lookup, leaves [changed]
    false, and reports the machine as it was found. *)
Theorem stop_submitted_iff_starting (p : P) vm w1 s i :
  desired m ["stopped"; "halted"] = true ->
  lookup m (init p) = (Ret vm, w1) ->
  truthy vm = true ->
  state_of vm = Ret s ->
  subscript vm "id" = Ret i ->
  let out := reconcile m fuel p in
  mutations (snd out) =
    (if String.eqb s "starting" && negb (check_mode m)
     then [stopVirtualMachine i] else []) /\
  result_changed (snd out) = String.eqb s "starting" /\
  (String.eqb s "starting" = false ->
   calls (snd out) = calls w1 /\ fst out = report m (Ret vm) false).
Proof.
  intros Hd Hl Ht Hs Hi. cbv zeta. unfold reconcile.
  destruct (lookup_fresh _ _ _ Hl) as (M1 & _ & C1 & V1).
  rewrite (main_run _ _ _ Hl). cbn [fst snd].
  rewrite (dispatch_stopped _ Hd), (stop_vm_run w1 vm s V1 Ht Hs).
  destruct (String.eqb s "starting") eqn:E.
  - destruct (check_mode m); cbn [negb andb].
    + cbn [snd]. repeat split; auto; discriminate.
    + rewrite (bind_ret_run _ _ _ i (mark_changed w1))
        by (unfold lift; now rewrite Hi).
      destruct (submit_then_wait (stopVirtualMachine i)
                  (fun r => fail_on_errortext r ;; poll_when_async m fuel r r)
                  (mark_changed w1)) as (Mx & Cx & _).
      { intros r. frame. }
      { reflexivity. }
      cbv zeta in Mx, Cx. rewrite Mx, Cx.
      change (mutations (mark_changed w1)) with (mutations w1). rewrite M1.
      repeat split; auto; discriminate.
  - cbn [andb snd fst]. rewrite C1. repeat split; auto.
Qed.

Lemma poll_nothing vm w :
  poll_when_async m fuel (VDict []) vm w =
  (Ret (if truthy (param m "poll_async") then VDict [] else vm), w).
Proof.
  unfold poll_when_async. destruct (truthy (param m "poll_async")); reflexivity.
Qed.

(** [restart_vm] on the machine that was found. *)
Lemma restart_vm_run w vm s :
  self_vm w = vm -> truthy vm = true -> state_of vm = Ret s ->
  restart_vm m fuel w =
  if existsb (String.eqb s) ["running"; "starting"] then
    if check_mode m then (Ret vm, mark_changed w)
    else
      (i <- lift (subscript vm "id") ;;
       r <- api (rebootVirtualMachine i) ;;
       poll_when_async m fuel r r) (mark_changed w)
  else if existsb (String.eqb s) ["stopping"; "stopped"] then
    (Exc (FailJson
            (Format "Virtual machine named '%s' not running, not restarted"
                    (param m "name"))), w)
  else (Ret vm, w).
Proof.
  intros Ev Et Es. unfold restart_vm.
  rewrite (bind_ret_run _ _ w vm w) by (subst vm; now apply get_vm_cached).
  rewrite Et. cbn [negb]. unfold bind at 1, ret at 1.
  unfold bind at 1, lift at 1. rewrite Es.
  destruct (existsb (String.eqb s) ["running"; "starting"]).
  - unfold bind at 1, set_changed at 1. destruct (check_mode m); reflexivity.
  - destruct (existsb (String.eqb s) ["stopping"; "stopped"]); reflexivity.
Qed.

(** [remove_vm] on the machine that was found. *)
Lemma remove_vm_run w vm s :
  self_vm w = vm -> truthy vm = true -> state_of vm = Ret s ->
  remove_vm m fuel w =
  if existsb (String.eqb s) ["expunging"; "destroying"; "destroyed"] then
    (Ret vm, w)
  else if check_mode m then (Ret vm, mark_changed w)
  else
    (i <- lift (subscript vm "id") ;;
     r <- api (destroyVirtualMachine i false) ;;
     fail_on_errortext r ;;
     poll_when_async m fuel r vm) (mark_changed w).
Proof.
  intros Ev Et Es. unfold remove_vm.
  rewrite (bind_ret_run _ _ w vm w) by (subst vm; now apply get_vm_cached).
  rewrite Et. unfold bind at 1, lift at 1. rewrite Es.
  destruct (existsb (String.eqb s) ["expunging"; "destroying"; "destroyed"]);
    cbn [negb]; [reflexivity|].
  unfold bind at 1, set_changed at 1. destruct (check_mode m); reflexivity.
Qed.

(** [expunge_vm] on the machine that was found. *)
Lemma expunge_vm_run w vm s :
  self_vm w = vm -> truthy vm = true -> state_of vm = Ret s ->
  expunge_vm m fuel w =
  if existsb (String.eqb s) ["destroying"; "destroyed"] then
    if check_mode m then poll_when_async m fuel (VDict []) vm (mark_changed w)
    else
      (i <- lift (subscript vm "id") ;;
       r <- api (expungeVirtualMachine i) ;;
       (if truthy r then fail_on_errortext r else ret tt) ;;
       poll_when_async m fuel r vm) (mark_changed w)
  else if existsb (String.eqb s) ["expunging"] then
    poll_when_async m fuel (VDict []) vm w
  else if check_mode m then
    poll_when_async m fuel (VDict []) vm (mark_changed w)
  else
    (i <- lift (subscript vm "id") ;;
     r <- api (destroyVirtualMachine i true) ;;
     (if truthy r then fail_on_errortext r else ret tt) ;;
     poll_when_async m fuel r vm) (mark_changed w).
Proof.
  intros Ev Et Es. unfold expunge_vm.
  rewrite (bind_ret_run _ _ w vm w) by (subst vm; now apply get_vm_cached).
  rewrite Et. unfold bind at 1, lift at 1. rewrite Es.
  destruct (existsb (String.eqb s) ["destroying"; "destroyed"]).
  - rewrite bind_assoc. unfold bind at 1, set_changed at 1.
    destruct (check_mode m); cbn [negb]; [reflexivity|].
    rewrite bind_assoc. unfold bind at 1 4.
    destruct (lift (subscript vm "id") (mark_changed w)) as [[i|e|] w'];
      reflexivity.
  - destruct (existsb (String.eqb s) ["expunging"]); cbn [negb];
      [reflexivity|].
    rewrite bind_assoc. unfold bind at 1, set_changed at 1.
    destruct (check_mode m); cbn [negb]; [reflexivity|].
    rewrite bind_assoc. unfold bind at 1 4.
    destruct (lift (subscript vm "id") (mark_changed w)) as [[i|e|] w'];
      reflexivity.
Qed.

(** An operation on machine [i] submitted from [mark_changed w]: exactly
    one more mutating call, and [changed] is set. *)
Lemma submitted {A : Type} vm i (c : value -> call) (K : value -> M P A) w :
  subscript vm "id" = Ret i ->
  (forall r, within waited (K r)) ->
  mutating (c i) = true ->
  let w' := snd ((i <- lift (subscript vm "id") ;; r <- api (c i) ;; K r)
                   (mark_changed w)) in
  mutations w' = mutations w ++ [c i] /\ result_changed w' = true.
Proof.
  intros Hi HK Hc. cbv zeta.
  rewrite (bind_ret_run _ _ _ i (mark_changed w))
    by (unfold lift; now rewrite Hi).
  destruct (submit_then_wait (c i) K (mark_changed w) HK Hc) as (Mx & Cx & _).
  cbv zeta in Mx, Cx. cbv beta. split; [exact Mx|exact Cx].
Qed.

Lemma existsb_eqb_In s l : existsb (String.eqb s) l = true -> In s l.
Proof.
  intros E. apply existsb_exists in E. destruct E as (x & Hx & Ex).
  apply String.eqb_eq in Ex. now subst.
Qed.

Lemma within_waited_reboot r : within waited (poll_when_async m fuel r r).
Proof. auto with footprint. Qed.


(** C8.  With a machine that was found in state [s] and identifier [i].
    For [state] [absent] or [destroyed]: the mutating calls of the
    invocation are the single [destroyVirtualMachine] without [expunge]
    when [s] is none of [expunging], [destroying], [destroyed] (and the
    module is not in check mode), and none otherwise; in the three listed
    states no call at all follows the lookup and [changed] stays false.
    For [state] [expunged]: the mutating calls are the single
    [expungeVirtualMachine] when [s] is [destroying] or [destroyed], none
    when [s] is [expunging], and the single [destroyVirtualMachine] with
    [expunge] set in every other state (outside check mode); in state
    [expunging] no call follows the lookup and [changed] stays false. *)
Theorem destroy_and_expunge_transitions (p : P) vm w1 s i :
  lookup m (init p) = (Ret vm, w1) ->
  truthy vm = true ->
  state_of vm = Ret s ->
  subscript vm "id" = Ret i ->
  let out := reconcile m fuel p in
  (desired m ["absent"; "destroyed"] = true ->
   let gone :=
     existsb (String.eqb s) ["expunging"; "destroying"; "destroyed"] in
   mutations (snd out) =
     (if negb gone && negb (check_mode m)
      then [destroyVirtualMachine i false] else []) /\
   result_changed (snd out) = negb gone /\
   (gone = true -> calls (snd out) = calls w1)) /\
  (desired m ["expunged"] = true ->
   mutations (snd out) =
     (if check_mode m then []
      else if existsb (String.eqb s) ["destroying"; "destroyed"]
      then [expungeVirtualMachine i]
      else if existsb (String.eqb s) ["expunging"] then []
      else [destroyVirtualMachine i true]) /\
   result_changed (snd out) = negb (existsb (String.eqb s) ["expunging"]) /\
   (existsb (String.eqb s) ["expunging"] = true ->
    calls (snd out) = calls w1)).
Proof.
  intros Hl Ht Hs Hi. cbv zeta. unfold reconcile.
  destruct (lookup_fresh _ _ _ Hl) as (M1 & _ & C1 & V1).
  rewrite (main_run _ _ _ Hl). cbn [fst snd]. split; intros Hd.
  - rewrite (dispatch_absent _ Hd), (remove_vm_run w1 vm s V1 Ht Hs).
    destruct (existsb (String.eqb s) ["expunging"; "destroying"; "destroyed"]);
      cbn [negb andb snd]; [auto|].
    destruct (check_mode m); cbn [negb snd].
    + repeat split; auto; discriminate.
    + destruct (submitted vm i (fun i => destroyVirtualMachine i false)
                  (fun r => fail_on_errortext r ;; poll_when_async m fuel r vm)
                  w1 Hi) as (Mx & Cx).
      { intros r. frame. }
      { reflexivity. }
      cbv zeta in Mx, Cx. rewrite Mx, Cx, M1. repeat split; discriminate.
  - rewrite (dispatch_expunged _ Hd), (expunge_vm_run w1 vm s V1 Ht Hs).
    assert (Hex : existsb (String.eqb s) ["destroying"; "destroyed"] = true ->
                  existsb (String.eqb s) ["expunging"] = false).
    { intros E. apply existsb_eqb_In in E. cbn [In] in E.
      destruct E as [<-|[<-|[]]]; reflexivity. }
    destruct (existsb (String.eqb s) ["destroying"; "destroyed"]).
    + rewrite (Hex eq_refl). cbn [negb]. destruct (check_mode m).
      * rewrite poll_nothing. cbn [snd]. repeat split; auto; discriminate.
      * destruct (submitted vm i expungeVirtualMachine
                    (fun r => (if truthy r then fail_on_errortext r
                               else ret tt) ;;
                              poll_when_async m fuel r vm)
                    w1 Hi) as (Mx & Cx).
        { intros r. frame. }
        { reflexivity. }
        cbv zeta in Mx, Cx. rewrite Mx, Cx, M1. repeat split; discriminate.
    + destruct (existsb (String.eqb s) ["expunging"]); cbn [negb].
      * rewrite poll_nothing. cbn [snd].
        destruct (check_mode m); repeat split; auto.
      * destruct (check_mode m).
        -- rewrite poll_nothing. cbn [snd]. repeat split; auto; discriminate.
        -- destruct (submitted vm i (fun i => destroyVirtualMachine i true)
                       (fun r => (if truthy r then fail_on_errortext r
                                  else ret tt) ;;
                                 poll_when_async m fuel r vm)
                       w1 Hi) as (Mx & Cx).
           { intros r. frame. }
           { reflexivity. }
           cbv zeta in Mx, Cx. rewrite Mx, Cx, M1.
           repeat split; discriminate.
Qed.

End Transitions.

(** ** Creating a machine *)

#[export] Instance sought_refl {P : Type} : Reflexive (@sought P).
Proof. intros w. apply grows_refl. Qed.

#[export] Instance sought_trans {P : Type} : Transitive (@sought P).
Proof. intros a b c. apply grows_trans. Qed.

#[export] Instance kept_refl {P : Type} : Reflexive (@kept P).
Proof. intros w E. exact E. Qed.

#[export] Instance kept_trans {P : Type} : Transitive (@kept P).
Proof. intros a b c K1 K2 E. auto. Qed.

Section Creation.

Context {P : Type} `{Provider P}.
Variable m : module.
Variable fuel : nat.

Lemma sought_api c : lookup_call c = true -> within sought (api c).
Proof. intros Qc w. now apply grows_api. Qed.

Lemma sought_set_vm v : within (@sought P) (set_vm v).
Proof. intros w. apply grows_same. reflexivity. Qed.

Lemma sought_set_project_id v : within (@sought P) (set_project_id v).
Proof. intros w. apply grows_same. reflexivity. Qed.

Hint Resolve sought_set_vm sought_set_project_id : footprint.
Hint Extern 1 (within sought (api _)) =>
  apply sought_api; reflexivity : footprint.

Lemma sought_get_project_id : within sought (get_project_id m).
Proof. unfold get_project_id. frame. Qed.
Hint Resolve sought_get_project_id : footprint.

Lemma sought_get_vm : within sought (get_vm m).
Proof. unfold get_vm. frame. Qed.
Hint Resolve sought_get_vm : footprint.

Lemma sought_lookup : within sought (lookup m).
Proof. unfold lookup. frame. Qed.

(** Both selectors or neither: the resolver fails on the spot. *)
Lemma template_or_iso_invalid w :
  truthy (param m "template") = truthy (param m "iso") ->
  get_template_or_iso_id m w =
  (Exc (FailJson
          (Text (if truthy (param m "template")
                 then "Template are ISO are mutually exclusive."
                 else "Template or ISO is required."))), w).
Proof.
  intros E. unfold get_template_or_iso_id. rewrite <- E.
  destruct (truthy (param m "template")); reflexivity.
Qed.

(** C7, as the code has it.  With [state] [present] or [created], no
    machine found by the lookup of [main] nor by the one of [create_vm],
    and both a template and an ISO given, or neither: the invocation
    fails with "Template are ISO are mutually exclusive." or with
    "Template or ISO is required.".  The lookups were made before that,
    and they are all that was called: every call is [listProjects] or
    [listVirtualMachines], none is mutating, and no template, ISO, zone or
    offering was listed. *)
Theorem invalid_spec_after_the_lookup_only (p : P) vm w1 vm2 w2 :
  desired m ["present"; "created"] = true ->
  lookup m (init p) = (Ret vm, w1) ->
  truthy vm = false ->
  get_vm m w1 = (Ret vm2, w2) ->
  truthy vm2 = false ->
  truthy (param m "template") = truthy (param m "iso") ->
  let out := reconcile m fuel p in
  fst out =
    Exc (FailJson
           (Text (if truthy (param m "template")
                  then "Template are ISO are mutually exclusive."
                  else "Template or ISO is required."))) /\
  calls (snd out) = calls w2 /\
  forallb lookup_call (calls (snd out)) = true /\
  mutations (snd out) = [].
Proof.
  intros Hd Hl Ht Hg Ht2 Hsel. cbv zeta. unfold reconcile.
  rewrite (main_run _ _ _ _ _ Hl), (dispatch_present _ _ _ Hd), Ht.
  cbn [negb]. unfold create_vm.
  rewrite (bind_ret_run _ _ _ _ _ Hg), Ht2. cbn [negb].
  rewrite (bind_ret_run set_changed _ w2 tt (mark_changed w2) eq_refl).
  unfold create_args.
  rewrite (bind_exc_run _ _ _ _ _
             (bind_exc_run _ _ _ _ _
                (template_or_iso_invalid (mark_changed w2) Hsel))).
  cbn [fst snd]. split; [reflexivity|]. split; [reflexivity|].
  assert (G : grows lookup_call (init p) w2).
  { eapply grows_trans.
    - pose proof (sought_lookup (init p)) as G1. rewrite Hl in G1. exact G1.
    - pose proof (sought_get_vm w1) as G2. rewrite Hg in G2. exact G2. }
  destruct G as (l & El & Ql). cbn [init calls app] in El.
  cbn [mark_changed calls]. unfold mutations. cbn [mark_changed calls].
  rewrite El. split; [exact Ql|].
  clear El. induction l as [|c l IH]; [reflexivity|].
  cbn [forallb] in Ql. apply andb_prop in Ql as [Qc Ql]. cbn [filter].
  destruct c; try discriminate; cbn [mutating]; auto.
Qed.

End Creation.

(** ** The anatomy of the transitions

    Each transition, written as the lookup of the machine, the decision,
    and the remote action. *)

#[export] Instance resolved_refl {P : Type} : Reflexive (@resolved P).
Proof. intros w. split; reflexivity. Qed.

#[export] Instance resolved_trans {P : Type} : Transitive (@resolved P).
Proof.
  intros a b c [L1 V1] [L2 V2]. split; [etransitivity; eauto|congruence].
Qed.

Section Anatomy.

Context {P : Type} `{Provider P}.
Variable m : module.
Variable fuel : nat.

Lemma resolved_api c : listing c = true -> within resolved (api c).
Proof.
  intros Qc w. split; [now apply looked_up_api|apply api_fields].
Qed.

Lemma resolved_set_project_id v : within (@resolved P) (set_project_id v).
Proof. intros w. repeat split. apply grows_same. reflexivity. Qed.

Lemma resolved_set_zone_id v : within (@resolved P) (set_zone_id v).
Proof. intros w. repeat split. apply grows_same. reflexivity. Qed.

Lemma resolved_set_hypervisor v : within (@resolved P) (set_hypervisor v).
Proof. intros w. repeat split. apply grows_same. reflexivity. Qed.

Hint Resolve resolved_set_project_id resolved_set_zone_id
  resolved_set_hypervisor : footprint.
Hint Extern 1 (within resolved (api _)) =>
  apply resolved_api; reflexivity : footprint.

Lemma resolved_get_project_id : within resolved (get_project_id m).
Proof. unfold get_project_id. frame. Qed.
Hint Resolve resolved_get_project_id : footprint.

Lemma resolved_get_zone_id : within resolved (get_zone_id m).
Proof. unfold get_zone_id. frame. Qed.
Hint Resolve resolved_get_zone_id : footprint.

Lemma resolved_get_hypervisor : within resolved (get_hypervisor m).
Proof. unfold get_hypervisor. frame. Qed.
Hint Resolve resolved_get_hypervisor : footprint.

Lemma resolved_get_service_offering_id :
  within resolved (get_service_offering_id m).
Proof. unfold get_service_offering_id. frame. Qed.
Hint Resolve resolved_get_service_offering_id : footprint.

Lemma resolved_get_template_or_iso_id :
  within resolved (get_template_or_iso_id m).
Proof. unfold get_template_or_iso_id. frame. Qed.
Hint Resolve resolved_get_template_or_iso_id : footprint.

Lemma resolved_get_disk_offering_id :
  within resolved (get_disk_offering_id m).
Proof. unfold get_disk_offering_id. frame. Qed.
Hint Resolve resolved_get_disk_offering_id : footprint.

Lemma resolved_get_network_ids : within resolved (get_network_ids m).
Proof. unfold get_network_ids. frame. Qed.
Hint Resolve resolved_get_network_ids : footprint.

Lemma resolved_create_args : within resolved (create_args m).
Proof. unfold create_args. frame. Qed.

Lemma stop_vm_anatomy w :
  stop_vm m fuel w =
  match get_vm m w with
  | (Ret vm, w1) =>
      if truthy vm then
        match state_of vm with
        | Ret s =>
            if String.eqb s "starting" && negb (String.eqb s "running") then
              if check_mode m then (Ret vm, mark_changed w1)
              else stop_action m fuel vm (mark_changed w1)
            else (Ret vm, w1)
        | Exc e => (Exc e, w1)
        | Cut => (Cut, w1)
        end
      else
        (Exc (FailJson (Format "Virtual machine named '%s' not found"
                               (param m "name"))), w1)
  | (Exc e, w1) => (Exc e, w1)
  | (Cut, w1) => (Cut, w1)
  end.
Proof.
  unfold stop_vm. unfold bind at 1.
  destruct (get_vm m w) as [[vm|e|] w1]; try reflexivity.
  destruct (truthy vm); cbn [negb]; [|reflexivity].
  unfold bind at 1, ret at 1. unfold bind at 1, lift at 1.
  destruct (state_of vm) as [s|e|]; try reflexivity.
  destruct (String.eqb s "starting" && negb (String.eqb s "running"));
    [|reflexivity].
  unfold bind at 1, set_changed at 1. destruct (check_mode m); reflexivity.
Qed.

Lemma start_vm_anatomy w :
  start_vm m fuel w =
  match get_vm m w with
  | (Ret vm, w1) =>
      if truthy vm then
        match state_of vm with
        | Ret s =>
            if String.eqb s "stopped" || String.eqb s "stopping" then
              if check_mode m then (Ret vm, mark_changed w1)
              else start_action m fuel vm (mark_changed w1)
            else (Ret vm, w1)
        | Exc e => (Exc e, w1)
        | Cut => (Cut, w1)
        end
      else (Exc (NameError "module"), w1)
  | (Exc e, w1) => (Exc e, w1)
  | (Cut, w1) => (Cut, w1)
  end.
Proof.
  unfold start_vm. unfold bind at 1.
  destruct (get_vm m w) as [[vm|e|] w1]; try reflexivity.
  destruct (truthy vm); cbn [negb]; [|reflexivity].
  unfold bind at 1, ret at 1. unfold bind at 1, lift at 1.
  destruct (state_of vm) as [s|e|]; try reflexivity.
  destruct (String.eqb s "stopped" || String.eqb s "stopping");
    [|reflexivity].
  unfold bind at 1, set_changed at 1. destruct (check_mode m); reflexivity.
Qed.

Lemma restart_vm_anatomy w :
  restart_vm m fuel w =
  match get_vm m w with
  | (Ret vm, w1) =>
      if truthy vm then
        match state_of vm with
        | Ret s =>
            if existsb (String.eqb s) ["running"; "starting"] then
              if check_mode m then (Ret vm, mark_changed w1)
              else reboot_action m fuel vm (mark_changed w1)
            else if existsb (String.eqb s) ["stopping"; "stopped"] then
              (Exc (FailJson
                      (Format
                         "Virtual machine named '%s' not running, not restarted"
                         (param m "name"))), w1)
            else (Ret vm, w1)
        | Exc e => (Exc e, w1)
        | Cut => (Cut, w1)
        end
      else (Exc (NameError "module"), w1)
  | (Exc e, w1) => (Exc e, w1)
  | (Cut, w1) => (Cut, w1)
  end.
Proof.
  unfold restart_vm. unfold bind at 1.
  destruct (get_vm m w) as [[vm|e|] w1]; try reflexivity.
  destruct (truthy vm); cbn [negb]; [|reflexivity].
  unfold bind at 1, ret at 1. unfold bind at 1, lift at 1.
  destruct (state_of vm) as [s|e|]; try reflexivity.
  destruct (existsb (String.eqb s) ["running"; "starting"]).
  - unfold bind at 1, set_changed at 1. destruct (check_mode m); reflexivity.
  - destruct (existsb (String.eqb s) ["stopping"; "stopped"]); reflexivity.
Qed.

Lemma remove_vm_anatomy w :
  remove_vm m fuel w =
  match get_vm m w with
  | (Ret vm, w1) =>
      if truthy vm then
        match state_of vm with
        | Ret s =>
            if existsb (String.eqb s) ["expunging"; "destroying"; "destroyed"]
            then (Ret vm, w1)
            else if check_mode m then (Ret vm, mark_changed w1)
            else destroy_action m fuel vm (mark_changed w1)
        | Exc e => (Exc e, w1)
        | Cut => (Cut, w1)
        end
      else (Ret vm, w1)
  | (Exc e, w1) => (Exc e, w1)
  | (Cut, w1) => (Cut, w1)
  end.
Proof.
  unfold remove_vm. unfold bind at 1.
  destruct (get_vm m w) as [[vm|e|] w1]; try reflexivity.
  destruct (truthy vm); [|reflexivity].
  unfold bind at 1, lift at 1.
  destruct (state_of vm) as [s|e|]; try reflexivity.
  destruct (existsb (String.eqb s) ["expunging"; "destroying"; "destroyed"]);
    cbn [negb]; [reflexivity|].
  unfold bind at 1, set_changed at 1. destruct (check_mode m); reflexivity.
Qed.

Lemma expunge_vm_anatomy w :
  expunge_vm m fuel w =
  match get_vm m w with
  | (Ret vm, w1) =>
      if truthy vm then
        match state_of vm with
        | Ret s =>
            if existsb (String.eqb s) ["destroying"; "destroyed"] then
              if check_mode m then
                poll_when_async m fuel (VDict []) vm (mark_changed w1)
              else
                expunge_action m fuel expungeVirtualMachine vm
                  (mark_changed w1)
            else if existsb (String.eqb s) ["expunging"] then
              poll_when_async m fuel (VDict []) vm w1
            else if check_mode m then
              poll_when_async m fuel (VDict []) vm (mark_changed w1)
            else
              expunge_action m fuel (fun i => destroyVirtualMachine i true)
                vm (mark_changed w1)
        | Exc e => (Exc e, w1)
        | Cut => (Cut, w1)
        end
      else (Ret vm, w1)
  | (Exc e, w1) => (Exc e, w1)
  | (Cut, w1) => (Cut, w1)
  end.
Proof.
  unfold expunge_vm, expunge_action. unfold bind at 1.
  destruct (get_vm m w) as [[vm|e|] w1]; try reflexivity.
  destruct (truthy vm); [|reflexivity].
  unfold bind at 1, lift at 1.
  destruct (state_of vm) as [s|e|]; try reflexivity.
  destruct (existsb (String.eqb s) ["destroying"; "destroyed"]).
  - rewrite bind_assoc. unfold bind at 1, set_changed at 1.
    destruct (check_mode m); cbn [negb]; [reflexivity|].
    rewrite bind_assoc. unfold bind at 1 4.
    destruct (lift (subscript vm "id") (mark_changed w1)) as [[i|e|] w'];
      reflexivity.
  - destruct (existsb (String.eqb s) ["expunging"]); cbn [negb];
      [reflexivity|].
    rewrite bind_assoc. unfold bind at 1, set_changed at 1.
    destruct (check_mode m); cbn [negb]; [reflexivity|].
    rewrite bind_assoc. unfold bind at 1 4.
    destruct (lift (subscript vm "id") (mark_changed w1)) as [[i|e|] w'];
      reflexivity.
Qed.

Lemma scale_vm_anatomy w :
  scale_vm m fuel w =
  match get_vm m w with
  | (Ret vm, w1) =>
      if truthy vm then
        match get_service_offering_id m w1 with
        | (Ret so, w2) =>
            match subscript vm "serviceofferingid" with
            | Ret current =>
                if py_ne current so then
                  if check_mode m then (Ret vm, mark_changed w2)
                  else scale_action m fuel vm so (mark_changed w2)
                else (Ret vm, w2)
            | Exc e => (Exc e, w2)
            | Cut => (Cut, w2)
            end
        | (Exc e, w2) => (Exc e, w2)
        | (Cut, w2) => (Cut, w2)
        end
      else (Ret vm, w1)
  | (Exc e, w1) => (Exc e, w1)
  | (Cut, w1) => (Cut, w1)
  end.
Proof.
  unfold scale_vm. unfold bind at 1.
  destruct (get_vm m w) as [[vm|e|] w1]; try reflexivity.
  destruct (truthy vm); [|reflexivity].
  unfold bind at 1.
  destruct (get_service_offering_id m w1) as [[so|e|] w2]; try reflexivity.
  unfold bind at 1, lift at 1.
  destruct (subscript vm "serviceofferingid") as [cur|e|]; try reflexivity.
  destruct (py_ne cur so); [|reflexivity].
  unfold bind at 1, set_changed at 1. destruct (check_mode m); reflexivity.
Qed.

Lemma create_vm_anatomy w :
  create_vm m fuel w =
  match get_vm m w with
  | (Ret vm, w1) =>
      if truthy vm then (Ret vm, w1)
      else
        match create_args m (mark_changed w1) with
        | (Ret args, w2) =>
            if check_mode m then (Ret vm, w2)
            else deploy_action m fuel args w2
        | (Exc e, w2) => (Exc e, w2)
        | (Cut, w2) => (Cut, w2)
        end
  | (Exc e, w1) => (Exc e, w1)
  | (Cut, w1) => (Cut, w1)
  end.
Proof.
  unfold create_vm. unfold bind at 1.
  destruct (get_vm m w) as [[vm|e|] w1]; try reflexivity.
  destruct (truthy vm); cbn [negb]; [reflexivity|].
  unfold bind at 1, set_changed at 1. unfold bind at 1.
  destruct (create_args m (mark_changed w1)) as [[args|e|] w2];
    try reflexivity.
  destruct (check_mode m); reflexivity.
Qed.

End Anatomy.

(** ** The default service offering *)

Section Offering.

Context {P : Type} `{Provider P}.
Variable m : module.
Variable fuel : nat.

Lemma kept_api c : within kept (api c).
Proof. intros w E. now rewrite (proj1 (api_fields c w)). Qed.

Lemma kept_any_set (f : world P -> world P) :
  (forall w, result_changed (f w) = result_changed w \/
             result_changed (f w) = true) ->
  within kept (fun w => (Ret tt, f w)).
Proof. intros Hf w E. cbn [snd]. destruct (Hf w); congruence. Qed.

Lemma kept_of_looked_up {A : Type} (c : M P A) :
  within looked_up c -> within kept c.
Proof. intros Hc w E. destruct (Hc w) as [_ C]. congruence. Qed.

Lemma kept_of_waited {A : Type} (c : M P A) :
  within waited c -> within kept c.
Proof. intros Hc w E. destruct (Hc w) as (_ & C & _). congruence. Qed.

Hint Extern 1 (within kept (api _)) => apply kept_api : footprint.
Hint Extern 1 (within kept set_changed) =>
  apply kept_any_set; intros ?; right; reflexivity : footprint.
Hint Extern 3 (within kept _) =>
  apply kept_of_looked_up; solve [auto with footprint] : footprint.
Hint Extern 3 (within kept _) =>
  apply kept_of_waited; solve [auto with footprint] : footprint.

Lemma kept_stop_vm : within kept (stop_vm m fuel).
Proof. unfold stop_vm. frame. Qed.
Hint Resolve kept_stop_vm : footprint.

Lemma kept_start_vm : within kept (start_vm m fuel).
Proof. unfold start_vm. frame. Qed.
Hint Resolve kept_start_vm : footprint.

Lemma kept_scale_action vm so : within kept (scale_action m fuel vm so).
Proof. unfold scale_action. frame. Qed.

Lemma bind_ret_inv {A B : Type} (c : M P A) (k : A -> M P B) w b w' :
  bind c k w = (Ret b, w') ->
  exists a w1, c w = (Ret a, w1) /\ k a w1 = (Ret b, w').
Proof.
  unfold bind. destruct (c w) as [[a|e|] w1]; try discriminate.
  intros E. exists a, w1. auto.
Qed.

Lemma dict_get_set_other k k' v d :
  String.eqb k k' = false -> dict_get k (dict_set k' v d) = dict_get k d.
Proof.
  intros E. induction d as [|[k0 v0] d IH]; cbn [dict_set dict_get].
  - now rewrite E.
  - destruct (String.eqb k' k0) eqn:E0; cbn [dict_get].
    + apply String.eqb_eq in E0. subst k0. now rewrite E.
    + now rewrite IH.
Qed.

(** Without a selector, the resolver returns the identifier of the first
    offering of the listing it has just received. *)
Lemma default_offering w r p' i :
  truthy (param m "service_offering") = false ->
  request listServiceOfferings (cloud w) = (Reply r, p') ->
  truthy r = true ->
  first_offering_id r = Ret i ->
  get_service_offering_id m w = (Ret i, record_call listServiceOfferings p' w).
Proof.
  intros Hsel Hr Ht Hi. unfold get_service_offering_id.
  unfold bind at 1, api at 1. rewrite Hr, Ht, Hsel. cbn [negb].
  unfold first_offering_id, rbind in Hi. unfold bind, lift.
  destruct (subscript r "serviceoffering") as [l|e|]; try discriminate.
  destruct (first l) as [s|e|]; try discriminate. now rewrite Hi.
Qed.

Lemma default_offering_inv w so w' :
  truthy (param m "service_offering") = false ->
  get_service_offering_id m w = (Ret so, w') ->
  exists r p',
    request listServiceOfferings (cloud w) = (Reply r, p') /\
    truthy r = true /\ first_offering_id r = Ret so.
Proof.
  intros Hsel. unfold get_service_offering_id. unfold bind at 1, api at 1.
  destruct (request listServiceOfferings (cloud w)) as [[r|msg] p'];
    [|discriminate].
  destruct (truthy r) eqn:Ht; [|discriminate]. rewrite Hsel. cbn [negb].
  intros E. exists r, p'. repeat split; auto.
  unfold first_offering_id, rbind. unfold bind, lift in E.
  destruct (subscript r "serviceoffering") as [l|e|]; try discriminate.
  destruct (first l) as [s|e|]; try discriminate.
  destruct (subscript s "id"); inversion E. reflexivity.
Qed.

Lemma start_vm_run w vm s :
  self_vm w = vm -> truthy vm = true -> state_of vm = Ret s ->
  start_vm m fuel w =
  if String.eqb s "stopped" || String.eqb s "stopping" then
    if check_mode m then (Ret vm, mark_changed w)
    else start_action m fuel vm (mark_changed w)
  else (Ret vm, w).
Proof.
  intros Ev Et Es. rewrite start_vm_anatomy.
  rewrite get_vm_cached by now rewrite Ev. rewrite Ev, Et, Es. reflexivity.
Qed.

Lemma poll_job_nothing job key w :
  contains "jobid" job = Ret false ->
  _poll_job fuel job key w = (Ret job, w).
Proof. intros E. unfold _poll_job, bind, lift. now rewrite E. Qed.

(** The scale of a machine that is not starting and carries no job: the
    offering change is the one mutating call. *)
Lemma scale_action_calls w vm so s vid :
  self_vm w = vm -> truthy vm = true ->
  state_of vm = Ret s ->
  String.eqb s "starting" = false ->
  contains "jobid" vm = Ret false ->
  subscript vm "id" = Ret vid ->
  mutations (snd (scale_action m fuel vm so w)) =
  mutations w ++ [scaleVirtualMachine vid so].
Proof.
  intros Ev Et Es Hs Hj Hi. unfold scale_action.
  rewrite (bind_ret_run _ _ w s w) by (unfold lift; now rewrite Es).
  rewrite (bind_ret_run _ _ w vm w)
    by (rewrite (stop_vm_run m fuel w vm s Ev Et Es), Hs; reflexivity).
  rewrite (bind_ret_run _ _ w vm w) by now apply poll_job_nothing.
  rewrite (bind_ret_run _ _ w vid w) by (unfold lift; now rewrite Hi).
  unfold bind at 1, api at 1.
  destruct (request (scaleVirtualMachine vid so) (cloud w)) as [[r|msg] p'];
    cbn [snd]; [|now rewrite mutations_record_call].
  set (w' := record_call (scaleVirtualMachine vid so) p' w).
  assert (Mw : mutations w' = mutations w ++ [scaleVirtualMachine vid so])
    by apply mutations_record_call.
  destruct (String.eqb s "running") eqn:Er; [|exact Mw].
  assert (Es' : (String.eqb s "stopped" || String.eqb s "stopping") = false).
  { apply String.eqb_eq in Er. subst s. reflexivity. }
  rewrite (bind_ret_run _ _ w' vm w')
    by (rewrite (start_vm_run w' vm s Ev Et Es), Es'; reflexivity).
  rewrite poll_job_nothing by exact Hj. exact Mw.
Qed.

Lemma create_args_offering w args w' :
  create_args m w = (Ret args, w') ->
  exists so,
    get_service_offering_id m
      (snd ((get_template_or_iso_id m ;; get_zone_id m) w)) =
      (Ret so,
       snd ((get_template_or_iso_id m ;; get_zone_id m ;;
             get_service_offering_id m) w)) /\
    dict_get "serviceofferingid" args = Some so.
Proof.
  unfold create_args. intros E.
  apply bind_ret_inv in E as (t & wa & Et & E).
  apply bind_ret_inv in E as (z & wb & Ez & E).
  apply bind_ret_inv in E as (so & wc & Eso & E).
  apply bind_ret_inv in E as (pid & wd & _ & E).
  apply bind_ret_inv in E as (nids & we & _ & E).
  apply bind_ret_inv in E as (nets & wf & _ & E).
  apply bind_ret_inv in E as (disk & wg & _ & E).
  apply bind_ret_inv in E as (hyp & wh & _ & E).
  cbv zeta in E.
  apply bind_ret_inv in E as (a1 & wi & Eud & E).
  apply bind_ret_inv in E as (sgn & wj & _ & E).
  apply bind_ret_inv in E as (agn & wk & _ & E).
  exists so. split.
  - rewrite (bind_ret_run _ _ _ _ _ Et), Ez. cbn [snd].
    rewrite (bind_ret_run _ _ _ _ _ Et), (bind_ret_run _ _ _ _ _ Ez), Eso.
    reflexivity.
  - unfold ret in E. inversion E; subst args.
    rewrite !dict_get_set_other by reflexivity.
    destruct (truthy (param m "user_data")).
    + destruct (param m "user_data"); try discriminate.
      unfold ret in Eud. inversion Eud; subst a1. reflexivity.
    + unfold ret in Eud. inversion Eud; subst a1. reflexivity.
Qed.

(** C10.  With no [service_offering] given:
    - the resolver returns the identifier of the first offering of the
      listing it receives;
    - a machine that is created is deployed, outside check mode, with
      [args] whose [serviceofferingid] is the first offering of the
      listing made after the template and the zone were resolved, and the
      deploy is the one mutating call;
    - for [state] [present] or [created] and a machine that was found
      whose [serviceofferingid] differs from the first offering listed,
      [changed] is set, and outside check mode, for a machine that is not
      starting and carries no job identifier, [scaleVirtualMachine] to
      that first offering is the mutating call that is made. *)
Theorem first_offering_is_the_default :
  truthy (param m "service_offering") = false ->
  (forall w r p' i,
     request listServiceOfferings (cloud w) = (Reply r, p') ->
     truthy r = true ->
     first_offering_id r = Ret i ->
     get_service_offering_id m w =
     (Ret i, record_call listServiceOfferings p' w)) /\
  (forall w0 vm w1 args w2,
     get_vm m w0 = (Ret vm, w1) ->
     truthy vm = false ->
     create_args m (mark_changed w1) = (Ret args, w2) ->
     check_mode m = false ->
     (exists r p' i,
        request listServiceOfferings
          (cloud (snd ((get_template_or_iso_id m ;; get_zone_id m)
                         (mark_changed w1)))) = (Reply r, p') /\
        truthy r = true /\
        first_offering_id r = Ret i /\
        dict_get "serviceofferingid" args = Some i) /\
     mutations (snd (create_vm m fuel w0)) =
     mutations w0 ++ [deployVirtualMachine args]) /\
  (forall (p : P) vm w1 r p' i current,
     desired m ["present"; "created"] = true ->
     lookup m (init p) = (Ret vm, w1) ->
     truthy vm = true ->
     request listServiceOfferings (cloud w1) = (Reply r, p') ->
     truthy r = true ->
     first_offering_id r = Ret i ->
     subscript vm "serviceofferingid" = Ret current ->
     py_ne current i = true ->
     let out := reconcile m fuel p in
     result_changed (snd out) = true /\
     (check_mode m = false ->
      forall s vid,
        state_of vm = Ret s ->
        String.eqb s "starting" = false ->
        contains "jobid" vm = Ret false ->
        subscript vm "id" = Ret vid ->
        mutations (snd out) = [scaleVirtualMachine vid i])).
Proof.
  intros Hsel. split; [|split].
  - intros w r p' i. now apply default_offering.
  - intros w0 vm w1 args w2 Hg Ht Ha Hc. split.
    + destruct (create_args_offering _ _ _ Ha) as (so & Eso & Hso).
      destruct (default_offering_inv _ _ _ Hsel Eso) as (r & p' & Hr & Tr & Fr).
      exists r, p', so. auto.
    + rewrite create_vm_anatomy, Hg, Ht, Ha, Hc. unfold deploy_action.
      destruct (submit_then_wait (deployVirtualMachine args)
                  (fun vm => fail_on_errortext vm ;;
                             poll_when_async m fuel vm vm) w2) as (Mx & _).
      { intros r. frame. }
      { reflexivity. }
      cbv zeta in Mx. rewrite Mx. f_equal.
      pose proof (resolved_create_args m (mark_changed w1)) as [L _].
      rewrite Ha in L. cbn [snd] in L. rewrite (looked_up_mutations _ _ L).
      pose proof (looked_up_get_vm m w0) as L0. rewrite Hg in L0.
      exact (looked_up_mutations _ _ L0).
  - intros p vm w1 r p' i cur Hd Hl Ht Hr Tr Fr Hcur Hne. cbv zeta.
    unfold reconcile.
    destruct (lookup_fresh _ _ _ _ Hl) as (M1 & _ & C1 & V1).
    rewrite (main_run _ _ _ _ _ Hl), (dispatch_present _ _ _ Hd), Ht.
    cbn [negb fst snd]. rewrite scale_vm_anatomy.
    rewrite get_vm_cached by now rewrite V1. rewrite V1, Ht.
    rewrite (default_offering w1 r p' i Hsel Hr Tr Fr), Hcur, Hne.
    set (w2 := record_call listServiceOfferings p' w1).
    assert (M2 : mutations (mark_changed w2) = []).
    { unfold w2. unfold mutations. cbn [mark_changed record_call calls].
      rewrite filter_app. cbn [filter mutating app].
      rewrite app_nil_r. exact M1. }
    split.
    + destruct (check_mode m); [reflexivity|].
      now apply (kept_scale_action vm i (mark_changed w2)).
    + intros Hc s vid Hs Hst Hj Hi. rewrite Hc.
      rewrite (scale_action_calls (mark_changed w2) vm i s vid
                 V1 Ht Hs Hst Hj Hi), M2.
      reflexivity.
Qed.

End Offering.

(** ** Check mode *)

Section CheckMode.

Context {P : Type} `{Provider P}.
Variable m : module.
Variable fuel : nat.

Ltac unchanged L :=
  let N := fresh "N" in
  solve [intros N; exfalso; apply N; cbn [snd];
         repeat first [exact L | rewrite poll_nothing; cbn [snd]]].

Lemma get_vm_facts w vm w1 :
  get_vm m w = (Ret vm, w1) ->
  mutations w1 = mutations w /\ self_vm w1 = vm.
Proof.
  intros E. split; [|eapply get_vm_field; eauto].
  pose proof (looked_up_get_vm m w) as L. rewrite E in L.
  exact (looked_up_mutations _ _ L).
Qed.

Lemma get_vm_mutations w :
  mutations (snd (get_vm m w)) = mutations w.
Proof. exact (looked_up_mutations _ _ (looked_up_get_vm m w)). Qed.

Lemma stop_vm_announced w :
  mutations (snd (stop_vm m fuel w)) <> mutations w ->
  announced (stop_vm (with_check m) fuel w).
Proof.
  rewrite !stop_vm_anatomy.
  change (get_vm (with_check m) w) with (get_vm m w).
  pose proof (get_vm_mutations w) as L.
  destruct (get_vm m w) as [[vm|e|] w1] eqn:Eg; cbn [snd] in L;
    try (unchanged L).
  destruct (get_vm_facts _ _ _ Eg) as [_ V].
  destruct (truthy vm); [|unchanged L].
  destruct (state_of vm) as [s|e|]; try (unchanged L).
  destruct (String.eqb s "starting" && negb (String.eqb s "running"));
    [|unchanged L].
  intros _. cbn [check_mode with_check]. split; [reflexivity|].
  left. cbn [fst snd mark_changed self_vm]. now rewrite V.
Qed.

Lemma start_vm_announced w :
  mutations (snd (start_vm m fuel w)) <> mutations w ->
  announced (start_vm (with_check m) fuel w).
Proof.
  rewrite !start_vm_anatomy.
  change (get_vm (with_check m) w) with (get_vm m w).
  pose proof (get_vm_mutations w) as L.
  destruct (get_vm m w) as [[vm|e|] w1] eqn:Eg; cbn [snd] in L;
    try (unchanged L).
  destruct (get_vm_facts _ _ _ Eg) as [_ V].
  destruct (truthy vm); [|unchanged L].
  destruct (state_of vm) as [s|e|]; try (unchanged L).
  destruct (String.eqb s "stopped" || String.eqb s "stopping");
    [|unchanged L].
  intros _. cbn [check_mode with_check]. split; [reflexivity|].
  left. cbn [fst snd mark_changed self_vm]. now rewrite V.
Qed.

Lemma restart_vm_announced w :
  mutations (snd (restart_vm m fuel w)) <> mutations w ->
  announced (restart_vm (with_check m) fuel w).
Proof.
  rewrite !restart_vm_anatomy.
  change (get_vm (with_check m) w) with (get_vm m w).
  pose proof (get_vm_mutations w) as L.
  destruct (get_vm m w) as [[vm|e|] w1] eqn:Eg; cbn [snd] in L;
    try (unchanged L).
  destruct (get_vm_facts _ _ _ Eg) as [_ V].
  destruct (truthy vm); [|unchanged L].
  destruct (state_of vm) as [s|e|]; try (unchanged L).
  destruct (existsb (String.eqb s) ["running"; "starting"]).
  - intros _. cbn [check_mode with_check]. split; [reflexivity|].
    left. cbn [fst snd mark_changed self_vm]. now rewrite V.
  - destruct (existsb (String.eqb s) ["stopping"; "stopped"]); unchanged L.
Qed.

Lemma remove_vm_announced w :
  mutations (snd (remove_vm m fuel w)) <> mutations w ->
  announced (remove_vm (with_check m) fuel w).
Proof.
  rewrite !remove_vm_anatomy.
  change (get_vm (with_check m) w) with (get_vm m w).
  pose proof (get_vm_mutations w) as L.
  destruct (get_vm m w) as [[vm|e|] w1] eqn:Eg; cbn [snd] in L;
    try (unchanged L).
  destruct (get_vm_facts _ _ _ Eg) as [_ V].
  destruct (truthy vm); [|unchanged L].
  destruct (state_of vm) as [s|e|]; try (unchanged L).
  destruct (existsb (String.eqb s) ["expunging"; "destroying"; "destroyed"]);
    [unchanged L|].
  intros _. cbn [check_mode with_check]. split; [reflexivity|].
  left. cbn [fst snd mark_changed self_vm]. now rewrite V.
Qed.

Lemma poll_nothing_announced vm w :
  self_vm w = vm ->
  announced (poll_when_async (with_check m) fuel (VDict []) vm
               (mark_changed w)).
Proof.
  intros V. rewrite poll_nothing. split; [reflexivity|].
  cbn [fst snd mark_changed self_vm].
  destruct (truthy (param (with_check m) "poll_async")); [right|left];
    congruence.
Qed.

Lemma expunge_vm_announced w :
  mutations (snd (expunge_vm m fuel w)) <> mutations w ->
  announced (expunge_vm (with_check m) fuel w).
Proof.
  rewrite !expunge_vm_anatomy.
  change (get_vm (with_check m) w) with (get_vm m w).
  pose proof (get_vm_mutations w) as L.
  destruct (get_vm m w) as [[vm|e|] w1] eqn:Eg; cbn [snd] in L;
    try (unchanged L).
  destruct (get_vm_facts _ _ _ Eg) as [_ V].
  destruct (truthy vm); [|unchanged L].
  destruct (state_of vm) as [s|e|]; try (unchanged L).
  cbn [check_mode with_check].
  destruct (existsb (String.eqb s) ["destroying"; "destroyed"]).
  - intros _. now apply poll_nothing_announced.
  - destruct (existsb (String.eqb s) ["expunging"]); [unchanged L|].
    intros _. now apply poll_nothing_announced.
Qed.

Lemma scale_vm_announced w :
  mutations (snd (scale_vm m fuel w)) <> mutations w ->
  announced (scale_vm (with_check m) fuel w).
Proof.
  rewrite !scale_vm_anatomy.
  change (get_vm (with_check m) w) with (get_vm m w).
  pose proof (get_vm_mutations w) as L.
  destruct (get_vm m w) as [[vm|e|] w1] eqn:Eg; cbn [snd] in L;
    try (unchanged L).
  destruct (get_vm_facts _ _ _ Eg) as [_ V].
  destruct (truthy vm); [|unchanged L].
  change (get_service_offering_id (with_check m) w1)
    with (get_service_offering_id m w1).
  pose proof (resolved_get_service_offering_id m w1) as [L2 V2].
  apply looked_up_mutations in L2. rewrite L in L2.
  destruct (get_service_offering_id m w1) as [[so|e|] w2];
    cbn [snd] in L2, V2; try (unchanged L2).
  destruct (subscript vm "serviceofferingid") as [cur|e|];
    try (unchanged L2).
  destruct (py_ne cur so); [|unchanged L2].
  intros _. cbn [check_mode with_check]. split; [reflexivity|].
  left. cbn [fst snd mark_changed self_vm]. congruence.
Qed.

Lemma create_vm_announced w :
  mutations (snd (create_vm m fuel w)) <> mutations w ->
  announced (create_vm (with_check m) fuel w).
Proof.
  rewrite !create_vm_anatomy.
  change (get_vm (with_check m) w) with (get_vm m w).
  pose proof (get_vm_mutations w) as L.
  destruct (get_vm m w) as [[vm|e|] w1] eqn:Eg; cbn [snd] in L;
    try (unchanged L).
  destruct (get_vm_facts _ _ _ Eg) as [_ V].
  destruct (truthy vm); [unchanged L|].
  change (create_args (with_check m) (mark_changed w1))
    with (create_args m (mark_changed w1)).
  pose proof (resolved_create_args m (mark_changed w1)) as [[G2 C2] V2].
  pose proof (looked_up_mutations _ _ (conj G2 C2)) as L2.
  change (mutations (mark_changed w1)) with (mutations w1) in L2.
  rewrite L in L2.
  destruct (create_args m (mark_changed w1)) as [[args|e|] w2];
    cbn [snd] in L2, V2, C2; try (unchanged L2).
  intros _. cbn [check_mode with_check]. split; [exact C2|].
  left. cbn [fst snd]. cbn [mark_changed self_vm] in V2. congruence.
Qed.

Lemma dispatch_announced vm w :
  mutations (snd (dispatch m fuel vm w)) <> mutations w ->
  announced (dispatch (with_check m) fuel vm w).
Proof.
  unfold dispatch.
  change (param (with_check m) "state") with (param m "state").
  destruct (in_list (param m "state") [VStr "absent"; VStr "destroyed"]);
    [apply remove_vm_announced|].
  destruct (in_list (param m "state") [VStr "expunged"]);
    [apply expunge_vm_announced|].
  destruct (in_list (param m "state") [VStr "present"; VStr "created"]).
  { destruct (negb (truthy vm));
      [apply create_vm_announced|apply scale_vm_announced]. }
  destruct (in_list (param m "state") [VStr "stopped"; VStr "halted"]);
    [apply stop_vm_announced|].
  destruct (in_list (param m "state")
              [VStr "started"; VStr "running"; VStr "booted"]);
    [apply start_vm_announced|].
  destruct (in_list (param m "state") [VStr "restarted"; VStr "rebooted"]);
    [apply restart_vm_announced|].
  intros N. exfalso. apply N. reflexivity.
Qed.

Lemma dry_of_resolved {A : Type} (c : M P A) :
  within resolved c -> within dry c.
Proof.
  intros Hc w. destruct (Hc w) as [[G C] _]. split; [exact G|congruence].
Qed.

Hint Extern 3 (within dry _) =>
  apply dry_of_looked_up; solve [auto with footprint] : footprint.

Lemma dry_create_args : within dry (create_args (with_check m)).
Proof. apply dry_of_resolved. apply resolved_create_args. Qed.
Hint Resolve dry_create_args : footprint.

Lemma dry_create_vm : within dry (create_vm (with_check m) fuel).
Proof. unfold create_vm. cbn [check_mode with_check negb]. frame. Qed.

Lemma dry_stop_vm : within dry (stop_vm (with_check m) fuel).
Proof. unfold stop_vm. cbn [check_mode with_check negb]. frame. Qed.

Lemma dry_start_vm : within dry (start_vm (with_check m) fuel).
Proof. unfold start_vm. cbn [check_mode with_check negb]. frame. Qed.

Lemma dry_restart_vm : within dry (restart_vm (with_check m) fuel).
Proof. unfold restart_vm. cbn [check_mode with_check negb]. frame. Qed.

Lemma dry_remove_vm : within dry (remove_vm (with_check m) fuel).
Proof. unfold remove_vm. cbn [check_mode with_check negb]. frame. Qed.

Lemma dry_scale_vm : within dry (scale_vm (with_check m) fuel).
Proof. unfold scale_vm. cbn [check_mode with_check negb]. frame. Qed.

Lemma dry_mark_changed (w w1 : world P) : dry w w1 -> dry w (mark_changed w1).
Proof. intros [G C]. split; [exact G|reflexivity]. Qed.

Lemma dry_expunge_vm : within dry (expunge_vm (with_check m) fuel).
Proof.
  intros w. rewrite expunge_vm_anatomy.
  pose proof (dry_of_looked_up _ (looked_up_get_vm (with_check m)) w) as D.
  destruct (get_vm (with_check m) w) as [[vm|e|] w1]; cbn [snd] in D |- *;
    try exact D.
  destruct (truthy vm); [|exact D].
  destruct (state_of vm) as [s|e|]; try exact D.
  cbn [check_mode with_check]. rewrite !poll_nothing.
  destruct (existsb (String.eqb s) ["destroying"; "destroyed"]);
    [now apply dry_mark_changed|].
  destruct (existsb (String.eqb s) ["expunging"]);
    [exact D|now apply dry_mark_changed].
Qed.

Lemma dry_dispatch vm : within dry (dispatch (with_check m) fuel vm).
Proof.
  unfold dispatch.
  repeat match goal with
         | |- within dry (if ?b then _ else _) => destruct b
         end;
    auto using dry_create_vm, dry_stop_vm, dry_start_vm, dry_restart_vm,
      dry_remove_vm, dry_scale_vm, dry_expunge_vm.
  apply within_ret. typeclasses eauto.
Qed.

Lemma dry_calls (w w' : world P) :
  dry w w' -> mutations w' = mutations w /\ queries w' = queries w.
Proof.
  intros [G _]. split.
  - unfold mutations. apply (grows_filter listing); [|exact G].
    intros c. unfold listing. destruct (mutating c); [discriminate|reflexivity].
  - unfold queries. apply (grows_filter listing); [|exact G].
    intros c. unfold listing.
    destruct (polling c); [now rewrite andb_false_r|reflexivity].
Qed.

Lemma main_lost w0 r w1 :
  lookup m w0 = (r, w1) ->
  (forall vm, r <> Ret vm) ->
  snd (main m fuel w0) = w1.
Proof.
  intros E Hr. unfold main, catch_cloudstack.
  match goal with
  | |- snd (let '(_, _) := bind _ (fun _ => bind _ ?K) _ in _) = _ =>
      rewrite <- (bind_assoc (get_project_id m) (fun _ => get_vm m) K w0)
  end.
  change (bind (get_project_id m) (fun _ => get_vm m)) with (lookup m).
  unfold bind at 1. rewrite E.
  destruct r as [vm|e|]; [now destruct (Hr vm)| |]; reflexivity.
Qed.

Lemma rbind_ret_inv {A B : Type} (r : res A) (k : A -> res B) b :
  rbind r k = Ret b -> exists a, r = Ret a /\ k a = Ret b.
Proof. destruct r as [a|e|]; try discriminate. intros E. eauto. Qed.

Lemma copy_key_changed vm k k' r0 r :
  copy_key vm k k' r0 = Ret r ->
  String.eqb "changed" k' = false ->
  dict_get "changed" r = dict_get "changed" r0.
Proof.
  unfold copy_key. intros E Hk.
  apply rbind_ret_inv in E as (h & _ & E). destruct h.
  - apply rbind_ret_inv in E as (v & _ & E). inversion E.
    now apply dict_get_set_other.
  - now inversion E.
Qed.

Lemma default_ip_changed l r0 r :
  default_ip l r0 = Ret r -> dict_get "changed" r = dict_get "changed" r0.
Proof.
  revert r0. induction l as [|nic l IH]; intros r0; cbn [default_ip].
  - intros E. now inversion E.
  - intros E. apply rbind_ret_inv in E as (d & _ & E).
    destruct (truthy d); [|now apply IH].
    apply rbind_ret_inv in E as (ip & _ & E). rewrite (IH _ E).
    now apply dict_get_set_other.
Qed.

(** A report carries the [changed] it was built with. *)
Lemma project_result_changed vm r0 r :
  project_result m vm r0 = Ret r ->
  dict_get "changed" r = dict_get "changed" r0.
Proof.
  unfold project_result. destruct (truthy vm); [|now inversion 1].
  intros E.
  apply rbind_ret_inv in E as (hs & _ & E).
  apply rbind_ret_inv in E as (ie & _ & E).
  destruct ie; [discriminate|].
  repeat match type of E with
         | rbind (copy_key _ _ _ _) _ = Ret _ =>
             let x := fresh "x" in
             let Ex := fresh "Ex" in
             apply rbind_ret_inv in E as (x & Ex & E);
             apply copy_key_changed in Ex; [|reflexivity]
         end.
  apply rbind_ret_inv in E as (ht & _ & E).
  apply rbind_ret_inv in E as (rt & Et & E).
  match type of Et with
  | (if _ then _ else Ret ?d) = _ =>
      assert (Ert : dict_get "changed" rt = dict_get "changed" d)
  end.
  { destruct ht; [|now inversion Et].
    apply rbind_ret_inv in Et as (ts & _ & Et).
    apply rbind_ret_inv in Et as (l & _ & Et).
    apply rbind_ret_inv in Et as (tags & _ & Et). inversion Et.
    now apply dict_get_set_other. }
  apply rbind_ret_inv in E as (hn & _ & E).
  assert (Er : dict_get "changed" r = dict_get "changed" rt).
  { destruct hn; [|now inversion E].
    apply rbind_ret_inv in E as (ns & _ & E).
    apply rbind_ret_inv in E as (l & _ & E).
    apply rbind_ret_inv in E as (r1 & E1 & E). inversion E.
    rewrite dict_get_set_other by reflexivity.
    now apply default_ip_changed in E1. }
  congruence.
Qed.

Lemma report_changed vm b r :
  report m (Ret vm) b = Ret r -> dict_get "changed" r = Some (VBool b).
Proof.
  unfold report. intros E.
  assert (E' : project_result m vm [("changed", VBool b)] = Ret r).
  { destruct (project_result m vm [("changed", VBool b)]) as [a|e|];
      try discriminate; [exact E|].
    destruct e; discriminate. }
  now rewrite (project_result_changed _ _ _ E').
Qed.


End CheckMode.

(** ** A second invocation *)

Section Again.

Context {P : Type} `{Provider P}.
Variable m : module.
Variable fuel : nat.

Lemma dispatch_none vm :
  desired m ["absent"; "destroyed"] = false ->
  desired m ["expunged"] = false ->
  desired m ["present"; "created"] = false ->
  desired m ["stopped"; "halted"] = false ->
  desired m ["started"; "running"; "booted"] = false ->
  desired m ["restarted"; "rebooted"] = false ->
  dispatch m fuel vm = ret vm.
Proof.
  unfold desired, dispatch. cbn [map].
  intros -> -> -> -> -> ->. reflexivity.
Qed.

Lemma resolved_offering w :
  let o := get_service_offering_id m w in
  mutations (snd o) = mutations w /\
  result_changed (snd o) = result_changed w.
Proof.
  cbv zeta. destruct (resolved_get_service_offering_id m w) as [[G C] _].
  split; [exact (looked_up_mutations _ _ (conj G C))|exact C].
Qed.


End Again.

(** ** Further properties of the transitions *)

Section MoreTransitions.

Context {P : Type} `{Provider P}.
Variable m : module.
Variable fuel : nat.

(** X1.  With [state] [started], [running] or [booted] and a machine that was
    found: the only mutating call an invocation can make is
    [startVirtualMachine] on that machine, and it makes it exactly when
    the machine's state is [stopped] or [stopping] (and the module is not
    in check mode); [changed] is set exactly for these two states.  In
    every other state the invocation makes no call beyond the lookup,
    leaves [changed] false and reports the machine as it was found. *)
Theorem start_submitted_iff_stopped (p : P) vm w1 s i :
  desired m ["started"; "running"; "booted"] = true ->
  lookup m (init p) = (Ret vm, w1) ->
  truthy vm = true ->
  state_of vm = Ret s ->
  subscript vm "id" = Ret i ->
  let halted := String.eqb s "stopped" || String.eqb s "stopping" in
  let out := reconcile m fuel p in
  mutations (snd out) =
    (if halted && negb (check_mode m)
     then [startVirtualMachine i] else []) /\
  result_changed (snd out) = halted /\
  (halted = false ->
   calls (snd out) = calls w1 /\ fst out = report m (Ret vm) false).
Proof.
  intros Hd Hl Ht Hs Hi. cbv zeta. unfold reconcile.
  destruct (lookup_fresh _ _ _ _ Hl) as (M1 & _ & C1 & V1).
  rewrite (main_run _ _ _ _ _ Hl). cbn [fst snd].
  rewrite (dispatch_started _ _ _ Hd), (start_vm_run _ _ w1 vm s V1 Ht Hs).
  destruct (String.eqb s "stopped" || String.eqb s "stopping") eqn:E.
  - destruct (check_mode m); cbn [negb andb].
    + cbn [snd]. repeat split; auto; discriminate.
    + unfold start_action.
      destruct (submitted vm i startVirtualMachine
                  (fun r => fail_on_errortext r ;; poll_when_async m fuel r r)
                  w1 Hi) as (Mx & Cx).
      { intros r. frame. }
      { reflexivity. }
      cbv zeta in Mx, Cx. rewrite Mx, Cx, M1.
      repeat split; auto; discriminate.
  - cbn [andb snd fst]. rewrite C1. repeat split; auto.
Qed.

(** X2.  When neither [main] nor the transition finds the machine, a request
    to stop it fails with "Virtual machine named ... not found", and
    nothing but the lookups was called. *)
Theorem stop_of_missing_vm_fails (p : P) vm w1 vm2 w2 :
  desired m ["stopped"; "halted"] = true ->
  lookup m (init p) = (Ret vm, w1) ->
  get_vm m w1 = (Ret vm2, w2) ->
  truthy vm2 = false ->
  let out := reconcile m fuel p in
  fst out =
    Exc (FailJson (Format "Virtual machine named '%s' not found"
                          (param m "name"))) /\
  calls (snd out) = calls w2 /\
  mutations (snd out) = [] /\
  result_changed (snd out) = false.
Proof.
  intros Hd Hl Hg Ht2. cbv zeta. unfold reconcile.
  destruct (lookup_fresh _ _ _ _ Hl) as (M1 & _ & C1 & _).
  destruct (get_vm_facts _ _ _ _ Hg) as [M2 _].
  pose proof (looked_up_get_vm m w1) as [_ C2]. rewrite Hg in C2.
  cbn [snd] in C2.
  rewrite (main_run _ _ _ _ _ Hl), (dispatch_stopped _ _ _ Hd).
  rewrite stop_vm_anatomy, Hg, Ht2. cbn [fst snd].
  repeat split; congruence.
Qed.

(** X3.  When neither [main] nor the transition finds the machine, a request
    to start or to restart it does not end in [fail_json]: the branch
    that should report it names [module], which is not bound in the
    methods, and the invocation ends with [NameError].  Nothing but the
    lookups was called. *)
Theorem start_or_restart_of_missing_vm_is_a_name_error (p : P) vm w1 vm2 w2 :
  desired m ["started"; "running"; "booted"; "restarted"; "rebooted"] = true ->
  lookup m (init p) = (Ret vm, w1) ->
  get_vm m w1 = (Ret vm2, w2) ->
  truthy vm2 = false ->
  let out := reconcile m fuel p in
  fst out = Exc (NameError "module") /\
  calls (snd out) = calls w2 /\
  mutations (snd out) = [].
Proof.
  intros Hd Hl Hg Ht2. cbv zeta. unfold reconcile.
  destruct (lookup_fresh _ _ _ _ Hl) as (M1 & _ & C1 & _).
  destruct (get_vm_facts _ _ _ _ Hg) as [M2 _].
  rewrite (main_run _ _ _ _ _ Hl).
  assert (Ed : dispatch m fuel vm w1 = (Exc (NameError "module"), w2)).
  { destruct (desired_cases _ _ Hd) as (s & Es & Hs).
    unfold dispatch. rewrite Es. cbn [In] in Hs.
    destruct Hs as [<-|[<-|[<-|[<-|[<-|[]]]]]];
      cbn [in_list existsb map py_eq String.eqb Ascii.eqb Bool.eqb orb];
      first [rewrite start_vm_anatomy|rewrite restart_vm_anatomy];
      rewrite Hg, Ht2; reflexivity. }
  rewrite Ed. cbn [fst snd]. repeat split; congruence.
Qed.

End MoreTransitions.

(** ** Invariants of an invocation *)

#[export] Instance unpolled_refl {P : Type} : Reflexive (@unpolled P).
Proof. intros w. apply grows_refl. Qed.

#[export] Instance unpolled_trans {P : Type} : Transitive (@unpolled P).
Proof. intros a b c. apply grows_trans. Qed.

#[export] Instance guarded_refl {P : Type} : Reflexive (@guarded P).
Proof. intros w. split; [intros E; exact E|left; reflexivity]. Qed.

#[export] Instance guarded_trans {P : Type} : Transitive (@guarded P).
Proof.
  intros a b c [K1 G1] [K2 G2]. split; [intros E; auto|].
  destruct G2 as [G2|G2]; [|now right].
  destruct G1 as [G1|G1]; [left; congruence|right; auto].
Qed.

Section Invariants.

Context {P : Type} `{Provider P}.
Variable m : module.
Variable fuel : nat.

Lemma within_catch (R : world P -> world P -> Prop) {A : Type} (c : M P A) :
  within R c -> within R (catch_cloudstack c).
Proof.
  intros Hc w. unfold catch_cloudstack. specialize (Hc w).
  destruct (c w) as [r w1]. exact Hc.
Qed.

Lemma guarded_of_looked_up {A : Type} (c : M P A) :
  within looked_up c -> within guarded c.
Proof.
  intros Hc w. pose proof (Hc w) as L. split.
  - intros E. destruct L as [_ C]. congruence.
  - left. exact (looked_up_mutations _ _ L).
Qed.

Lemma guarded_of_waited {A : Type} (c : M P A) :
  within waited c -> within guarded c.
Proof.
  intros Hc w. pose proof (Hc w) as L. split.
  - intros E. destruct L as (_ & C & _). congruence.
  - left. exact (waited_mutations _ _ L).
Qed.

(** Whatever follows [self.result['changed'] = True] is covered by it. *)
Lemma guarded_after_set_changed {A : Type} (K : M P A) :
  within kept K -> within guarded (set_changed ;; K).
Proof.
  intros HK w. unfold bind, set_changed.
  assert (C : result_changed (snd (K (mark_changed w))) = true)
    by (apply HK; reflexivity).
  split; [intros _; exact C|right; exact C].
Qed.

Hint Extern 1 (within kept (api _)) => apply kept_api : footprint.
Hint Extern 1 (within kept set_changed) =>
  apply kept_any_set; intros ?; right; reflexivity : footprint.
Hint Extern 3 (within kept _) =>
  apply kept_of_looked_up; solve [auto with footprint] : footprint.
Hint Extern 3 (within kept _) =>
  apply kept_of_waited; solve [auto with footprint] : footprint.
Hint Resolve kept_stop_vm kept_start_vm : footprint.
Hint Extern 3 (within guarded _) =>
  apply guarded_of_looked_up; solve [auto with footprint] : footprint.
Hint Extern 3 (within guarded _) =>
  apply guarded_of_waited; solve [auto with footprint] : footprint.

Ltac gframe :=
  cbv zeta;
  repeat (first
            [ match goal with
              | |- within guarded (bind set_changed _) =>
                  apply guarded_after_set_changed; solve [frame]
              end
            | frame_step ];
          cbv zeta).

Lemma kept_create_args : within kept (create_args m).
Proof.
  apply kept_of_looked_up. intros w. exact (proj1 (resolved_create_args m w)).
Qed.
Hint Resolve kept_create_args : footprint.

Lemma guarded_create_vm : within guarded (create_vm m fuel).
Proof. unfold create_vm. gframe. Qed.

Lemma guarded_stop_vm : within guarded (stop_vm m fuel).
Proof. unfold stop_vm. gframe. Qed.

Lemma guarded_start_vm : within guarded (start_vm m fuel).
Proof. unfold start_vm. gframe. Qed.

Lemma guarded_restart_vm : within guarded (restart_vm m fuel).
Proof. unfold restart_vm. gframe. Qed.

Lemma guarded_remove_vm : within guarded (remove_vm m fuel).
Proof. unfold remove_vm. gframe. Qed.

Lemma guarded_scale_vm : within guarded (scale_vm m fuel).
Proof. unfold scale_vm. gframe. Qed.

Lemma guarded_expunge_vm : within guarded (expunge_vm m fuel).
Proof. unfold expunge_vm. gframe. Qed.

Lemma guarded_dispatch vm : within guarded (dispatch m fuel vm).
Proof.
  unfold dispatch.
  repeat match goal with
         | |- within guarded (if ?b then _ else _) => destruct b
         end;
    auto using guarded_create_vm, guarded_stop_vm, guarded_start_vm,
      guarded_restart_vm, guarded_remove_vm, guarded_scale_vm,
      guarded_expunge_vm.
  apply within_ret. typeclasses eauto.
Qed.
Hint Resolve guarded_dispatch : footprint.

Lemma guarded_main : within guarded (main m fuel).
Proof. unfold main. apply within_catch. gframe. Qed.

(** X4.  No mutating call is made before [changed] is set: an invocation that
    has made a mutating call has [changed] set, whatever the desired
    state, the mode and the provider, and however it ends; and if it
    ends with a report, the report says [changed = True]. *)
Theorem no_mutation_without_changed (p : P) :
  mutations (snd (reconcile m fuel p)) <> [] ->
  result_changed (snd (reconcile m fuel p)) = true /\
  (forall r, fst (reconcile m fuel p) = Ret r ->
             dict_get "changed" r = Some (VBool true)).
Proof.
  intros N. unfold reconcile in *.
  assert (C : result_changed (snd (main m fuel (init p))) = true).
  { destruct (guarded_main (init p)) as [_ [G|G]]; [|exact G].
    now destruct N. }
  split; [exact C|]. intros r E.
  destruct (lookup m (init p)) as [[vm|e|] w1] eqn:El.
  - rewrite (main_run _ _ _ _ _ El) in C, E. cbn [fst snd] in C, E.
    rewrite C in E.
    destruct (fst (dispatch m fuel vm w1)) as [v|e|]; cbn in E.
    + now apply (report_changed m v).
    + destruct e; discriminate.
    + discriminate.
  - exfalso. apply N.
    rewrite (main_lost _ _ (init p) (Exc e) w1 El) by discriminate.
    exact (looked_up_mutations _ _
             (eq_ind _ (fun x => looked_up (init p) (snd x))
                (looked_up_lookup m (init p)) _ El)).
  - exfalso. apply N.
    rewrite (main_lost _ _ (init p) Cut w1 El) by discriminate.
    exact (looked_up_mutations _ _
             (eq_ind _ (fun x => looked_up (init p) (snd x))
                (looked_up_lookup m (init p)) _ El)).
Qed.

Lemma unpolled_of_looked_up {A : Type} (c : M P A) :
  within looked_up c -> within unpolled c.
Proof.
  intros Hc w. destruct (Hc w) as [(l & E & Q) _]. exists l.
  split; [exact E|]. rewrite forallb_forall in *. intros c0 Hc0.
  specialize (Q c0 Hc0). unfold listing in Q.
  now apply andb_prop in Q as [_ Q].
Qed.

Lemma unpolled_api c : polling c = false -> within unpolled (api c).
Proof. intros Qc w. apply grows_api. now rewrite Qc. Qed.

Lemma unpolled_set_changed : within (@unpolled P) set_changed.
Proof. intros w. apply grows_same. reflexivity. Qed.

Section Unpolled.

Hypothesis unawaited : truthy (param m "poll_async") = false.

Lemma unpolled_poll_when_async r v :
  within unpolled (poll_when_async m fuel r v).
Proof.
  unfold poll_when_async. rewrite unawaited. apply within_ret.
  typeclasses eauto.
Qed.

Hint Resolve unpolled_poll_when_async unpolled_set_changed : footprint.
Hint Extern 1 (within unpolled (api _)) =>
  apply unpolled_api; reflexivity : footprint.
Hint Extern 3 (within unpolled _) =>
  apply unpolled_of_looked_up; solve [auto with footprint] : footprint.

Lemma unpolled_fail_on_errortext r : within unpolled (@fail_on_errortext P r).
Proof. unfold fail_on_errortext. frame. Qed.
Hint Resolve unpolled_fail_on_errortext : footprint.

Lemma unpolled_create_args : within unpolled (create_args m).
Proof.
  apply unpolled_of_looked_up. intros w.
  exact (proj1 (resolved_create_args m w)).
Qed.
Hint Resolve unpolled_create_args : footprint.

Lemma unpolled_create_vm : within unpolled (create_vm m fuel).
Proof. unfold create_vm. frame. Qed.

Lemma unpolled_stop_vm : within unpolled (stop_vm m fuel).
Proof. unfold stop_vm. frame. Qed.

Lemma unpolled_start_vm : within unpolled (start_vm m fuel).
Proof. unfold start_vm. frame. Qed.

Lemma unpolled_restart_vm : within unpolled (restart_vm m fuel).
Proof. unfold restart_vm. frame. Qed.

Lemma unpolled_remove_vm : within unpolled (remove_vm m fuel).
Proof. unfold remove_vm. frame. Qed.

Lemma unpolled_expunge_vm : within unpolled (expunge_vm m fuel).
Proof. unfold expunge_vm. frame. Qed.

(** X5.  With [poll_async] off, no transition but the scale waits for its
    job: for every desired state and every provider, an invocation that
    does not go through [scale_vm] (the machine is to be created, or the
    desired state is not [present]/[created]) makes no
    [queryAsyncJobResult] call. *)
Theorem nothing_is_awaited_when_poll_async_is_off (p : P) :
  (desired m ["present"; "created"] = false \/
   exists w1 vm, lookup m (init p) = (Ret vm, w1) /\ truthy vm = false) ->
  queries (snd (reconcile m fuel p)) = [].
Proof.
  intros Hd. unfold reconcile.
  assert (U : unpolled (init p) (snd (main m fuel (init p)))).
  { destruct (lookup m (init p)) as [[vm|e|] w1] eqn:El.
    - rewrite (main_run _ _ _ _ _ El). cbn [snd].
      pose proof (unpolled_of_looked_up _ (looked_up_lookup m) (init p)) as U1.
      rewrite El in U1. cbn [snd] in U1.
      etransitivity; [exact U1|].
      assert (D : within unpolled (dispatch m fuel vm)).
      { unfold dispatch.
        change (in_list (param m "state") [VStr "present"; VStr "created"])
          with (desired m ["present"; "created"]).
        destruct Hd as [Hd|(w1' & vm' & El' & Hv)].
        - rewrite Hd.
          repeat match goal with
                 | |- within unpolled (if ?b then _ else _) => destruct b
                 end;
            auto using unpolled_stop_vm, unpolled_start_vm,
              unpolled_restart_vm, unpolled_remove_vm, unpolled_expunge_vm.
          apply within_ret. typeclasses eauto.
        - inversion El'; subst vm' w1'. rewrite Hv.
          cbn [negb].
          repeat match goal with
                 | |- within unpolled (if ?b then _ else _) => destruct b
                 end;
            auto using unpolled_stop_vm, unpolled_start_vm,
              unpolled_restart_vm, unpolled_remove_vm, unpolled_expunge_vm,
              unpolled_create_vm.
          apply within_ret. typeclasses eauto. }
      apply D.
    - rewrite (main_lost _ _ (init p) (Exc e) w1 El) by discriminate.
      pose proof (unpolled_of_looked_up _ (looked_up_lookup m) (init p)) as U1.
      now rewrite El in U1.
    - rewrite (main_lost _ _ (init p) Cut w1 El) by discriminate.
      pose proof (unpolled_of_looked_up _ (looked_up_lookup m) (init p)) as U1.
      now rewrite El in U1. }
  unfold queries.
  rewrite (grows_filter (fun c => negb (polling c)) polling
             (init p) (snd (main m fuel (init p))));
    [reflexivity| |exact U].
  intros c E. now apply negb_true_iff in E.
Qed.

End Unpolled.

(** X6.  The poller has no bound of its own: against a provider that keeps
    answering that the job is pending, it asks again after two seconds
    for as many rounds as it is given, and never returns. *)
Theorem poller_never_gives_up (Inv : P -> Prop) (j : value) :
  (forall q, Inv q ->
     exists r q', request (queryAsyncJobResult j) q = (Reply r, q') /\
                  pending r = true /\ Inv q') ->
  forall job key w,
    subscript job "jobid" = Ret j ->
    Inv (cloud w) ->
    let out := _poll_job fuel job key w in
    fst out = Cut /\
    calls (snd out) = calls w ++ repeat (queryAsyncJobResult j) fuel /\
    slept (snd out) = slept w + 2 * fuel.
Proof.
  intros Hinv job key w Ej Hw. cbv zeta. unfold _poll_job.
  rewrite (bind_ret_run _ _ w true w)
    by (unfold lift; now rewrite (subscript_contains _ _ _ Ej)).
  revert w Hw. induction fuel as [|n IH]; intros w Hw.
  - cbn [poll_loop fst snd repeat]. rewrite app_nil_r. repeat split; lia.
  - destruct (Hinv _ Hw) as (r & q' & Er & Ep & Hq').
    rewrite (poll_loop_wait n job key j w r q' Ej Er Ep).
    destruct (IH (add_sleep 2 (record_call (queryAsyncJobResult j) q' w)) Hq')
      as (F & Cs & S).
    rewrite F, Cs, S. cbn [add_sleep record_call calls slept repeat].
    repeat split; [|lia]. now rewrite <- app_assoc.
Qed.

(** X7.  A [CloudStackException] of the client never leaves [main] as such: it
    ends the invocation through [fail_json] with
    "CloudStackException: ..." and the client's message.  So it is when
    the lookup of the machine is refused; so it is when the call that
    stops a starting machine is refused, and then [changed] is already
    set. *)
Theorem client_exception_is_reported (p : P) :
  (forall msg, fst (reconcile m fuel p) <> Exc (CloudStackException msg)) /\
  (forall e w1 msg,
     lookup m (init p) = (Exc e, w1) ->
     e = CloudStackException msg ->
     reconcile m fuel p =
     (Exc (FailJson (Format "CloudStackException: %s" (VStr msg))), w1)) /\
  (forall vm w1 i msg p',
     lookup m (init p) = (Ret vm, w1) ->
     truthy vm = true ->
     desired m ["stopped"; "halted"] = true ->
     check_mode m = false ->
     state_of vm = Ret "starting" ->
     subscript vm "id" = Ret i ->
     request (stopVirtualMachine i) (cloud w1) = (Refuse msg, p') ->
     reconcile m fuel p =
     (Exc (FailJson (Format "CloudStackException: %s" (VStr msg))),
      record_call (stopVirtualMachine i) p' (mark_changed w1))).
Proof.
  split; [|split].
  - intros msg. unfold reconcile, main, catch_cloudstack.
    match goal with
    | |- fst (let '(_, _) := ?c in _) <> _ => destruct c as [[r|e|] w']
    end; try discriminate.
    destruct e; discriminate.
  - intros e w1 msg El ->. unfold reconcile, main, catch_cloudstack.
    match goal with
    | |- (let '(_, _) := bind _ (fun _ => bind _ ?K) _ in _) = _ =>
        rewrite <- (bind_assoc (get_project_id m) (fun _ => get_vm m) K
                      (init p))
    end.
    change (bind (get_project_id m) (fun _ => get_vm m)) with (lookup m).
    now rewrite (bind_exc_run _ _ _ _ _ El).
  - intros vm w1 i msg p' El Ht Hd Hc Hs Hi Hr. unfold reconcile.
    destruct (lookup_fresh _ _ _ _ El) as (_ & _ & _ & V1).
    rewrite (main_run _ _ _ _ _ El), (dispatch_stopped _ _ _ Hd),
      (stop_vm_run _ _ w1 vm "starting" V1 Ht Hs), Hc.
    cbn [String.eqb Ascii.eqb Bool.eqb].
    rewrite (bind_ret_run _ _ _ i (mark_changed w1))
      by (unfold lift; now rewrite Hi).
    unfold bind, api. cbn [mark_changed cloud]. rewrite Hr. reflexivity.
Qed.

End Invariants.

(** ** Errors in band, and the creation of a machine *)

Section Failures.

Context {P : Type} `{Provider P}.
Variable m : module.
Variable fuel : nat.

Lemma dict_get_truthy k d v : dict_get k d = Some v -> truthy (VDict d) = true.
Proof. destruct d; [discriminate|reflexivity]. Qed.

Lemma errortext_found d e :
  dict_get "errortext" d = Some e ->
  forall w : world P,
    fail_on_errortext (VDict d) w =
    (Exc (FailJson (Format "Failed: '%s'" e)), w).
Proof.
  intros E w. unfold fail_on_errortext, bind, lift, contains, contains_val,
    dict_has. cbn [subscript]. rewrite E. reflexivity.
Qed.

Lemma refused_in_band {A : Type} c (K : value -> M P A) w d e p' :
  request c (cloud w) = (Reply (VDict d), p') ->
  dict_get "errortext" d = Some e ->
  (r <- api c ;; fail_on_errortext r ;; K r) w =
  (Exc (FailJson (Format "Failed: '%s'" e)), record_call c p' w) /\
  (r <- api c ;; (if truthy r then fail_on_errortext r else ret tt) ;; K r) w =
  (Exc (FailJson (Format "Failed: '%s'" e)), record_call c p' w).
Proof.
  intros Er Ee. unfold bind at 1 3, api. rewrite Er.
  rewrite (dict_get_truthy _ _ _ Ee).
  unfold bind. rewrite (errortext_found d e Ee). auto.
Qed.

(** X8.  The transitions that read the synchronous answer: when the provider
    answers the stop, the start, the destroy or the expunge of a machine
    that was found with an [errortext] in band, the invocation fails with
    "Failed: '...'" and that text; the refused call is the last one made,
    nothing is polled, and [changed] stays set. *)
Theorem inband_error_fails_the_transition (p : P) vm w1 s i d e :
  lookup m (init p) = (Ret vm, w1) ->
  truthy vm = true ->
  state_of vm = Ret s ->
  subscript vm "id" = Ret i ->
  check_mode m = false ->
  dict_get "errortext" d = Some e ->
  let failed c :=
    forall p',
      request c (cloud w1) = (Reply (VDict d), p') ->
      reconcile m fuel p =
      (Exc (FailJson (Format "Failed: '%s'" e)),
       record_call c p' (mark_changed w1)) in
  (desired m ["stopped"; "halted"] = true ->
   String.eqb s "starting" = true ->
   failed (stopVirtualMachine i)) /\
  (desired m ["started"; "running"; "booted"] = true ->
   String.eqb s "stopped" || String.eqb s "stopping" = true ->
   failed (startVirtualMachine i)) /\
  (desired m ["absent"; "destroyed"] = true ->
   existsb (String.eqb s) ["expunging"; "destroying"; "destroyed"] = false ->
   failed (destroyVirtualMachine i false)) /\
  (desired m ["expunged"] = true ->
   existsb (String.eqb s) ["destroying"; "destroyed"] = true ->
   failed (expungeVirtualMachine i)) /\
  (desired m ["expunged"] = true ->
   existsb (String.eqb s) ["expunging"; "destroying"; "destroyed"] = false ->
   failed (destroyVirtualMachine i true)).
Proof.
  intros Hl Ht Hs Hi Hc He. cbv zeta. unfold reconcile.
  destruct (lookup_fresh _ _ _ _ Hl) as (_ & _ & _ & V1).
  rewrite (main_run _ _ _ _ _ Hl).
  assert (Hsub : forall A (K : value -> M P A),
             (i <- lift (subscript vm "id") ;; K i) (mark_changed w1) =
             K i (mark_changed w1)).
  { intros A K. apply bind_ret_run. unfold lift. now rewrite Hi. }
  repeat split; intros Hd Hdec p' Hr.
  - rewrite (dispatch_stopped _ _ _ Hd), (stop_vm_run _ _ w1 vm s V1 Ht Hs),
      Hdec, Hc, Hsub.
    rewrite (proj1 (refused_in_band _ _ (mark_changed w1) d e p' Hr He)).
    reflexivity.
  - rewrite (dispatch_started _ _ _ Hd), (start_vm_run _ _ w1 vm s V1 Ht Hs),
      Hdec, Hc. unfold start_action. rewrite Hsub.
    rewrite (proj1 (refused_in_band _ _ (mark_changed w1) d e p' Hr He)).
    reflexivity.
  - rewrite (dispatch_absent _ _ _ Hd), (remove_vm_run _ _ w1 vm s V1 Ht Hs),
      Hdec, Hc, Hsub.
    rewrite (proj1 (refused_in_band _ _ (mark_changed w1) d e p' Hr He)).
    reflexivity.
  - rewrite (dispatch_expunged _ _ _ Hd),
      (expunge_vm_run _ _ w1 vm s V1 Ht Hs), Hdec, Hc, Hsub.
    rewrite (proj2 (refused_in_band _ _ (mark_changed w1) d e p' Hr He)).
    reflexivity.
  - assert (E1 : existsb (String.eqb s) ["destroying"; "destroyed"] = false).
    { cbn [existsb] in Hdec |- *.
      destruct (String.eqb s "expunging"); [discriminate|exact Hdec]. }
    assert (E2 : existsb (String.eqb s) ["expunging"] = false).
    { cbn [existsb] in Hdec |- *.
      destruct (String.eqb s "expunging"); [discriminate|reflexivity]. }
    rewrite (dispatch_expunged _ _ _ Hd),
      (expunge_vm_run _ _ w1 vm s V1 Ht Hs), E1, E2, Hc, Hsub.
    rewrite (proj2 (refused_in_band _ _ (mark_changed w1) d e p' Hr He)).
    reflexivity.
Qed.

Lemma network_ids_none w :
  truthy (param m "networks") = false ->
  get_network_ids m w = (Ret VNone, w).
Proof. intros E. unfold get_network_ids. now rewrite E. Qed.

Lemma create_args_without_networks w :
  truthy (param m "networks") = false ->
  (forall a w', create_args m w <> (Ret a, w')) /\
  (forall pid w3,
     (get_template_or_iso_id m ;; get_zone_id m ;;
      get_service_offering_id m ;; get_project_id m) w = (Ret pid, w3) ->
     create_args m w = (Exc TypeError, w3)).
Proof.
  intros E. split.
  - intros a w' Ha. unfold create_args in Ha.
    apply bind_ret_inv in Ha as (t & wa & _ & Ha).
    apply bind_ret_inv in Ha as (z & wb & _ & Ha).
    apply bind_ret_inv in Ha as (so & wc & _ & Ha).
    apply bind_ret_inv in Ha as (pid & wd & _ & Ha).
    apply bind_ret_inv in Ha as (nids & we & En & Ha).
    rewrite (network_ids_none _ E) in En. inversion En; subst nids we.
    apply bind_ret_inv in Ha as (nets & wf & Ej & _). discriminate.
  - intros pid w3 Hp. unfold create_args.
    apply bind_ret_inv in Hp as (t & wa & Et & Hp).
    apply bind_ret_inv in Hp as (z & wb & Ez & Hp).
    apply bind_ret_inv in Hp as (so & wc & Eso & Hp).
    rewrite (bind_ret_run _ _ _ _ _ Et), (bind_ret_run _ _ _ _ _ Ez),
      (bind_ret_run _ _ _ _ _ Eso), (bind_ret_run _ _ _ _ _ Hp).
    rewrite (bind_ret_run _ _ _ _ _ (network_ids_none w3 E)). reflexivity.
Qed.

(** X9.  A machine cannot be created without [networks]: [get_network_ids]
    returns [None] when no network is given, and [create_vm] joins what
    it returns.  Whatever the provider, an invocation that has to create
    the machine makes no mutating call; it never ends with a report when
    the machine is not found, and once the template, the zone, the
    offering and the project are resolved it ends with [TypeError]. *)
Theorem no_machine_is_created_without_networks (p : P) vm w1 :
  truthy (param m "networks") = false ->
  desired m ["present"; "created"] = true ->
  lookup m (init p) = (Ret vm, w1) ->
  truthy vm = false ->
  let out := reconcile m fuel p in
  mutations (snd out) = [] /\
  (forall vm2 w2,
     get_vm m w1 = (Ret vm2, w2) ->
     truthy vm2 = false ->
     (forall r, fst out <> Ret r) /\
     (forall pid w3,
        (get_template_or_iso_id m ;; get_zone_id m ;;
         get_service_offering_id m ;; get_project_id m) (mark_changed w2) =
        (Ret pid, w3) ->
        out = (Exc TypeError, w3))).
Proof.
  intros Hn Hd Hl Ht. cbv zeta. unfold reconcile.
  destruct (lookup_fresh _ _ _ _ Hl) as (M1 & _ & _ & _).
  rewrite (main_run _ _ _ _ _ Hl), (dispatch_present _ _ _ Hd), Ht.
  cbn [negb fst snd]. rewrite create_vm_anatomy.
  pose proof (get_vm_mutations m w1) as M2.
  destruct (get_vm m w1) as [[vm2 | e | ] w2] eqn:Eg; cbn [snd] in M2.
  - destruct (truthy vm2) eqn:Et2.
    + cbn [snd]. split; [congruence|]. intros ? ? E. inversion E; subst.
      congruence.
    + destruct (create_args_without_networks (mark_changed w2) Hn) as [Hno Hty].
      pose proof (resolved_create_args m (mark_changed w2)) as [L _].
      apply looked_up_mutations in L.
      change (mutations (mark_changed w2)) with (mutations w2) in L.
      destruct (create_args m (mark_changed w2)) as [[a | e | ] w3] eqn:Ea;
        cbn [snd] in L.
      * now destruct (Hno a w3).
      * cbn [fst snd]. split; [congruence|].
        intros vm2' w2' E _. inversion E; subst vm2' w2'. split.
        -- intros r. destruct e; discriminate.
        -- intros pid w4 Hp. specialize (Hty pid w4 Hp).
           inversion Hty; subst. reflexivity.
      * cbn [fst snd]. split; [congruence|].
        intros vm2' w2' E _. inversion E; subst vm2' w2'. split.
        -- discriminate.
        -- intros pid w4 Hp. specialize (Hty pid w4 Hp). discriminate.
  - cbn [snd]. split; [congruence|]. intros ? ? E. discriminate.
  - cbn [snd]. split; [congruence|]. intros ? ? E. discriminate.
Qed.

End Failures.

(** ** The resolvers *)

Section Resolvers.

Context {P : Type} `{Provider P}.
Variable m : module.

Lemma find_by_first sel fs l1 x l2 :
  Forall (miss sel fs) l1 -> hit sel fs x ->
  find_by sel fs (l1 ++ x :: l2) = Ret (Some x).
Proof.
  intros Hl1 (vs & Ev & Hv). induction Hl1 as [|y l1 (vy & Ey & Hy) _ IH].
  - cbn [app find_by]. rewrite Ev. cbn [rbind]. now rewrite Hv.
  - cbn [app find_by]. rewrite Ey. cbn [rbind]. now rewrite Hy.
Qed.

Lemma find_by_none sel fs l :
  Forall (miss sel fs) l -> find_by sel fs l = Ret None.
Proof.
  induction 1 as [|y l (vy & Ey & Hy) _ IH]; [reflexivity|].
  cbn [find_by]. rewrite Ey. cbn [rbind]. now rewrite Hy.
Qed.

Lemma find_by_broken sel fs l1 x l2 e :
  Forall (miss sel fs) l1 -> fields_of x fs = Exc e ->
  find_by sel fs (l1 ++ x :: l2) = Exc e.
Proof.
  intros Hl1 Ex. induction Hl1 as [|y l1 (vy & Ey & Hy) _ IH].
  - cbn [app find_by]. now rewrite Ex.
  - cbn [app find_by]. rewrite Ey. cbn [rbind]. now rewrite Hy.
Qed.

Lemma subscript_truthy r k v : subscript r k = Ret v -> truthy r = true.
Proof.
  destruct r as [| | | |l|d]; try discriminate. cbn [subscript].
  destruct (dict_get k d) eqn:E; [|discriminate]. intros _.
  exact (dict_get_truthy _ _ _ E).
Qed.

(** The loop over a listing, as the resolvers write it. *)
Lemma listing_search (r : value) key sel fs l (w : world P) :
  subscript r key = Ret (VList l) ->
  (if truthy r then
     ps <- lift (subscript r key) ;;
     l <- lift (iter ps) ;;
     lift (find_by sel fs l)
   else ret None) w = (find_by sel fs l, w).
Proof.
  intros E. rewrite (subscript_truthy _ _ _ E). unfold bind, lift.
  rewrite E. reflexivity.
Qed.

(** X10.  [get_project_id]: the identifier is cached on [self]; without a
    [project] nothing is asked and [None] is returned; otherwise the
    projects are listed once and the identifier of the first one whose
    name, display text or identifier equals the selector is returned and
    cached, so that the next resolution asks nothing; when none matches,
    or the answer is empty, the invocation fails with
    "project '...' not found". *)
Theorem project_resolution (w : world P) :
  (truthy (self_project_id w) = true ->
   get_project_id m w = (Ret (self_project_id w), w)) /\
  (truthy (self_project_id w) = false ->
   truthy (param m "project") = false ->
   get_project_id m w = (Ret VNone, w)) /\
  (truthy (self_project_id w) = false ->
   truthy (param m "project") = true ->
   forall r p',
     request listProjects (cloud w) = (Reply r, p') ->
     let w' := record_call listProjects p' w in
     let fs := ["name"; "displaytext"; "id"] in
     (forall l1 x l2 i,
        subscript r "project" = Ret (VList (l1 ++ x :: l2)) ->
        Forall (miss (param m "project") fs) l1 ->
        hit (param m "project") fs x ->
        subscript x "id" = Ret i ->
        get_project_id m w = (Ret i, store_project_id i w') /\
        (truthy i = true ->
         get_project_id m (store_project_id i w') =
         (Ret i, store_project_id i w'))) /\
     ((truthy r = false \/
       exists l, subscript r "project" = Ret (VList l) /\
                 Forall (miss (param m "project") fs) l) ->
      get_project_id m w =
      (Exc (FailJson (Format "project '%s' not found" (param m "project"))),
       w'))).
Proof.
  assert (Cached : forall w0 : world P,
             truthy (self_project_id w0) = true ->
             get_project_id m w0 = (Ret (self_project_id w0), w0)).
  { intros w0 E. unfold get_project_id, bind, read. now rewrite E. }
  split; [apply Cached|]. split.
  - intros Ec Ep. unfold get_project_id, bind, read. now rewrite Ec, Ep.
  - intros Ec Ep r p' Er. cbv zeta. split.
    + intros l1 x l2 i El Hm Hx Hi. split.
      * unfold get_project_id. unfold bind at 1, read at 1. rewrite Ec, Ep.
        cbn [negb]. unfold bind at 1, api at 1. rewrite Er.
        rewrite (bind_ret_run _ _ _ (Some x) (record_call listProjects p' w))
          by (rewrite (listing_search _ _ _ _ _ _ El);
              now rewrite (find_by_first _ _ _ _ _ Hm Hx)).
        unfold bind, lift, set_project_id, read. now rewrite Hi.
      * intros Ti. now apply (Cached (store_project_id i _)).
    + intros Hnone. unfold get_project_id. unfold bind at 1, read at 1.
      rewrite Ec, Ep. cbn [negb]. unfold bind at 1, api at 1. rewrite Er.
      rewrite (bind_ret_run _ _ _ None (record_call listProjects p' w)).
      * reflexivity.
      * destruct Hnone as [Tr|(l & El & Hm)].
        -- now rewrite Tr.
        -- rewrite (listing_search _ _ _ _ _ _ El).
           now rewrite (find_by_none _ _ _ Hm).
Qed.

(** X11.  [get_zone_id]: the identifier is cached on [self]; without a [zone]
    the first zone listed is taken; with one, the first zone whose name
    or identifier equals it, and "zone '...' not found" when none does.
    Without a [zone] and with an answer that lists no zone, the lookup of
    the first zone raises: [KeyError] when the answer has no [zone] at
    all, [IndexError] when the list is empty. *)
Theorem zone_resolution (w : world P) :
  (truthy (self_zone_id w) = true ->
   get_zone_id m w = (Ret (self_zone_id w), w)) /\
  (truthy (self_zone_id w) = false ->
   forall r p',
     request listZones (cloud w) = (Reply r, p') ->
     let w' := record_call listZones p' w in
     let fs := ["name"; "id"] in
     (truthy (param m "zone") = false ->
      (forall z l i,
         subscript r "zone" = Ret (VList (z :: l)) ->
         subscript z "id" = Ret i ->
         get_zone_id m w = (Ret i, store_zone_id i w')) /\
      (r = VDict [] -> get_zone_id m w = (Exc (KeyError "zone"), w')) /\
      (subscript r "zone" = Ret (VList []) ->
       get_zone_id m w = (Exc IndexError, w'))) /\
     (truthy (param m "zone") = true ->
      (forall l1 x l2 i,
         subscript r "zone" = Ret (VList (l1 ++ x :: l2)) ->
         Forall (miss (param m "zone") fs) l1 ->
         hit (param m "zone") fs x ->
         subscript x "id" = Ret i ->
         get_zone_id m w = (Ret i, store_zone_id i w')) /\
      ((truthy r = false \/
        exists l, subscript r "zone" = Ret (VList l) /\
                  Forall (miss (param m "zone") fs) l) ->
       get_zone_id m w =
       (Exc (FailJson (Format "zone '%s' not found" (param m "zone"))),
        w')))).
Proof.
  split.
  - intros E. unfold get_zone_id, bind, read. now rewrite E.
  - intros Ec r p' Er. cbv zeta.
    assert (Start :
               get_zone_id m w =
               (fun w0 =>
                  (if negb (truthy (param m "zone")) then
                     zs <- lift (subscript r "zone") ;;
                     z <- lift (first zs) ;;
                     i <- lift (subscript z "id") ;;
                     set_zone_id i ;; read self_zone_id
                   else
                     found <- (if truthy r then
                                 zs <- lift (subscript r "zone") ;;
                                 l <- lift (iter zs) ;;
                                 lift (find_by (param m "zone")
                                         ["name"; "id"] l)
                               else ret None) ;;
                     match found with
                     | Some z =>
                         i <- lift (subscript z "id") ;;
                         set_zone_id i ;; read self_zone_id
                     | None =>
                         fail_json (Format "zone '%s' not found"
                                           (param m "zone"))
                     end) w0) (record_call listZones p' w)).
    { unfold get_zone_id. unfold bind at 1, read at 1. rewrite Ec.
      unfold bind at 1, api at 1. rewrite Er. reflexivity. }
    rewrite Start. clear Start. split.
    + intros Ez. rewrite Ez. cbn [negb]. repeat split.
      * intros z l i El Ei. unfold bind, lift, set_zone_id, read.
        rewrite El. cbn [first]. now rewrite Ei.
      * intros ->. reflexivity.
      * intros El. unfold bind, lift. now rewrite El.
    + intros Ez. rewrite Ez. cbn [negb]. split.
      * intros l1 x l2 i El Hm Hx Hi.
        rewrite (bind_ret_run _ _ _ (Some x) (record_call listZones p' w))
          by (rewrite (listing_search _ _ _ _ _ _ El);
              now rewrite (find_by_first _ _ _ _ _ Hm Hx)).
        unfold bind, lift, set_zone_id, read. now rewrite Hi.
      * intros Hnone.
        rewrite (bind_ret_run _ _ _ None (record_call listZones p' w));
          [reflexivity|].
        destruct Hnone as [Tr|(l & El & Hm)].
        -- now rewrite Tr.
        -- rewrite (listing_search _ _ _ _ _ _ El).
           now rewrite (find_by_none _ _ _ Hm).
Qed.

(** The resolvers that list, search and fail, all in one shape. *)
Lemma by_selector c key sel fs msg (w : world P) r p' :
  request c (cloud w) = (Reply r, p') ->
  let run :=
    (x <- api c ;;
     found <- (if truthy x then
                 ps <- lift (subscript x key) ;;
                 l <- lift (iter ps) ;;
                 lift (find_by sel fs l)
               else ret None) ;;
     match found with
     | Some t => lift (subscript t "id")
     | None => fail_json (Format msg sel)
     end) w in
  (forall l1 x l2 i,
     subscript r key = Ret (VList (l1 ++ x :: l2)) ->
     Forall (miss sel fs) l1 -> hit sel fs x ->
     subscript x "id" = Ret i ->
     run = (Ret i, record_call c p' w)) /\
  ((truthy r = false \/
    exists l, subscript r key = Ret (VList l) /\ Forall (miss sel fs) l) ->
   run = (Exc (FailJson (Format msg sel)), record_call c p' w)).
Proof.
  intros Er. cbv zeta.
  assert (Ea : api c w = (Ret r, record_call c p' w))
    by (unfold api; now rewrite Er).
  rewrite (bind_ret_run _ _ _ _ _ Ea). split.
  - intros l1 x l2 i El Hm Hx Hi.
    rewrite (bind_ret_run _ _ _ (Some x) (record_call c p' w))
      by (rewrite (listing_search _ _ _ _ _ _ El);
          now rewrite (find_by_first _ _ _ _ _ Hm Hx)).
    unfold lift. now rewrite Hi.
  - intros Hnone.
    rewrite (bind_ret_run _ _ _ None (record_call c p' w)); [reflexivity|].
    destruct Hnone as [Tr|(l & El & Hm)].
    + now rewrite Tr.
    + rewrite (listing_search _ _ _ _ _ _ El).
      now rewrite (find_by_none _ _ _ Hm).
Qed.

(** X12.  [get_service_offering_id] with a [service_offering]: the offerings
    are listed and the identifier of the first one whose name or
    identifier equals the selector is returned; when none matches the
    invocation fails with "Service offering '...' not found".  An empty
    answer fails in the same way, with or without a selector. *)
Theorem offering_resolution (w : world P) r p' :
  request listServiceOfferings (cloud w) = (Reply r, p') ->
  let w' := record_call listServiceOfferings p' w in
  let sel := param m "service_offering" in
  let not_found :=
    (Exc (FailJson (Format "Service offering '%s' not found" sel)), w') in
  (truthy r = false -> get_service_offering_id m w = not_found) /\
  (truthy sel = true ->
   (forall l1 x l2 i,
      subscript r "serviceoffering" = Ret (VList (l1 ++ x :: l2)) ->
      Forall (miss sel ["name"; "id"]) l1 ->
      hit sel ["name"; "id"] x ->
      subscript x "id" = Ret i ->
      get_service_offering_id m w = (Ret i, w')) /\
   (forall l,
      subscript r "serviceoffering" = Ret (VList l) ->
      Forall (miss sel ["name"; "id"]) l ->
      get_service_offering_id m w = not_found)).
Proof.
  intros Er. cbv zeta. unfold get_service_offering_id.
  assert (Ea : api listServiceOfferings w =
               (Ret r, record_call listServiceOfferings p' w))
    by (unfold api; now rewrite Er).
  rewrite (bind_ret_run _ _ _ _ _ Ea). split; [|intros Es; split].
  - intros Tr. now rewrite Tr.
  - intros l1 x l2 i El Hm Hx Hi.
    rewrite (subscript_truthy _ _ _ El), Es. cbn [negb].
    unfold bind, lift. rewrite El. cbn [iter].
    rewrite (find_by_first _ _ _ _ _ Hm Hx). now rewrite Hi.
  - intros l El Hm.
    rewrite (subscript_truthy _ _ _ El), Es. cbn [negb].
    unfold bind, lift. rewrite El. cbn [iter].
    now rewrite (find_by_none _ _ _ Hm).
Qed.

(** X13.  [get_template_or_iso_id] with one selector.  With a [template] alone
    the executable templates are listed, with an [iso] alone the ISOs;
    the identifier of the first entry whose display text, name or
    identifier equals the selector is returned, and when none matches,
    or the answer is empty, the invocation fails with
    "Template '...' not found" or "ISO '...' not found". *)
Theorem template_or_iso_resolution (w : world P) r p' :
  let fs := ["displaytext"; "name"; "id"] in
  (truthy (param m "template") = true ->
   truthy (param m "iso") = false ->
   request (listTemplates "executable") (cloud w) = (Reply r, p') ->
   let w' := record_call (listTemplates "executable") p' w in
   (forall l1 x l2 i,
      subscript r "template" = Ret (VList (l1 ++ x :: l2)) ->
      Forall (miss (param m "template") fs) l1 ->
      hit (param m "template") fs x ->
      subscript x "id" = Ret i ->
      get_template_or_iso_id m w = (Ret i, w')) /\
   ((truthy r = false \/
     exists l, subscript r "template" = Ret (VList l) /\
               Forall (miss (param m "template") fs) l) ->
    get_template_or_iso_id m w =
    (Exc (FailJson (Format "Template '%s' not found" (param m "template"))),
     w'))) /\
  (truthy (param m "template") = false ->
   truthy (param m "iso") = true ->
   request listIsos (cloud w) = (Reply r, p') ->
   let w' := record_call listIsos p' w in
   (forall l1 x l2 i,
      subscript r "iso" = Ret (VList (l1 ++ x :: l2)) ->
      Forall (miss (param m "iso") fs) l1 ->
      hit (param m "iso") fs x ->
      subscript x "id" = Ret i ->
      get_template_or_iso_id m w = (Ret i, w')) /\
   ((truthy r = false \/
     exists l, subscript r "iso" = Ret (VList l) /\
               Forall (miss (param m "iso") fs) l) ->
    get_template_or_iso_id m w =
    (Exc (FailJson (Format "ISO '%s' not found" (param m "iso"))), w'))).
Proof.
  cbv zeta. split; intros Et Ei Er; unfold get_template_or_iso_id;
    rewrite Et, Ei; cbn [negb andb];
    exact (by_selector _ _ _ _ _ w r p' Er).
Qed.

(** X14.  [get_disk_offering_id]: without a [disk_offering] nothing is asked
    and [None] is returned; with one, the identifier of the first
    offering whose name or identifier equals it, and
    "Disk offering '...' not found" when none does or the answer is
    empty. *)
Theorem disk_offering_resolution (w : world P) :
  (truthy (param m "disk_offering") = false ->
   get_disk_offering_id m w = (Ret VNone, w)) /\
  (truthy (param m "disk_offering") = true ->
   forall r p',
     request listDiskOfferings (cloud w) = (Reply r, p') ->
     let w' := record_call listDiskOfferings p' w in
     let sel := param m "disk_offering" in
     (forall l1 x l2 i,
        subscript r "diskoffering" = Ret (VList (l1 ++ x :: l2)) ->
        Forall (miss sel ["name"; "id"]) l1 ->
        hit sel ["name"; "id"] x ->
        subscript x "id" = Ret i ->
        get_disk_offering_id m w = (Ret i, w')) /\
     ((truthy r = false \/
       exists l, subscript r "diskoffering" = Ret (VList l) /\
                 Forall (miss sel ["name"; "id"]) l) ->
      get_disk_offering_id m w =
      (Exc (FailJson (Format "Disk offering '%s' not found" sel)), w'))).
Proof.
  split; intros Ed.
  - unfold get_disk_offering_id. now rewrite Ed.
  - intros r p' Er. cbv zeta. unfold get_disk_offering_id. rewrite Ed.
    cbn [negb]. exact (by_selector _ _ _ _ _ w r p' Er).
Qed.

Lemma find_hypervisor_first sel l1 h l2 n :
  Forall (fun y => exists ny, named ny y /\
                              lower_string ny <> lower_string sel) l1 ->
  named n h -> lower_string n = lower_string sel ->
  find_hypervisor (VStr sel) (l1 ++ h :: l2) = Ret (Some h).
Proof.
  intros Hl1 Hn En. induction Hl1 as [|y l1 (ny & Ey & Hy) _ IH].
  - cbn [app find_hypervisor lower rbind]. rewrite Hn.
    cbn [rbind lower]. rewrite En, String.eqb_refl. reflexivity.
  - cbn [app find_hypervisor lower rbind]. rewrite Ey. cbn [rbind lower].
    destruct (String.eqb (lower_string sel) (lower_string ny)) eqn:E;
      [|exact IH].
    apply String.eqb_eq in E. now destruct Hy.
Qed.

Lemma find_hypervisor_none sel l :
  Forall (fun y => exists ny, named ny y /\
                              lower_string ny <> lower_string sel) l ->
  find_hypervisor (VStr sel) l = Ret None.
Proof.
  induction 1 as [|y l (ny & Ey & Hy) _ IH]; [reflexivity|].
  cbn [find_hypervisor lower rbind]. rewrite Ey. cbn [rbind lower].
  destruct (String.eqb (lower_string sel) (lower_string ny)) eqn:E;
    [|exact IH].
  apply String.eqb_eq in E. now destruct Hy.
Qed.

(** X15.  [get_hypervisor]: the name is cached on [self]; without a
    [hypervisor] the first one listed is taken; with one, the listing is
    searched without regard to case and the name is returned as the
    provider spells it, and "Hypervisor '...' not found" when none
    matches.  The answer is subscripted without a test: an empty answer
    raises [KeyError]. *)
Theorem hypervisor_resolution (w : world P) :
  (truthy (self_hypervisor w) = true ->
   get_hypervisor m w = (Ret (self_hypervisor w), w)) /\
  (truthy (self_hypervisor w) = false ->
   forall r p',
     request listHypervisors (cloud w) = (Reply r, p') ->
     let w' := record_call listHypervisors p' w in
     (r = VDict [] -> get_hypervisor m w = (Exc (KeyError "hypervisor"), w'))
     /\
     (truthy (param m "hypervisor") = false ->
      forall h l n,
        subscript r "hypervisor" = Ret (VList (h :: l)) ->
        subscript h "name" = Ret n ->
        get_hypervisor m w = (Ret n, store_hypervisor n w')) /\
     (forall sel,
        param m "hypervisor" = VStr sel -> sel <> "" ->
        let other y :=
          exists ny, named ny y /\ lower_string ny <> lower_string sel in
        (forall l1 h l2 n,
           subscript r "hypervisor" = Ret (VList (l1 ++ h :: l2)) ->
           Forall other l1 ->
           named n h -> lower_string n = lower_string sel ->
           get_hypervisor m w = (Ret (VStr n), store_hypervisor (VStr n) w'))
        /\
        (forall l,
           subscript r "hypervisor" = Ret (VList l) ->
           Forall other l ->
           get_hypervisor m w =
           (Exc (FailJson (Format "Hypervisor '%s' not found" (VStr sel))),
            w')))).
Proof.
  split.
  - intros E. unfold get_hypervisor, bind, read. now rewrite E.
  - intros Ec r p' Er. cbv zeta.
    assert (Ea : api listHypervisors w =
                 (Ret r, record_call listHypervisors p' w))
      by (unfold api; now rewrite Er).
    assert (Start :
      get_hypervisor m w =
      (if negb (truthy (param m "hypervisor")) then
         hs <- lift (subscript r "hypervisor") ;;
         h <- lift (first hs) ;;
         n <- lift (subscript h "name") ;;
         set_hypervisor n ;; read self_hypervisor
       else
         hs <- lift (subscript r "hypervisor") ;;
         l <- lift (iter hs) ;;
         found <- lift (find_hypervisor (param m "hypervisor") l) ;;
         match found with
         | Some h =>
             n <- lift (subscript h "name") ;;
             set_hypervisor n ;; read self_hypervisor
         | None =>
             fail_json (Format "Hypervisor '%s' not found"
                               (param m "hypervisor"))
         end) (record_call listHypervisors p' w)).
    { unfold get_hypervisor. unfold bind at 1, read at 1. rewrite Ec.
      now rewrite (bind_ret_run _ _ _ _ _ Ea). }
    rewrite Start. clear Start. split; [|split].
    + intros ->. destruct (negb (truthy (param m "hypervisor"))); reflexivity.
    + intros Eh h l n El En. rewrite Eh. cbn [negb].
      unfold bind, lift, set_hypervisor, read. rewrite El. cbn [first].
      now rewrite En.
    + intros sel Es Hne.
      assert (Ts : truthy (VStr sel) = true).
      { cbn [truthy]. destruct (String.eqb sel "") eqn:E; [|reflexivity].
        apply String.eqb_eq in E. contradiction. }
      rewrite Es, Ts. cbn [negb]. split.
      * intros l1 h l2 n El Hm Hn En. unfold bind, lift. rewrite El.
        cbn [iter]. rewrite (find_hypervisor_first _ _ _ _ _ Hm Hn En).
        unfold set_hypervisor, read. unfold named in Hn. now rewrite Hn.
      * intros l El Hm. unfold bind, lift. rewrite El. cbn [iter].
        now rewrite (find_hypervisor_none _ _ Hm).
Qed.

Lemma collect_networks_selected ns l nets :
  Forall2 is_network l nets ->
  collect_networks (VList ns) l =
  Ret (map snd (filter (selected ns) nets)).
Proof.
  induction 1 as [|x [n i] l nets [En Ei] _ IH]; [reflexivity|].
  cbn [fst snd] in En, Ei. cbn [collect_networks]. rewrite En.
  cbn [rbind contains_val filter]. unfold selected at 1. cbn [fst snd].
  destruct (in_list n ns) eqn:E1; cbn [orb rbind].
  - rewrite Ei. cbn [rbind]. rewrite IH. reflexivity.
  - rewrite Ei. cbn [rbind contains_val].
    destruct (in_list i ns) eqn:E2; cbn [rbind].
    + rewrite IH. reflexivity.
    + rewrite IH. reflexivity.
Qed.

(** X16.  [get_network_ids]: without [networks] nothing is asked and [None] is
    returned.  With a list of names, the zone and the project are
    resolved, the networks of that zone and project are listed, and the
    identifiers of the networks whose name or identifier is among the
    names are returned, in the order of the listing; a name that matches
    no network is passed over without an error, and an empty answer
    gives the empty list. *)
Theorem network_resolution (w : world P) :
  (truthy (param m "networks") = false ->
   get_network_ids m w = (Ret VNone, w)) /\
  (forall ns zoneid wz projectid wp r p',
     param m "networks" = VList ns -> ns <> [] ->
     get_zone_id m w = (Ret zoneid, wz) ->
     get_project_id m wz = (Ret projectid, wp) ->
     request (listNetworks zoneid projectid) (cloud wp) = (Reply r, p') ->
     let w' := record_call (listNetworks zoneid projectid) p' wp in
     (forall l nets,
        subscript r "network" = Ret (VList l) ->
        Forall2 is_network l nets ->
        get_network_ids m w =
        (Ret (VList (map snd (filter (selected ns) nets))), w')) /\
     (truthy r = false -> get_network_ids m w = (Ret (VList []), w'))).
Proof.
  split.
  - intros E. unfold get_network_ids. now rewrite E.
  - intros ns z wz pid wp r p' En Hne Ez Ep Er. cbv zeta.
    assert (Tn : truthy (VList ns) = true)
      by (destruct ns; [congruence|reflexivity]).
    assert (Ea : api (listNetworks z pid) wp =
                 (Ret r, record_call (listNetworks z pid) p' wp))
      by (unfold api; now rewrite Er).
    unfold get_network_ids. rewrite En, Tn. cbn [negb].
    rewrite (bind_ret_run _ _ _ _ _ Ez), (bind_ret_run _ _ _ _ _ Ep),
      (bind_ret_run _ _ _ _ _ Ea).
    split.
    + intros l nets El Hl. rewrite (subscript_truthy _ _ _ El).
      unfold bind, lift, ret. rewrite El. cbn [iter].
      now rewrite (collect_networks_selected ns l nets Hl).
    + intros Tr. now rewrite Tr.
Qed.

(** X17.  [get_vm]: a machine that was found is kept on [self] and returned
    without a call.  Otherwise the machines of the project are listed
    once and the first one whose name, display name or identifier equals
    the module's [name] is kept and returned; when none matches, what is
    returned is the empty [self.vm].  Every machine listed before the
    match must carry the three fields: a machine without one of them
    ends the lookup with [KeyError]. *)
Theorem vm_lookup (w : world P) :
  let fs := ["name"; "displayname"; "id"] in
  (truthy (self_vm w) = true -> get_vm m w = (Ret (self_vm w), w)) /\
  (truthy (self_vm w) = false ->
   forall projectid wp r p',
     get_project_id m w = (Ret projectid, wp) ->
     request (listVirtualMachines projectid) (cloud wp) = (Reply r, p') ->
     let w' := record_call (listVirtualMachines projectid) p' wp in
     (forall l1 x l2,
        subscript r "virtualmachine" = Ret (VList (l1 ++ x :: l2)) ->
        Forall (miss (param m "name") fs) l1 ->
        hit (param m "name") fs x ->
        get_vm m w = (Ret x, store_vm x w')) /\
     ((truthy r = false \/
       exists l, subscript r "virtualmachine" = Ret (VList l) /\
                 Forall (miss (param m "name") fs) l) ->
      get_vm m w = (Ret (self_vm w), w')) /\
     (forall l1 x l2 e,
        subscript r "virtualmachine" = Ret (VList (l1 ++ x :: l2)) ->
        Forall (miss (param m "name") fs) l1 ->
        fields_of x fs = Exc e ->
        get_vm m w = (Exc e, w'))).
Proof.
  cbv zeta. split.
  - apply get_vm_cached.
  - intros Ec pid wp r p' Ep Er.
    assert (Ea : api (listVirtualMachines pid) wp =
                 (Ret r, record_call (listVirtualMachines pid) p' wp))
      by (unfold api; now rewrite Er).
    assert (Vp : self_vm wp = self_vm w).
    { pose proof (resolved_get_project_id m w) as [_ V].
      now rewrite Ep in V. }
    assert (Start : get_vm m w =
              ((if truthy r then
                  vs <- lift (subscript r "virtualmachine") ;;
                  l <- lift (iter vs) ;;
                  found <- lift (find_by (param m "name")
                                   ["name"; "displayname"; "id"] l) ;;
                  match found with
                  | Some v => set_vm v
                  | None => ret tt
                  end
                else ret tt) ;; read self_vm)
                (record_call (listVirtualMachines pid) p' wp)).
    { unfold get_vm. unfold bind at 1, read at 1. rewrite Ec. cbn [negb].
      rewrite bind_assoc, (bind_ret_run _ _ _ _ _ Ep).
      rewrite bind_assoc, (bind_ret_run _ _ _ _ _ Ea). reflexivity. }
    rewrite Start.
    split; [|split].
    + intros l1 x l2 El Hm Hx. rewrite (subscript_truthy _ _ _ El).
      unfold bind, lift, set_vm, read. rewrite El. cbn [iter].
      now rewrite (find_by_first _ _ _ _ _ Hm Hx).
    + intros [Tr|(l & El & Hm)].
      * rewrite Tr. unfold bind, ret, read. cbn [record_call self_vm].
        now rewrite Vp.
      * rewrite (subscript_truthy _ _ _ El).
        unfold bind, lift, ret, read. rewrite El. cbn [iter].
        rewrite (find_by_none _ _ _ Hm). cbn [record_call self_vm].
        now rewrite Vp.
    + intros l1 x l2 e El Hm Hx. rewrite (subscript_truthy _ _ _ El).
      unfold bind, lift. rewrite El. cbn [iter].
      now rewrite (find_by_broken _ _ _ _ _ _ Hm Hx).
Qed.

End Resolvers.

(** ** The report of [main] *)

Section Report.

Variable m : module.

Lemma dict_get_set_same k v d : dict_get k (dict_set k v d) = Some v.
Proof.
  induction d as [|[k0 v0] d IH]; cbn [dict_set dict_get].
  - now rewrite String.eqb_refl.
  - destruct (String.eqb k k0) eqn:E; cbn [dict_get].
    + now rewrite String.eqb_refl.
    + now rewrite E.
Qed.

Lemma dict_get_copy x k (o : option value) r :
  dict_get x (match o with Some v => dict_set k v r | None => r end) =
  if String.eqb x k
  then match o with Some v => Some v | None => dict_get x r end
  else dict_get x r.
Proof.
  destruct (String.eqb x k) eqn:E.
  - apply String.eqb_eq in E. subst x. destruct o; [|reflexivity].
    apply dict_get_set_same.
  - destruct o; [|reflexivity]. now apply dict_get_set_other.
Qed.

Lemma copy_key_dict d k k' r0 :
  copy_key (VDict d) k k' r0 =
  Ret (match dict_get k d with Some v => dict_set k' v r0 | None => r0 end).
Proof.
  unfold copy_key, contains, contains_val, dict_has, subscript.
  destruct (dict_get k d); reflexivity.
Qed.

Lemma copied_field d r0 k k' :
  In (k, k') result_names ->
  dict_get k' (copied d r0) =
  match dict_get k d with Some v => Some v | None => dict_get k' r0 end.
Proof.
  intros Hin. unfold copied. cbn [fold_left result_names fst snd].
  cbn [In result_names] in Hin.
  repeat (destruct Hin as [E|Hin];
          [inversion E; subst k k'; rewrite !dict_get_copy; cbn;
           destruct (dict_get _ d); reflexivity|]).
  destruct Hin.
Qed.

Lemma copied_other d r0 x :
  forallb (fun kk => negb (String.eqb x (snd kk))) result_names = true ->
  dict_get x (copied d r0) = dict_get x r0.
Proof.
  unfold copied. generalize result_names as L. intros L. revert r0.
  induction L as [|[k k'] L IH]; intros r0 HL; [reflexivity|].
  cbn [forallb snd] in HL. apply andb_prop in HL as [Hk HL].
  cbn [fold_left fst snd]. rewrite (IH _ HL), dict_get_copy.
  now destruct (String.eqb x k').
Qed.

Lemma default_ip_other l r0 r x :
  default_ip l r0 = Ret r ->
  String.eqb x "default_ip" = false ->
  dict_get x r = dict_get x r0.
Proof.
  intros E Hx. revert r0 E.
  induction l as [|nic l IH]; intros r0; cbn [default_ip].
  - intros E. now inversion E.
  - intros E. apply rbind_ret_inv in E as (d & _ & E).
    destruct (truthy d); [|now apply IH].
    apply rbind_ret_inv in E as (ip & _ & E). rewrite (IH _ E).
    now apply dict_get_set_other.
Qed.

Lemma default_ip_unflagged l r0 r :
  default_ip l r0 = Ret r ->
  Forall unflagged l ->
  r = r0.
Proof.
  intros E Hl. revert r0 E.
  induction Hl as [|nic l Hn _ IH]; intros r0; cbn [default_ip].
  - intros E. now inversion E.
  - intros E. apply rbind_ret_inv in E as (d & Ed & E).
    rewrite (Hn _ Ed) in E. now apply IH.
Qed.

Lemma default_ip_last l1 nic l2 f ip r0 r :
  default_ip (l1 ++ nic :: l2) r0 = Ret r ->
  subscript nic "isdefault" = Ret f ->
  truthy f = true ->
  subscript nic "ipaddress" = Ret ip ->
  Forall unflagged l2 ->
  dict_get "default_ip" r = Some ip.
Proof.
  intros E Ef Tf Ei Hl. revert r0 E.
  induction l1 as [|n l1 IH]; intros r0; cbn [app default_ip].
  - rewrite Ef. cbn [rbind]. rewrite Tf, Ei. cbn [rbind]. intros E.
    rewrite (default_ip_unflagged _ _ _ E Hl). apply dict_get_set_same.
  - intros E. apply rbind_ret_inv in E as (d & _ & E).
    destruct (truthy d); [|now apply (IH _ E)].
    apply rbind_ret_inv in E as (ip' & _ & E). now apply (IH _ E).
Qed.

Lemma collect_tags_keyless l t0 t k :
  collect_tags l t0 = Ret t ->
  Forall (keyless k) l ->
  dict_get k t = dict_get k t0.
Proof.
  intros E Hl. revert t0 E.
  induction Hl as [|tag l Hk _ IH]; intros t0; cbn [collect_tags].
  - intros E. now inversion E.
  - intros E. apply rbind_ret_inv in E as (k0 & Ek & E).
    apply rbind_ret_inv in E as (v & _ & E).
    destruct k0 as [| | |key| |]; try discriminate.
    rewrite (IH _ E). apply dict_get_set_other.
    destruct (String.eqb k key) eqn:Eq; [|reflexivity].
    apply String.eqb_eq in Eq. subst key. now destruct (Hk Ek).
Qed.

Lemma collect_tags_last l1 tag l2 k v t0 t :
  collect_tags (l1 ++ tag :: l2) t0 = Ret t ->
  subscript tag "key" = Ret (VStr k) ->
  subscript tag "value" = Ret v ->
  Forall (keyless k) l2 ->
  dict_get k t = Some v.
Proof.
  intros E Ek Ev Hl. revert t0 E.
  induction l1 as [|x l1 IH]; intros t0; cbn [app collect_tags].
  - rewrite Ek, Ev. cbn [rbind]. intros E.
    rewrite (collect_tags_keyless _ _ _ _ E Hl). apply dict_get_set_same.
  - intros E. apply rbind_ret_inv in E as (k0 & _ & E).
    apply rbind_ret_inv in E as (v0 & _ & E).
    destruct k0 as [| | |key| |]; try discriminate. now apply (IH _ E).
Qed.

(** The projection of a machine that is a dict and is not in state
    [Error]: the copies, then the tags, then the interfaces. *)
Lemma project_result_dict d r0 :
  d <> [] ->
  (forall s, dict_get "state" d = Some s -> py_eq s (VStr "Error") = false) ->
  project_result m (VDict d) r0 =
  (r2 <~ match dict_get "tags" d with
         | Some ts =>
             l <~ iter ts ;;
             tags <~ collect_tags l [] ;;
             Ret (dict_set "tags" (VDict tags) (copied d r0))
         | None => Ret (copied d r0)
         end ;;
   match dict_get "nic" d with
   | Some ns =>
       l <~ iter ns ;;
       r3 <~ default_ip l r2 ;;
       Ret (dict_set "nic" ns r3)
   | None => Ret r2
   end).
Proof.
  intros Hd Hs. unfold project_result.
  assert (T : truthy (VDict d) = true)
    by (destruct d; [congruence|reflexivity]).
  rewrite T. unfold contains, contains_val, dict_has. cbn [subscript].
  assert (C : forall A (k : dict -> res A),
            (r <~ copy_key (VDict d) "id" "id" r0 ;;
             r <~ copy_key (VDict d) "name" "name" r ;;
             r <~ copy_key (VDict d) "displayname" "display_name" r ;;
             r <~ copy_key (VDict d) "group" "group" r ;;
             r <~ copy_key (VDict d) "password" "password" r ;;
             r <~ copy_key (VDict d) "serviceofferingname"
                    "service_offering" r ;;
             r <~ copy_key (VDict d) "zonename" "zone" r ;;
             r <~ copy_key (VDict d) "templatename" "template" r ;;
             r <~ copy_key (VDict d) "isoname" "iso" r ;;
             r <~ copy_key (VDict d) "created" "created" r ;;
             r <~ copy_key (VDict d) "state" "vm_state" r ;;
             k r) = k (copied d r0)).
  { intros A k. repeat (rewrite copy_key_dict; cbn [rbind]). reflexivity. }
  destruct (dict_get "state" d) as [s|] eqn:Es; cbn [rbind].
  - rewrite (Hs s eq_refl), C.
    destruct (dict_get "tags" d), (dict_get "nic" d); reflexivity.
  - rewrite C.
    destruct (dict_get "tags" d), (dict_get "nic" d); reflexivity.
Qed.

Lemma project_result_field d r0 r x :
  d <> [] ->
  (forall s, dict_get "state" d = Some s -> py_eq s (VStr "Error") = false) ->
  project_result m (VDict d) r0 = Ret r ->
  String.eqb x "tags" = false ->
  String.eqb x "nic" = false ->
  String.eqb x "default_ip" = false ->
  dict_get x r = dict_get x (copied d r0).
Proof.
  intros Hd Hs E Xt Xn Xd. rewrite (project_result_dict d r0 Hd Hs) in E.
  apply rbind_ret_inv in E as (r2 & E2 & E).
  assert (R2 : dict_get x r2 = dict_get x (copied d r0)).
  { destruct (dict_get "tags" d); [|now inversion E2].
    apply rbind_ret_inv in E2 as (l & _ & E2).
    apply rbind_ret_inv in E2 as (tags & _ & E2). inversion E2.
    now apply dict_get_set_other. }
  rewrite <- R2. destruct (dict_get "nic" d); [|now inversion E].
  apply rbind_ret_inv in E as (l & _ & E).
  apply rbind_ret_inv in E as (r3 & E3 & E). inversion E.
  rewrite dict_get_set_other by exact Xn.
  exact (default_ip_other _ _ _ _ E3 Xd).
Qed.

(** X18.  What [main] reports about the machine that the transition left, with
    [result] as [{'changed': b}].
    - Without a machine ([None], or an empty answer) the report is
      [changed] alone.
    - A machine whose [state] is [Error] makes the invocation fail, with
      the module's [name] in the message, and nothing is reported.
    - For any other machine, every report that is given carries [changed]
      and, for each of the eleven fields of the table, the machine's
      value under the result's name when the machine has the field, and
      no such key when it has not.  A machine without [tags] and without
      [nic] is always reported, and its report has no [tags], [nic] or
      [default_ip]. *)
Theorem report_copies_the_fields (vm : value) (b : bool) :
  let result := [("changed", VBool b)] in
  (truthy vm = false -> project_result m vm result = Ret result) /\
  (forall d s,
     vm = VDict d ->
     dict_get "state" d = Some s ->
     py_eq s (VStr "Error") = true ->
     project_result m vm result =
     Exc (FailJson (Format "Virtual machine named '%s' in error state."
                           (param m "name")))) /\
  (forall d,
     vm = VDict d ->
     d <> [] ->
     (forall s, dict_get "state" d = Some s ->
                py_eq s (VStr "Error") = false) ->
     (forall r,
        project_result m vm result = Ret r ->
        dict_get "changed" r = Some (VBool b) /\
        (forall k k', In (k, k') result_names ->
                      dict_get k' r = dict_get k d)) /\
     (dict_get "tags" d = None ->
      dict_get "nic" d = None ->
      exists r,
        project_result m vm result = Ret r /\
        dict_get "tags" r = None /\
        dict_get "nic" r = None /\
        dict_get "default_ip" r = None)).
Proof.
  cbv zeta. split; [|split].
  - intros T. unfold project_result. now rewrite T.
  - intros d s -> Es Err. unfold project_result.
    assert (T : truthy (VDict d) = true)
      by (destruct d; [discriminate|reflexivity]).
    rewrite T. unfold contains, contains_val, dict_has. cbn [subscript].
    rewrite Es. cbn [rbind]. now rewrite Err.
  - intros d -> Hd Hs. split.
    + intros r E. split.
      * now rewrite (project_result_changed m _ _ _ E).
      * intros k k' Hin.
        assert (F : dict_get k' r =
                    dict_get k' (copied d [("changed", VBool b)])).
        { cbn [In result_names] in Hin.
          repeat (destruct Hin as [Ek|Hin];
                  [inversion Ek; subst k k';
                   now apply (project_result_field _ _ _ _ Hd Hs E)|]).
          destruct Hin. }
        rewrite F, (copied_field _ _ _ _ Hin).
        destruct (dict_get k d); [reflexivity|].
        cbn [In result_names] in Hin.
        repeat (destruct Hin as [Ek|Hin];
                [inversion Ek; subst k k'; reflexivity|]).
        destruct Hin.
    + intros Et En. rewrite (project_result_dict d _ Hd Hs), Et, En.
      cbn [rbind]. eexists. split; [reflexivity|].
      rewrite !copied_other by reflexivity. repeat split; reflexivity.
Qed.

(** X19.  The tags that [main] reports.  When the machine carries [tags] and a
    report is given, the report has a dict under [tags]; a key that
    several tags carry has the value of the last of them, and a key that
    no tag carries is not in the dict. *)
Theorem last_tag_wins (d : dict) (b : bool) (r : dict) (l : list value) :
  d <> [] ->
  (forall s, dict_get "state" d = Some s -> py_eq s (VStr "Error") = false) ->
  project_result m (VDict d) [("changed", VBool b)] = Ret r ->
  dict_get "tags" d = Some (VList l) ->
  exists tags,
    dict_get "tags" r = Some (VDict tags) /\
    (forall l1 tag l2 k v,
       l = l1 ++ tag :: l2 ->
       subscript tag "key" = Ret (VStr k) ->
       subscript tag "value" = Ret v ->
       Forall (keyless k) l2 ->
       dict_get k tags = Some v) /\
    (forall k, Forall (keyless k) l -> dict_get k tags = None).
Proof.
  intros Hd Hs E Et. rewrite (project_result_dict d _ Hd Hs), Et in E.
  apply rbind_ret_inv in E as (r2 & E2 & E). cbn [iter rbind] in E2.
  apply rbind_ret_inv in E2 as (tags & Ec & E2). inversion E2 as [R2].
  exists tags. split; [|split].
  - assert (R : dict_get "tags" r = dict_get "tags" r2).
    { destruct (dict_get "nic" d); [|now inversion E].
      apply rbind_ret_inv in E as (l' & _ & E).
      apply rbind_ret_inv in E as (r3 & E3 & E). inversion E.
      rewrite dict_get_set_other by reflexivity.
      now apply (default_ip_other _ _ _ _ E3). }
    rewrite R, <- R2. apply dict_get_set_same.
  - intros l1 tag l2 k v -> Ek Ev Hl.
    exact (collect_tags_last _ _ _ _ _ _ _ Ec Ek Ev Hl).
  - intros k Hl. now rewrite (collect_tags_keyless _ _ _ _ Ec Hl).
Qed.

(** X20.  The interfaces that [main] reports.  When the machine carries [nic]
    and a report is given, the list is reported as it is under [nic];
    [default_ip] is the address of the last interface that is flagged as
    the default, and the report has no [default_ip] when no interface is
    flagged. *)
Theorem default_ip_is_the_last_flagged_nic (d : dict) (b : bool) (r : dict)
  (l : list value) :
  d <> [] ->
  (forall s, dict_get "state" d = Some s -> py_eq s (VStr "Error") = false) ->
  project_result m (VDict d) [("changed", VBool b)] = Ret r ->
  dict_get "nic" d = Some (VList l) ->
  dict_get "nic" r = Some (VList l) /\
  (forall l1 nic l2 f ip,
     l = l1 ++ nic :: l2 ->
     subscript nic "isdefault" = Ret f ->
     truthy f = true ->
     subscript nic "ipaddress" = Ret ip ->
     Forall unflagged l2 ->
     dict_get "default_ip" r = Some ip) /\
  (Forall unflagged l -> dict_get "default_ip" r = None).
Proof.
  intros Hd Hs E En. rewrite (project_result_dict d _ Hd Hs), En in E.
  apply rbind_ret_inv in E as (r2 & E2 & E). cbn [iter rbind] in E.
  apply rbind_ret_inv in E as (r3 & E3 & E). inversion E as [R].
  assert (R2 : dict_get "default_ip" r2 = None).
  { destruct (dict_get "tags" d).
    - apply rbind_ret_inv in E2 as (l' & _ & E2).
      apply rbind_ret_inv in E2 as (tags & _ & E2). inversion E2.
      rewrite dict_get_set_other by reflexivity.
      now apply copied_other.
    - inversion E2. now apply copied_other. }
  split; [|split].
  - apply dict_get_set_same.
  - intros l1 nic l2 f ip -> Ef Tf Ei Hl.
    rewrite dict_get_set_other by reflexivity.
    exact (default_ip_last _ _ _ _ _ _ _ E3 Ef Tf Ei Hl).
  - intros Hl. rewrite dict_get_set_other by reflexivity.
    now rewrite (default_ip_unflagged _ _ _ E3 Hl).
Qed.

End Report.

(** ** The arguments of the deploy *)

Section Payload.

Context {P : Type} `{Provider P}.
Variable m : module.

(** X21.  The [args] that [create_vm] builds for [deployVirtualMachine].  When
    they are built, the seven resolvers have run in the order of the
    file, each from the state the one before left, and [args] carries
    what each one returned, the network identifiers joined by commas;
    [name], [group], [keypair] and [size] are the module's [name],
    [group], [ssh_key] and [disk_size]; [displayname] is [display_name],
    or [name] when that is empty; [userdata] is the base64 encoding of
    [user_data], and is not sent when that is empty; the names of the
    security groups and of the affinity groups are joined by commas, and
    are the empty string when there are none. *)
Theorem deploy_payload (w : world P) (args : dict) (w' : world P) :
  create_args m w = (Ret args, w') ->
  (exists t w1 z w2 so w3 pid w4 nids w5 joined dsk w6 hyp,
     get_template_or_iso_id m w = (Ret t, w1) /\
     get_zone_id m w1 = (Ret z, w2) /\
     get_service_offering_id m w2 = (Ret so, w3) /\
     get_project_id m w3 = (Ret pid, w4) /\
     get_network_ids m w4 = (Ret nids, w5) /\
     join "," nids = Ret joined /\
     get_disk_offering_id m w5 = (Ret dsk, w6) /\
     get_hypervisor m w6 = (Ret hyp, w') /\
     dict_get "templateid" args = Some t /\
     dict_get "zoneid" args = Some z /\
     dict_get "serviceofferingid" args = Some so /\
     dict_get "projectid" args = Some pid /\
     dict_get "networkids" args = Some joined /\
     dict_get "diskofferingid" args = Some dsk /\
     dict_get "hypervisor" args = Some hyp) /\
  dict_get "name" args = Some (param m "name") /\
  dict_get "group" args = Some (param m "group") /\
  dict_get "keypair" args = Some (param m "ssh_key") /\
  dict_get "size" args = Some (param m "disk_size") /\
  dict_get "displayname" args =
    Some (if truthy (param m "display_name") then param m "display_name"
          else param m "name") /\
  (if truthy (param m "user_data")
   then exists u, param m "user_data" = VStr u /\
                  dict_get "userdata" args = Some (VStr (b64encode u))
   else dict_get "userdata" args = None) /\
  (exists names,
     dict_get "securitygroupnames" args = Some names /\
     if truthy (param m "security_groups")
     then join "," (param m "security_groups") = Ret names
     else names = VStr "") /\
  (exists names,
     dict_get "affinitygroupnames" args = Some names /\
     if truthy (param m "affinity_groups")
     then join "," (param m "affinity_groups") = Ret names
     else names = VStr "").
Proof.
  unfold create_args. intros E.
  apply bind_ret_inv in E as (t & wa & Et & E).
  apply bind_ret_inv in E as (z & wb & Ez & E).
  apply bind_ret_inv in E as (so & wc & Eso & E).
  apply bind_ret_inv in E as (pid & wd & Ep & E).
  apply bind_ret_inv in E as (nids & we & En & E).
  apply bind_ret_inv in E as (nets & wf & Ej & E).
  apply bind_ret_inv in E as (disk & wg & Ed & E).
  apply bind_ret_inv in E as (hyp & wh & Eh & E).
  cbv zeta in E.
  apply bind_ret_inv in E as (a1 & wi & Eud & E).
  apply bind_ret_inv in E as (sgn & wj & Esg & E).
  apply bind_ret_inv in E as (agn & wk & Eag & E).
  unfold ret in E. inversion E; subst args w'. clear E.
  unfold lift in Ej. inversion Ej; subst wf. clear Ej.
  assert (Wj : wj = wi /\
               if truthy (param m "security_groups")
               then join "," (param m "security_groups") = Ret sgn
               else sgn = VStr "").
  { destruct (truthy (param m "security_groups")); unfold lift, ret in Esg;
      inversion Esg; auto. }
  assert (Wk : wk = wj /\
               if truthy (param m "affinity_groups")
               then join "," (param m "affinity_groups") = Ret agn
               else agn = VStr "").
  { destruct (truthy (param m "affinity_groups")); unfold lift, ret in Eag;
      inversion Eag; auto. }
  destruct Wj as [-> Wj], Wk as [-> Wk]. clear Esg Eag.
  assert (Ids :
    forall a,
      dict_get "templateid" a = Some t ->
      dict_get "zoneid" a = Some z ->
      dict_get "serviceofferingid" a = Some so ->
      dict_get "projectid" a = Some pid ->
      dict_get "networkids" a = Some nets ->
      dict_get "diskofferingid" a = Some disk ->
      dict_get "hypervisor" a = Some hyp ->
      wi = wh ->
      exists t w1 z w2 so w3 pid w4 nids w5 joined dsk w6 hyp,
        get_template_or_iso_id m w = (Ret t, w1) /\
        get_zone_id m w1 = (Ret z, w2) /\
        get_service_offering_id m w2 = (Ret so, w3) /\
        get_project_id m w3 = (Ret pid, w4) /\
        get_network_ids m w4 = (Ret nids, w5) /\
        join "," nids = Ret joined /\
        get_disk_offering_id m w5 = (Ret dsk, w6) /\
        get_hypervisor m w6 = (Ret hyp, wi) /\
        dict_get "templateid" a = Some t /\
        dict_get "zoneid" a = Some z /\
        dict_get "serviceofferingid" a = Some so /\
        dict_get "projectid" a = Some pid /\
        dict_get "networkids" a = Some joined /\
        dict_get "diskofferingid" a = Some dsk /\
        dict_get "hypervisor" a = Some hyp).
  { intros a A1 A2 A3 A4 A5 A6 A7 ->.
    exists t, wa, z, wb, so, wc, pid, wd, nids, we, nets, disk, wg, hyp.
    repeat split; assumption. }
  destruct (truthy (param m "user_data")) eqn:Tu.
  - destruct (param m "user_data") as [| | |u| |]; try discriminate.
    unfold ret in Eud. inversion Eud as [[Ea Ew]]. clear Eud.
    split; [apply Ids; auto; reflexivity|].
    do 4 (split; [reflexivity|]).
    split; [destruct (truthy (param m "display_name")); reflexivity|].
    split; [exists u; split; reflexivity|].
    split; [exists sgn|exists agn]; (split; [reflexivity|assumption]).
  - unfold ret in Eud. inversion Eud as [[Ea Ew]]. clear Eud.
    split; [apply Ids; auto; reflexivity|].
    do 4 (split; [reflexivity|]).
    split; [destruct (truthy (param m "display_name")); reflexivity|].
    split; [reflexivity|].
    split; [exists sgn|exists agn]; (split; [reflexivity|assumption]).
Qed.

End Payload.

(** ** Concrete runs *)

(** A job that is pending once and then done: two queries, two seconds,
    and the machine of the payload comes back. *)
Lemma poll_job_contract_witness :
  subscript job_handle "jobid" = Ret (VStr "j-7") /\
  polls (VStr "j-7") 1
        [job_pending; job_done (web_vm "Stopped" "so-1")]
        (VDict [("jobid", VStr "j-7"); ("jobstatus", VInt 1);
                ("jobresult",
                 VDict [("virtualmachine", web_vm "Stopped" "so-1")])])
        [] /\
  fst (_poll_job 2 job_handle (VStr "virtualmachine")
         (init [job_pending; job_done (web_vm "Stopped" "so-1")])) =
  Ret (web_vm "Stopped" "so-1").
Proof.
  assert (Hp : polls (VStr "j-7") 1
                 [job_pending; job_done (web_vm "Stopped" "so-1")]
                 (VDict [("jobid", VStr "j-7"); ("jobstatus", VInt 1);
                         ("jobresult",
                          VDict [("virtualmachine",
                                  web_vm "Stopped" "so-1")])])
                 []).
  { eapply polls_wait; [reflexivity|reflexivity|].
    apply polls_last; reflexivity. }
  split; [reflexivity|]. split; [exact Hp|].
  exact (proj1 (proj2 (poll_job_contract 2 job_handle "virtualmachine"
                         (init [job_pending;
                                job_done (web_vm "Stopped" "so-1")]))
                  (VStr "j-7") 1 _ [] _ eq_refl Hp eq_refl
                  (Nat.lt_succ_diag_r 1))).
Defined.

(** Asked to stop the running machine [web], the module calls nothing
    but the listing and reports no change. *)
Lemma stop_submitted_iff_starting_witness :
  state_of (web_vm "Running" "so-1") = Ret "running" /\
  mutations (snd (reconcile (task "stopped" false) 1
                    [vm_listing (web_vm "Running" "so-1")])) = [] /\
  result_changed (snd (reconcile (task "stopped" false) 1
                         [vm_listing (web_vm "Running" "so-1")])) = false.
Proof.
  pose proof (stop_submitted_iff_starting (task "stopped" false) 1
                [vm_listing (web_vm "Running" "so-1")]
                (web_vm "Running" "so-1") _ "running" (VStr "vm-1")
                eq_refl eq_refl eq_refl eq_refl eq_refl) as T.
  cbv zeta in T. destruct T as (A & B & _).
  split; [reflexivity|]. split; [exact A|exact B].
Defined.


(** Asked to expunge the destroyed machine [web], the module submits the
    expunge alone. *)
Lemma destroy_and_expunge_transitions_witness :
  state_of (web_vm "Destroyed" "so-1") = Ret "destroyed" /\
  mutations (snd (reconcile (task "expunged" false) 1
                    [vm_listing (web_vm "Destroyed" "so-1");
                     Reply (VDict [("success", VBool true)])])) =
  [expungeVirtualMachine (VStr "vm-1")].
Proof.
  pose proof (destroy_and_expunge_transitions (task "expunged" false) 1
                [vm_listing (web_vm "Destroyed" "so-1");
                 Reply (VDict [("success", VBool true)])]
                (web_vm "Destroyed" "so-1") _ "destroyed" (VStr "vm-1")
                eq_refl eq_refl eq_refl eq_refl) as T.
  cbv zeta in T. destruct T as (_ & E).
  destruct (E eq_refl) as (A & _).
  split; [reflexivity|exact A].
Defined.

(** C1.  The running machine [web] has offering [so-1] and is asked to
    have [Big] ([so-2]).  The invocation lists the machines and the
    offerings and then calls [scaleVirtualMachine] on the machine as it
    runs: [stop_vm] does not stop a machine in state [running], and
    [start_vm], which reads the cached snapshot, does not start it.  The
    state it reports is the one it read before the scale. *)
Theorem scale_of_running_vm_neither_stops_nor_starts :
  let out := reconcile (resize_task false) 3
               [vm_listing (web_vm "Running" "so-1"); offering_listing;
                Reply job_handle] in
  calls (snd out) =
    [listVirtualMachines VNone; listServiceOfferings;
     scaleVirtualMachine (VStr "vm-1") (VStr "so-2")] /\
  mutations (snd out) = [scaleVirtualMachine (VStr "vm-1") (VStr "so-2")] /\
  fst out =
    Ret [("changed", VBool true); ("id", VStr "vm-1"); ("name", VStr "web");
         ("display_name", VStr "web"); ("vm_state", VStr "Running")].
Proof. cbv zeta. repeat split; reflexivity. Qed.

(** C9.  The provider answers the reboot of the running machine [web] in
    band with an [errortext].  [restart_vm] does not look at it: the
    invocation ends normally and reports a change.  The same answer to
    [stopVirtualMachine], for the machine in state [Starting], ends the
    invocation with [fail_json]; and the same answer to
    [scaleVirtualMachine] is dropped by [scale_vm]. *)
Theorem errortext_of_reboot_and_scale_is_ignored :
  fst (reconcile (task "restarted" false) 1
         [vm_listing (web_vm "Running" "so-1");
          refusal "Unable to reboot"]) =
    Ret [("changed", VBool true)] /\
  fst (reconcile (task "stopped" false) 1
         [vm_listing (web_vm "Starting" "so-1");
          refusal "Unable to stop"]) =
    Exc (FailJson (Format "Failed: '%s'" (VStr "Unable to stop"))) /\
  fst (reconcile (resize_task false) 1
         [vm_listing (web_vm "Stopped" "so-1"); offering_listing;
          refusal "Unable to scale"]) =
    Ret [("changed", VBool true); ("id", VStr "vm-1"); ("name", VStr "web");
         ("display_name", VStr "web"); ("vm_state", VStr "Stopped")].
Proof. repeat split; reflexivity. Qed.

(** C7 as stated fails: with both selectors given and no machine [web],
    the invocation fails with the message of the resolver, but only after
    it has asked the provider for the machines, twice. *)
Lemma invalid_spec_comes_after_remote_calls :
  let out := reconcile both_selectors_task 1
               [no_vm_listing; no_vm_listing] in
  fst out =
    Exc (FailJson (Text "Template are ISO are mutually exclusive.")) /\
  calls (snd out) = [listVirtualMachines VNone; listVirtualMachines VNone] /\
  calls (snd out) <> [].
Proof. cbv zeta. repeat split. discriminate. Qed.

Lemma invalid_spec_after_the_lookup_only_witness :
  truthy (param both_selectors_task "template") =
  truthy (param both_selectors_task "iso") /\
  mutations (snd (reconcile both_selectors_task 1
                    [no_vm_listing; no_vm_listing])) = [] /\
  forallb lookup_call
    (calls (snd (reconcile both_selectors_task 1
                   [no_vm_listing; no_vm_listing]))) = true.
Proof.
  pose proof (invalid_spec_after_the_lookup_only both_selectors_task 1
                [no_vm_listing; no_vm_listing] _ _ _ _
                eq_refl eq_refl eq_refl eq_refl eq_refl eq_refl) as T.
  cbv zeta in T. destruct T as (_ & _ & L & N).
  split; [reflexivity|]. split; [exact N|exact L].
Defined.

(** Machine [web] has offering [so-2]; no offering is asked for, and the
    first one listed is [so-1]: the machine is scaled to [so-1]. *)
Lemma first_offering_is_the_default_witness :
  truthy (param (task "present" false) "service_offering") = false /\
  mutations (snd (reconcile (task "present" false) 1
                    [vm_listing (web_vm "Stopped" "so-2"); offering_listing;
                     Reply job_handle])) =
  [scaleVirtualMachine (VStr "vm-1") (VStr "so-1")].
Proof.
  pose proof (first_offering_is_the_default (P := script)
                (task "present" false) 1 eq_refl) as (_ & _ & S).
  specialize (S [vm_listing (web_vm "Stopped" "so-2"); offering_listing;
                 Reply job_handle]
                (web_vm "Stopped" "so-2") _ _ _ (VStr "so-1") (VStr "so-2")
                eq_refl eq_refl eq_refl eq_refl eq_refl eq_refl eq_refl
                eq_refl).
  cbv zeta in S. destruct S as (_ & S).
  split; [reflexivity|].
  exact (S eq_refl "stopped" (VStr "vm-1") eq_refl eq_refl eq_refl eq_refl).
Defined.





(** ** Concrete runs of the further properties *)

Lemma start_submitted_iff_stopped_witness :
  state_of (web_vm "Stopped" "so-1") = Ret "stopped" /\
  mutations (snd (reconcile (task "started" false) 1
                    [vm_listing (web_vm "Stopped" "so-1"); Reply job_handle;
                     job_done (web_vm "Running" "so-1")])) =
  [startVirtualMachine (VStr "vm-1")].
Proof.
  pose proof (start_submitted_iff_stopped (task "started" false) 1
                [vm_listing (web_vm "Stopped" "so-1"); Reply job_handle;
                 job_done (web_vm "Running" "so-1")]
                (web_vm "Stopped" "so-1") _ "stopped" (VStr "vm-1")
                eq_refl eq_refl eq_refl eq_refl eq_refl) as T.
  cbv zeta in T. destruct T as (A & _).
  split; [reflexivity|exact A].
Defined.

Lemma stop_of_missing_vm_fails_witness :
  truthy (VNone) = false /\
  fst (reconcile (task "stopped" false) 1 [no_vm_listing; no_vm_listing]) =
    Exc (FailJson (Format "Virtual machine named '%s' not found"
                          (VStr "web"))).
Proof.
  pose proof (stop_of_missing_vm_fails (task "stopped" false) 1
                [no_vm_listing; no_vm_listing] _ _ _ _
                eq_refl eq_refl eq_refl eq_refl) as T.
  cbv zeta in T. destruct T as (A & _).
  split; [reflexivity|exact A].
Defined.

Lemma start_or_restart_of_missing_vm_is_a_name_error_witness :
  truthy (VNone) = false /\
  fst (reconcile (task "restarted" false) 1 [no_vm_listing; no_vm_listing]) =
    Exc (NameError "module").
Proof.
  pose proof (start_or_restart_of_missing_vm_is_a_name_error
                (task "restarted" false) 1
                [no_vm_listing; no_vm_listing] _ _ _ _
                eq_refl eq_refl eq_refl eq_refl) as T.
  cbv zeta in T. destruct T as (A & _).
  split; [reflexivity|exact A].
Defined.

Lemma no_mutation_without_changed_witness :
  mutations (snd (reconcile (task "absent" false) 1
                    [vm_listing (web_vm "Running" "so-1"); Reply job_handle;
                     job_done (web_vm "Destroyed" "so-1")])) <> [] /\
  result_changed (snd (reconcile (task "absent" false) 1
                         [vm_listing (web_vm "Running" "so-1");
                          Reply job_handle;
                          job_done (web_vm "Destroyed" "so-1")])) = true.
Proof.
  assert (N : mutations
                (snd (reconcile (task "absent" false) 1
                        [vm_listing (web_vm "Running" "so-1");
                         Reply job_handle;
                         job_done (web_vm "Destroyed" "so-1")])) <> [])
    by discriminate.
  split; [exact N|].
  exact (proj1 (no_mutation_without_changed (task "absent" false) 1 _ N)).
Defined.

(** With [poll_async] off the destroy of the running machine is
    submitted and not waited for. *)
Lemma nothing_is_awaited_when_poll_async_is_off_witness :
  truthy (param (unawaited_task "absent") "poll_async") = false /\
  mutations (snd (reconcile (unawaited_task "absent") 1
                    [vm_listing (web_vm "Running" "so-1");
                     Reply job_handle])) =
    [destroyVirtualMachine (VStr "vm-1") false] /\
  queries (snd (reconcile (unawaited_task "absent") 1
                  [vm_listing (web_vm "Running" "so-1");
                   Reply job_handle])) = [].
Proof.
  split; [reflexivity|]. split; [reflexivity|].
  exact (nothing_is_awaited_when_poll_async_is_off (unawaited_task "absent") 1
           eq_refl
           [vm_listing (web_vm "Running" "so-1"); Reply job_handle]
           (or_introl eq_refl)).
Defined.

(** Five rounds against the provider that is stuck: five queries, ten
    seconds, no result. *)
Lemma poller_never_gives_up_witness :
  subscript job_handle "jobid" = Ret (VStr "j-7") /\
  fst (_poll_job 5 job_handle (VStr "virtualmachine") (init tt)) = Cut /\
  slept (snd (_poll_job 5 job_handle (VStr "virtualmachine") (init tt))) = 10.
Proof.
  pose proof (poller_never_gives_up (P := unit) 5 (fun _ => True)
                (VStr "j-7")
                (fun q _ => ex_intro _ _ (ex_intro _ tt
                                            (conj eq_refl (conj eq_refl I))))
                job_handle (VStr "virtualmachine") (init tt) eq_refl I) as T.
  cbv zeta in T. destruct T as (F & _ & S).
  split; [reflexivity|]. split; [exact F|exact S].
Defined.

(** The listing of the machines is refused by the client. *)
Lemma client_exception_is_reported_witness :
  lookup (task "stopped" false) (init [Refuse "HTTP 401"]) =
    (Exc (CloudStackException "HTTP 401"),
     record_call (listVirtualMachines VNone) [] (init [Refuse "HTTP 401"])) /\
  fst (reconcile (task "stopped" false) 1 [Refuse "HTTP 401"]) =
    Exc (FailJson (Format "CloudStackException: %s" (VStr "HTTP 401"))).
Proof.
  split; [reflexivity|].
  exact (f_equal fst
           (proj1 (proj2 (client_exception_is_reported
                            (task "stopped" false) 1 [Refuse "HTTP 401"]))
              _ _ "HTTP 401" eq_refl eq_refl)).
Defined.

(** The provider refuses, in band, to stop the starting machine. *)
Lemma inband_error_fails_the_transition_witness :
  dict_get "errortext"
    [("errorcode", VInt 431); ("errortext", VStr "Unable to stop")] =
    Some (VStr "Unable to stop") /\
  fst (reconcile (task "stopped" false) 1
         [vm_listing (web_vm "Starting" "so-1"); refusal "Unable to stop"]) =
    Exc (FailJson (Format "Failed: '%s'" (VStr "Unable to stop"))).
Proof.
  pose proof (inband_error_fails_the_transition (task "stopped" false) 1
                [vm_listing (web_vm "Starting" "so-1");
                 refusal "Unable to stop"]
                (web_vm "Starting" "so-1") _ "starting" (VStr "vm-1")
                [("errorcode", VInt 431); ("errortext", VStr "Unable to stop")]
                (VStr "Unable to stop")
                eq_refl eq_refl eq_refl eq_refl eq_refl eq_refl) as T.
  cbv zeta in T. destruct T as (T & _).
  split; [reflexivity|].
  exact (f_equal fst (T eq_refl eq_refl [] eq_refl)).
Defined.

(** Machine [web] is asked for from a template and with no network: the
    template, the zone and the offering are resolved, and the invocation
    ends with [TypeError] before anything is deployed. *)
Lemma no_machine_is_created_without_networks_witness :
  truthy (param create_task "networks") = false /\
  mutations (snd (reconcile create_task 1
                    [no_vm_listing; no_vm_listing; template_listing;
                     zone_listing; offering_listing])) = [] /\
  fst (reconcile create_task 1
         [no_vm_listing; no_vm_listing; template_listing; zone_listing;
          offering_listing]) = Exc TypeError.
Proof.
  pose proof (no_machine_is_created_without_networks create_task 1
                [no_vm_listing; no_vm_listing; template_listing;
                 zone_listing; offering_listing] _ _
                eq_refl eq_refl eq_refl eq_refl) as T.
  cbv zeta in T. destruct T as (M & T).
  destruct (T _ _ eq_refl eq_refl) as (_ & E).
  split; [reflexivity|]. split; [exact M|].
  exact (f_equal fst (E _ _ eq_refl)).
Defined.

(** Project [infra] is the second of the listing. *)
Lemma project_resolution_witness :
  truthy (param full_task "project") = true /\
  get_project_id full_task (init [project_listing]) =
  (Ret (VStr "p-2"),
   store_project_id (VStr "p-2")
     (record_call listProjects [] (init [project_listing]))).
Proof.
  split; [reflexivity|].
  assert (Hm : Forall (miss (VStr "infra") ["name"; "displaytext"; "id"])
                 [VDict [("id", VStr "p-1"); ("name", VStr "ops");
                         ("displaytext", VStr "Operations")]]).
  { constructor; [|constructor]. eexists. split; reflexivity. }
  assert (Hh : hit (VStr "infra") ["name"; "displaytext"; "id"]
                 (VDict [("id", VStr "p-2"); ("name", VStr "infra");
                         ("displaytext", VStr "Infrastructure")])).
  { eexists. split; reflexivity. }
  pose proof (proj2 (proj2 (project_resolution full_task
                              (init [project_listing])))
                eq_refl eq_refl _ _ eq_refl) as T.
  cbv zeta in T.
  exact (proj1 (proj1 T
                  [VDict [("id", VStr "p-1"); ("name", VStr "ops");
                          ("displaytext", VStr "Operations")]]
                  (VDict [("id", VStr "p-2"); ("name", VStr "infra");
                          ("displaytext", VStr "Infrastructure")])
                  [] (VStr "p-2") eq_refl Hm Hh eq_refl)).
Defined.

(** Zone [ch-gva-2] is found by its name. *)
Lemma zone_resolution_witness :
  truthy (param full_task "zone") = true /\
  fst (get_zone_id full_task (init [zone_listing])) = Ret (VStr "zone-1").
Proof.
  split; [reflexivity|].
  assert (Hh : hit (VStr "ch-gva-2") ["name"; "id"]
                 (VDict [("id", VStr "zone-1"); ("name", VStr "ch-gva-2")])).
  { eexists. split; reflexivity. }
  pose proof (proj2 (zone_resolution full_task (init [zone_listing]))
                eq_refl _ _ eq_refl) as T.
  cbv zeta in T.
  exact (f_equal fst
           (proj1 (proj2 T eq_refl) []
              (VDict [("id", VStr "zone-1"); ("name", VStr "ch-gva-2")])
              [] (VStr "zone-1") eq_refl (Forall_nil _) Hh eq_refl)).
Defined.

(** Offering [Big] is the second of the listing. *)
Lemma offering_resolution_witness :
  truthy (param full_task "service_offering") = true /\
  fst (get_service_offering_id full_task (init [offering_listing])) =
  Ret (VStr "so-2").
Proof.
  split; [reflexivity|].
  assert (Hm : Forall (miss (VStr "Big") ["name"; "id"])
                 [VDict [("id", VStr "so-1"); ("name", VStr "Tiny")]]).
  { constructor; [|constructor]. eexists. split; reflexivity. }
  assert (Hh : hit (VStr "Big") ["name"; "id"]
                 (VDict [("id", VStr "so-2"); ("name", VStr "Big")])).
  { eexists. split; reflexivity. }
  pose proof (offering_resolution full_task (init [offering_listing])
                _ _ eq_refl) as T.
  cbv zeta in T.
  exact (f_equal fst
           (proj1 (proj2 T eq_refl)
              [VDict [("id", VStr "so-1"); ("name", VStr "Tiny")]]
              (VDict [("id", VStr "so-2"); ("name", VStr "Big")])
              [] (VStr "so-2") eq_refl Hm Hh eq_refl)).
Defined.

(** The template is found by its display text. *)
Lemma template_or_iso_resolution_witness :
  truthy (param full_task "template") = true /\
  truthy (param full_task "iso") = false /\
  fst (get_template_or_iso_id full_task (init [template_listing])) =
  Ret (VStr "tpl-1").
Proof.
  split; [reflexivity|]. split; [reflexivity|].
  assert (Hh : hit (VStr "Linux Debian 7 64-bit") ["displaytext"; "name"; "id"]
                 (VDict [("id", VStr "tpl-1"); ("name", VStr "debian-7");
                         ("displaytext", VStr "Linux Debian 7 64-bit")])).
  { eexists. split; reflexivity. }
  pose proof (proj1 (template_or_iso_resolution full_task
                       (init [template_listing]) _ _)
                eq_refl eq_refl eq_refl) as T.
  cbv zeta in T.
  exact (f_equal fst
           (proj1 T []
              (VDict [("id", VStr "tpl-1"); ("name", VStr "debian-7");
                      ("displaytext", VStr "Linux Debian 7 64-bit")])
              [] (VStr "tpl-1") eq_refl (Forall_nil _) Hh eq_refl)).
Defined.

(** No disk offering is called [SSD 50] in an empty answer. *)
Lemma disk_offering_resolution_witness :
  truthy (param full_task "disk_offering") = true /\
  fst (get_disk_offering_id full_task (init [disk_listing])) =
    Ret (VStr "do-2") /\
  fst (get_disk_offering_id full_task (init [Reply (VDict [])])) =
    Exc (FailJson (Format "Disk offering '%s' not found" (VStr "SSD 50"))).
Proof.
  split; [reflexivity|].
  assert (Hm : Forall (miss (VStr "SSD 50") ["name"; "id"])
                 [VDict [("id", VStr "do-1"); ("name", VStr "SSD 10")]]).
  { constructor; [|constructor]. eexists. split; reflexivity. }
  assert (Hh : hit (VStr "SSD 50") ["name"; "id"]
                 (VDict [("id", VStr "do-2"); ("name", VStr "SSD 50")])).
  { eexists. split; reflexivity. }
  split.
  - pose proof (proj2 (disk_offering_resolution full_task
                         (init [disk_listing])) eq_refl _ _ eq_refl) as T.
    cbv zeta in T.
    exact (f_equal fst
             (proj1 T
                [VDict [("id", VStr "do-1"); ("name", VStr "SSD 10")]]
                (VDict [("id", VStr "do-2"); ("name", VStr "SSD 50")])
                [] (VStr "do-2") eq_refl Hm Hh eq_refl)).
  - pose proof (proj2 (disk_offering_resolution full_task
                         (init [Reply (VDict [])])) eq_refl _ _ eq_refl) as T.
    cbv zeta in T.
    exact (f_equal fst (proj2 T (or_introl eq_refl))).
Defined.

(** [kvm] is found as [KVM], the way the provider spells it. *)
Lemma hypervisor_resolution_witness :
  param full_task "hypervisor" = VStr "kvm" /\
  fst (get_hypervisor full_task (init [hypervisor_listing])) =
  Ret (VStr "KVM").
Proof.
  split; [reflexivity|].
  assert (Ho : Forall (fun y => exists ny,
                         named ny y /\
                         lower_string ny <> lower_string "kvm")
                 [VDict [("name", VStr "VMware")]]).
  { constructor; [|constructor]. exists "VMware"%string.
    split; [reflexivity|discriminate]. }
  assert (Hne : "kvm"%string <> ""%string) by discriminate.
  pose proof (proj2 (hypervisor_resolution full_task
                       (init [hypervisor_listing])) eq_refl _ _ eq_refl) as T.
  cbv zeta in T.
  exact (f_equal fst
           (proj1 (proj2 (proj2 T) "kvm"%string eq_refl Hne)
              [VDict [("name", VStr "VMware")]]
              (VDict [("name", VStr "KVM")]) [] "KVM"%string
              eq_refl Ho eq_refl eq_refl)).
Defined.

(** [web-net] is selected by its name and [mgmt-net] by its identifier
    [net-3]; [db-net] is passed over. *)
Lemma network_resolution_witness :
  param full_task "networks" = VList [VStr "web-net"; VStr "net-3"] /\
  fst (get_network_ids full_task
         (init [zone_listing; project_listing; network_listing])) =
  Ret (VList [VStr "net-1"; VStr "net-3"]).
Proof.
  split; [reflexivity|].
  assert (Hne : [VStr "web-net"; VStr "net-3"] <> []) by discriminate.
  assert (Hn : Forall2 is_network
                 [VDict [("id", VStr "net-1"); ("name", VStr "web-net")];
                  VDict [("id", VStr "net-2"); ("name", VStr "db-net")];
                  VDict [("id", VStr "net-3"); ("name", VStr "mgmt-net")]]
                 [(VStr "web-net", VStr "net-1");
                  (VStr "db-net", VStr "net-2");
                  (VStr "mgmt-net", VStr "net-3")]).
  { repeat constructor. }
  pose proof (proj2 (network_resolution full_task
                       (init [zone_listing; project_listing;
                              network_listing]))
                _ _ _ _ _ _ _ eq_refl Hne eq_refl eq_refl eq_refl) as T.
  cbv zeta in T.
  exact (f_equal fst
           (proj1 T
              [VDict [("id", VStr "net-1"); ("name", VStr "web-net")];
               VDict [("id", VStr "net-2"); ("name", VStr "db-net")];
               VDict [("id", VStr "net-3"); ("name", VStr "mgmt-net")]]
              [(VStr "web-net", VStr "net-1");
               (VStr "db-net", VStr "net-2");
               (VStr "mgmt-net", VStr "net-3")] eq_refl Hn)).
Defined.

(** Machine [web] is the second of the listing. *)
Lemma vm_lookup_witness :
  truthy (self_vm (init [two_vm_listing])) = false /\
  fst (get_vm (task "stopped" false) (init [two_vm_listing])) =
  Ret (web_vm "Running" "so-1").
Proof.
  split; [reflexivity|].
  assert (Hm : Forall (miss (VStr "web") ["name"; "displayname"; "id"])
                 [db_vm]).
  { constructor; [|constructor]. eexists. split; reflexivity. }
  assert (Hh : hit (VStr "web") ["name"; "displayname"; "id"]
                 (web_vm "Running" "so-1")).
  { eexists. split; reflexivity. }
  pose proof (proj2 (vm_lookup (task "stopped" false)
                       (init [two_vm_listing]))
                eq_refl _ _ _ _ eq_refl eq_refl) as T.
  cbv zeta in T.
  exact (f_equal fst
           (proj1 T [db_vm] (web_vm "Running" "so-1") [] eq_refl Hm Hh)).
Defined.

(** The report of machine [web] in full. *)
Lemma report_copies_the_fields_witness :
  exists r,
    project_result (task "started" false) full_vm [("changed", VBool true)] =
    Ret r /\
    dict_get "changed" r = Some (VBool true) /\
    dict_get "service_offering" r = Some (VStr "Tiny") /\
    dict_get "group" r = None.
Proof.
  assert (Hs : forall s,
             dict_get "state" full_vm_fields = Some s ->
             py_eq s (VStr "Error") = false).
  { intros s Es. inversion Es. reflexivity. }
  assert (Hne : full_vm_fields <> []) by discriminate.
  eexists. split; [reflexivity|].
  pose proof (proj1 (proj2 (proj2 (report_copies_the_fields
                                     (task "started" false) full_vm true))
                       full_vm_fields eq_refl Hne Hs)
                _ eq_refl) as T.
  destruct T as [C F]. split; [exact C|]. split.
  - exact (F "serviceofferingname"%string "service_offering"%string
             (or_intror (or_intror (or_intror (or_intror (or_intror
                (or_introl eq_refl))))))).
  - exact (F "group"%string "group"%string
             (or_intror (or_intror (or_intror (or_introl eq_refl))))).
Defined.

(** Of the two tags with key [env] the second gives the value. *)
Lemma last_tag_wins_witness :
  exists r tags,
    project_result (task "started" false) full_vm [("changed", VBool true)] =
    Ret r /\
    dict_get "tags" r = Some (VDict tags) /\
    dict_get "env" tags = Some (VStr "prod") /\
    dict_get "owner" tags = None.
Proof.
  assert (Hs : forall s,
             dict_get "state" full_vm_fields = Some s ->
             py_eq s (VStr "Error") = false).
  { intros s Es. inversion Es. reflexivity. }
  assert (Hne : full_vm_fields <> []) by discriminate.
  assert (Hk : Forall (keyless "owner")
                 [VDict [("key", VStr "env"); ("value", VStr "dev")];
                  VDict [("key", VStr "env"); ("value", VStr "prod")]]).
  { repeat constructor; discriminate. }
  destruct (last_tag_wins (task "started" false) full_vm_fields true _ _
              Hne Hs eq_refl eq_refl)
    as (tags & A & B & C).
  eexists. exists tags. split; [reflexivity|]. split; [exact A|]. split.
  - exact (B [VDict [("key", VStr "env"); ("value", VStr "dev")]]
             (VDict [("key", VStr "env"); ("value", VStr "prod")])
             [] "env"%string (VStr "prod") eq_refl eq_refl eq_refl
             (Forall_nil _)).
  - exact (C "owner"%string Hk).
Defined.

(** The second interface is the default one. *)
Lemma default_ip_is_the_last_flagged_nic_witness :
  exists r,
    project_result (task "started" false) full_vm [("changed", VBool true)] =
    Ret r /\
    dict_get "default_ip" r = Some (VStr "185.19.28.7").
Proof.
  assert (Hs : forall s,
             dict_get "state" full_vm_fields = Some s ->
             py_eq s (VStr "Error") = false).
  { intros s Es. inversion Es. reflexivity. }
  assert (Hne : full_vm_fields <> []) by discriminate.
  destruct (default_ip_is_the_last_flagged_nic (task "started" false)
              full_vm_fields true _ _ Hne Hs eq_refl eq_refl)
    as (_ & B & _).
  eexists. split; [reflexivity|].
  exact (B [VDict [("isdefault", VBool false);
                   ("ipaddress", VStr "10.0.0.5")]]
           (VDict [("isdefault", VBool true);
                   ("ipaddress", VStr "185.19.28.7")])
           [] (VBool true) (VStr "185.19.28.7")
           eq_refl eq_refl eq_refl eq_refl (Forall_nil _)).
Defined.

(** The arguments that are built for machine [web] of [full_task]. *)
Lemma deploy_payload_witness :
  exists args,
    fst (create_args full_task (init deploy_answers)) = Ret args /\
    dict_get "displayname" args = Some (VStr "web") /\
    dict_get "size" args = Some VNone.
Proof.
  pose proof (deploy_payload full_task (init deploy_answers) _ _ eq_refl)
    as (_ & _ & _ & _ & Sz & Dn & _).
  eexists. split; [reflexivity|]. split; [exact Dn|exact Sz].
Defined.
